(** * SupplierDatabaseFU: Azure Functions over Microsoft Graph

    A shallow embedding of the four TypeScript sources

      - [src/functions/manageLicense.ts]
      - [src/functions/sendEmail/index.ts] (which also carries the older
        [manageLicense/index.ts])
      - [src/functions/handleActivityResponse.ts]
      - [src/functions/resetFreelancerPassword.ts]

    The handlers are sequential [async] functions whose only effects are
    calls to the Graph client, log lines, clock reads and random draws.
    They are embedded in a state-and-exception monad [M] over an explicit
    [World] (what the remote service, the clock and the random source
    answer) and an explicit [St] (what the invocation has done so far). *)

From Stdlib Require Import ZArith NArith List String Ascii Bool Arith Lia Permutation.
From Stdlib Require Import DecimalString.
Import ListNotations.
Open Scope Z_scope.
Open Scope string_scope.

(* ================================================================== *)
(** * JavaScript values *)
(* ================================================================== *)

Module Js.

#[local] Set Warnings "-register-all".

(** JSON-shaped values, plus [undefined].  Numbers are integers: no
    handler computes with fractions. *)
Inductive Value : Type :=
| Undefined
| Null
| Bool (b : bool)
| Num (n : Z)
| Str (s : string)
| Arr (items : list Value)
| Obj (fields : list (string * Value)).

(** A thrown value.  The Graph client throws [GraphError]
    ([statusCode], [code], [message]); [new Error(m)] and the runtime's
    [TypeError] carry a [message] only. *)
Record Error : Type := mkError {
  errName : string;
  statusCode : option Z;
  code : option string;
  message : option string
}.

Definition Result (A : Type) : Type := (Error + A)%type.

Definition dq : string := String (ascii_of_nat 34) EmptyString.

Definition TypeError (msg : string) : Error :=
  mkError "TypeError" None None (Some msg).

Definition newError (msg : string) : Error :=
  mkError "Error" None None (Some msg).

(** ToBoolean. *)
Definition truthy (v : Value) : bool :=
  match v with
  | Undefined | Null => false
  | Bool b => b
  | Num n => negb (n =? 0)%Z
  | Str s => negb (s =? EmptyString)
  | Arr _ | Obj _ => true
  end.

Definition nullish (v : Value) : bool :=
  match v with
  | Undefined | Null => true
  | _ => false
  end.

Definition is_undefined (v : Value) : bool :=
  match v with
  | Undefined => true
  | _ => false
  end.

(** [a || b] on values. *)
Definition or_else (a b : Value) : Value :=
  if truthy a then a else b.

Fixpoint lookup (k : string) (fields : list (string * Value)) : Value :=
  match fields with
  | [] => Undefined
  | (k', v) :: rest => if k =? k' then v else lookup k rest
  end.

Definition string_of_Z (n : Z) : string :=
  NilZero.string_of_int (Z.to_int n).

Definition nullish_name (v : Value) : string :=
  match v with
  | Null => "null"
  | _ => "undefined"
  end.

(** Strings.  A JavaScript string is a sequence of UTF-16 code units;
    here it is held as the bytes of its UTF-8 form, where a character
    outside the basic plane (a surrogate pair, two units) takes four
    bytes and every other unit takes one to three.  A lone surrogate,
    which cutting a pair leaves behind, is held in the three-byte form of
    its range (generalised UTF-8).

    [utf8_width b] is the number of bytes of the sequence the byte [b]
    opens, [units_of_byte b] the number of code units [b] stands for:
    none for a continuation byte, two for the lead of four bytes. *)
Definition utf8_width (b : ascii) : nat :=
  let n := nat_of_ascii b in
  if (n <? 192)%nat then 1%nat
  else if (n <? 224)%nat then 2%nat
  else if (n <? 240)%nat then 3%nat
  else 4%nat.

Definition units_of_byte (b : ascii) : nat :=
  let n := nat_of_ascii b in
  if (n <? 128)%nat then 1%nat
  else if (n <? 192)%nat then 0%nat
  else if (n <? 240)%nat then 1%nat
  else 2%nat.

(** [s.length]. *)
Fixpoint utf16_length (s : string) : nat :=
  match s with
  | EmptyString => 0%nat
  | String b rest => (units_of_byte b + utf16_length rest)%nat
  end.

(** The high surrogate of the character whose four bytes start with
    [b], [c1], [c2], in its three-byte form. *)
Definition high_surrogate (b c1 c2 : ascii) : string :=
  let hi := (55296 + ((N_of_ascii b mod 8) * 256
                      + (N_of_ascii c1 mod 64) * 4
                      + (N_of_ascii c2 mod 64) / 16) - 64)%N in
  String (ascii_of_N 237)
    (String (ascii_of_N (128 + (hi / 64) mod 64))
       (String (ascii_of_N (128 + hi mod 64)) EmptyString)).

Definition byte_at (i : nat) (s : string) : ascii :=
  match String.get i s with
  | Some c => c
  | None => zero
  end.

(** [s.substring(0, n)]: the first [n] code units.  When the cut falls
    between the two units of a pair, the high surrogate is kept alone. *)
Fixpoint utf16_prefix (n : nat) (s : string) : string :=
  match s with
  | EmptyString => EmptyString
  | String b rest =>
      match units_of_byte b with
      | O => String b (utf16_prefix n rest)
      | S O =>
          match n with
          | O => EmptyString
          | S n' => String b (utf16_prefix n' rest)
          end
      | _ =>
          match n with
          | O => EmptyString
          | S O => high_surrogate b (byte_at 0 rest) (byte_at 1 rest)
          | S (S n') => String b (utf16_prefix n' rest)
          end
      end
  end.

(** [v.k]: reading a property of [undefined] or [null] throws. *)
Definition getProp (v : Value) (k : string) : Result Value :=
  match v with
  | Undefined | Null =>
      inl (TypeError ("Cannot read properties of " ++ nullish_name v
                      ++ " (reading '" ++ k ++ "')"))
  | Obj fields => inr (lookup k fields)
  | Arr items =>
      if k =? "length" then inr (Num (Z.of_nat (List.length items)))
      else inr Undefined
  | Str s =>
      if k =? "length" then inr (Num (Z.of_nat (utf16_length s)))
      else inr Undefined
  | Bool _ | Num _ => inr Undefined
  end.

(** [v[0]], for a [v] that is not nullish. *)
Definition first (v : Value) : Value :=
  match v with
  | Arr (x :: _) => x
  | Str (String c _) => Str (String c EmptyString)
  | Obj fields => lookup "0" fields
  | _ => Undefined
  end.

Definition join_with (sep : string) (parts : list string) : string :=
  match parts with
  | [] => EmptyString
  | p :: rest => fold_left (fun acc q => acc ++ sep ++ q) rest p
  end.

(** ToString, as a template literal applies it. *)
Fixpoint toStr (v : Value) : string :=
  match v with
  | Undefined => "undefined"
  | Null => "null"
  | Bool true => "true"
  | Bool false => "false"
  | Num n => string_of_Z n
  | Str s => s
  | Arr items =>
      join_with ","
        (map (fun x => if nullish x then EmptyString else toStr x) items)
  | Obj _ => "[object Object]"
  end.

(** ToNumber, on the values a comparison meets here; [None] is NaN.
    Strings that are not a plain run of decimal digits, arrays and
    objects are taken as NaN. *)
Fixpoint digits_value (acc : Z) (s : string) : option Z :=
  match s with
  | EmptyString => Some acc
  | String c rest =>
      let n := nat_of_ascii c in
      if (48 <=? n)%nat && (n <=? 57)%nat
      then digits_value (10 * acc + Z.of_nat (n - 48)) rest
      else None
  end.

Definition toNumber (v : Value) : option Z :=
  match v with
  | Undefined => None
  | Null => Some 0%Z
  | Bool b => Some (if b then 1 else 0)%Z
  | Num n => Some n
  | Str s => digits_value 0 s
  | Arr _ | Obj _ => None
  end.

(** [v > 0] and [v === 0]. *)
Definition gt_zero (v : Value) : bool :=
  match toNumber v with
  | Some n => (0 <? n)%Z
  | None => false
  end.

Definition is_zero (v : Value) : bool :=
  match v with
  | Num n => (n =? 0)%Z
  | _ => false
  end.

(** [String.prototype.includes]. *)
Fixpoint prefix_of (p s : string) : bool :=
  match p, s with
  | EmptyString, _ => true
  | String a p', String b s' => Ascii.eqb a b && prefix_of p' s'
  | String _ _, EmptyString => false
  end.

Fixpoint includes (s sub : string) : bool :=
  prefix_of sub s ||
  match s with
  | EmptyString => false
  | String _ s' => includes s' sub
  end.

(** [error.message?.includes(sub)], as a condition. *)
Definition message_includes (e : Error) (sub : string) : bool :=
  match message e with
  | Some m => includes m sub
  | None => false
  end.

(** [error.statusCode === n] and [error.code === c]. *)
Definition status_is (e : Error) (n : Z) : bool :=
  match statusCode e with
  | Some s => (s =? n)%Z
  | None => false
  end.

Definition code_is (e : Error) (c : string) : bool :=
  match code e with
  | Some s => s =? c
  | None => false
  end.

(** [error.message || dflt], and the message as a template shows it. *)
Definition message_or (e : Error) (dflt : string) : string :=
  match message e with
  | Some m => if m =? EmptyString then dflt else m
  | None => dflt
  end.

Definition message_text (e : Error) : string :=
  match message e with
  | Some m => m
  | None => "undefined"
  end.

(** [Error.prototype.toString]. *)
Definition error_toString (e : Error) : string :=
  let msg := match message e with Some m => m | None => EmptyString end in
  if errName e =? EmptyString then msg
  else if msg =? EmptyString then errName e
  else errName e ++ ": " ++ msg.

(** ASCII case mapping; [toLowerCase] and [toUpperCase] agree with it on
    every string whose letters are ASCII. *)
Definition lower_ascii (c : ascii) : ascii :=
  let n := nat_of_ascii c in
  if (65 <=? n)%nat && (n <=? 90)%nat then ascii_of_nat (n + 32) else c.

Definition upper_ascii (c : ascii) : ascii :=
  let n := nat_of_ascii c in
  if (97 <=? n)%nat && (n <=? 122)%nat then ascii_of_nat (n - 32) else c.

Fixpoint map_string (f : ascii -> ascii) (s : string) : string :=
  match s with
  | EmptyString => EmptyString
  | String c rest => String (f c) (map_string f rest)
  end.

Definition toLowerCase (s : string) : string := map_string lower_ascii s.
Definition toUpperCase (s : string) : string := map_string upper_ascii s.

End Js.

(* ================================================================== *)
(** * The invocation monad and the Graph client *)
(* ================================================================== *)

Import Js.

(** What leaves the process.  [AcquireToken] is the [getAccessToken]
    callback every handler hands to [Client.initWithMiddleware]; the
    client calls it before each request it sends. *)
Inductive Request : Type :=
| AcquireToken (scope : string)
| HttpGet (path : string) (filter select : option string)
| HttpPost (path : string) (body : Value)
| HttpPatch (path : string) (body : Value)
| HttpDelete (path : string).

Definition Exchange : Type := (Request * Result Value)%type.

(** [context.log(m)] and [context.error(m, e)] / [context.log.error(m, e)]. *)
Inductive LogEntry : Type :=
| LogInfo (msg : string)
| LogError (msg : string) (e : Error).

Record Date : Type := mkDate {
  toISOString : string;
  getFullYear : Z
}.

(** Everything outside the handler: the remote service answers a request
    knowing every exchange before it; the clock and the random source
    answer by the number of reads so far. *)
Record World : Type := mkWorld {
  remote : list Exchange -> Request -> Result Value;
  clock : nat -> Date;
  entropy : nat -> nat
}.

Record St : Type := mkSt {
  sent : list Exchange;
  logs : list LogEntry;
  ticks : nat;
  draws : nat
}.

Definition St0 : St := mkSt [] [] 0 0.

Definition M (A : Type) : Type := World -> St -> St * Result A.

Definition ret {A} (a : A) : M A := fun _ st => (st, inr a).

Definition bind {A B} (m : M A) (k : A -> M B) : M B :=
  fun w st =>
    match m w st with
    | (st', inr a) => k a w st'
    | (st', inl e) => (st', inl e)
    end.

Definition throw {A} (e : Error) : M A := fun _ st => (st, inl e).

(** [try { body } catch (error) { handler }]. *)
Definition try_catch {A} (body : M A) (handler : Error -> M A) : M A :=
  fun w st =>
    match body w st with
    | (st', inr a) => (st', inr a)
    | (st', inl e) => handler e w st'
    end.

Definition lift {A} (r : Result A) : M A := fun _ st => (st, r).

Notation "x <- c ;; k" := (bind c (fun x => k))
  (at level 61, c at next level, right associativity).
Notation "c ;; k" := (bind c (fun _ => k))
  (at level 61, right associativity).

Definition prop (v : Value) (k : string) : M Value := lift (getProp v k).

Definition add_log (l : LogEntry) : M unit :=
  fun _ st => (mkSt (sent st) (logs st ++ [l])%list (ticks st) (draws st), inr tt).

Definition context_log (msg : string) : M unit := add_log (LogInfo msg).
Definition context_error (msg : string) (e : Error) : M unit :=
  add_log (LogError msg e).

(** [new Date()]. *)
Definition newDate : M Date :=
  fun w st =>
    (mkSt (sent st) (logs st) (S (ticks st)) (draws st),
     inr (clock w (ticks st))).

Definition nowISO : M string := d <- newDate ;; ret (toISOString d).

Definition RangeError (msg : string) : Error :=
  mkError "RangeError" None (Some "ERR_OUT_OF_RANGE") (Some msg).

(** [crypto.randomInt(max)]: uniform in [0, max). *)
Definition randomInt (max : nat) : M nat :=
  fun w st =>
    match max with
    | O => (st, inl (RangeError "The value of max is out of range."))
    | S _ =>
        (mkSt (sent st) (logs st) (ticks st) (S (draws st)),
         inr (Nat.modulo (entropy w (draws st)) max))
    end.

Definition graph_scope : string := "https://graph.microsoft.com/.default".

(** What the awaiting code catches when the client got no response at
    all, here because the token callback threw: the client wraps the
    thrown error in a [GraphError] of its own, with [statusCode] -1, the
    name of the thrown error as [code] and its message as [message].  An
    error response of the service, by contrast, reaches the awaiting code
    with the status, code and message the service gave. *)
Definition client_error (thrown : Error) : Error :=
  mkError "Error" (Some (-1)) (Some (errName thrown)) (message thrown).

(** One call through the client, as a function of the exchanges so far:
    the token callback ([credential.getToken], then [token.token]), and
    the request itself if a token came back.  Returns the exchanges the
    call adds and what the [await] yields. *)
Definition graph_outcome (w : World) (h : list Exchange) (req : Request)
  : list Exchange * Result Value :=
  let tq := AcquireToken graph_scope in
  match remote w h tq with
  | inl e => ([(tq, inl e)], inl (client_error e))
  | inr token =>
      match getProp token "token" with
      | inl e => ([(tq, inr token)], inl (client_error e))
      | inr _ =>
          let r := remote w (h ++ [(tq, inr token)])%list req in
          ([(tq, inr token); (req, r)], r)
      end
  end.

Definition graph_result (w : World) (h : list Exchange) (req : Request)
  : Result Value := snd (graph_outcome w h req).

Definition graph_exchanges (w : World) (h : list Exchange) (req : Request)
  : list Exchange := fst (graph_outcome w h req).

Definition graph_send (req : Request) : M Value :=
  fun w st =>
    (mkSt (sent st ++ graph_exchanges w (sent st) req)%list
          (logs st) (ticks st) (draws st),
     graph_result w (sent st) req).

(** [{ status, jsonBody }] (v4 programming model) or
    [context.res = { status, body }] (v3). *)
Record HttpResponse : Type := mkResponse {
  status : Z;
  jsonBody : Value
}.

(** The requests of a trace, and the ones that are not token requests. *)
Definition requests (xs : list Exchange) : list Request := map fst xs.

Definition is_http (r : Request) : bool :=
  match r with
  | AcquireToken _ => false
  | _ => true
  end.

(** [request.json()] rejects when the body is not JSON. *)
Record HttpRequest : Type := mkRequest {
  json : Result Value
}.

(* ================================================================== *)
(** * [src/functions/manageLicense.ts] *)
(* ================================================================== *)

Module ManageLicense.

Definition OFFICE365_E1_GROUP_ID : string :=
  "1263971a-19e5-42d1-a25e-36d71ec76014".

(** OPTION 1 of [findOrCreateUser]: the block guarded by
    [if (entraObjectId)].  [Some user] is its [return user]; [None] is
    falling out of the block. *)
Definition findOrCreateUser_option1 (entraObjectId : Value) : M (option Value) :=
  if truthy entraObjectId then
    context_log ("🔍 Looking up user by Entra Object ID: " ++ toStr entraObjectId) ;;
    try_catch
      (user <- graph_send (HttpGet ("/users/" ++ toStr entraObjectId) None None) ;;
       upn <- prop user "userPrincipalName" ;;
       context_log ("✅ Found user by Object ID: " ++ toStr upn) ;;
       ret (Some user))
      (fun _ =>
         context_log "⚠️ User not found by Object ID, will try other methods" ;;
         ret None)
  else ret None.

(** OPTION 2: the block guarded by [if (entraUPN)]. *)
Definition findOrCreateUser_option2 (entraUPN : Value) : M (option Value) :=
  if truthy entraUPN then
    context_log ("🔍 Looking up user by Entra UPN: " ++ toStr entraUPN) ;;
    try_catch
      (user <- graph_send (HttpGet ("/users/" ++ toStr entraUPN) None None) ;;
       upn <- prop user "userPrincipalName" ;;
       context_log ("✅ Found user by UPN: " ++ toStr upn) ;;
       ret (Some user))
      (fun _ =>
         context_log "⚠️ User not found by UPN, will try searching" ;;
         ret None)
  else ret None.

Definition search_request (email : Value) : Request :=
  HttpGet "/users"
    (Some ("mail eq '" ++ toStr email ++ "' or userPrincipalName eq '"
           ++ toStr email ++ "'"))
    None.

Definition invitation_request (email firstName lastName : Value) : Request :=
  HttpPost "/invitations"
    (Obj [("invitedUserEmailAddress", email);
          ("invitedUserDisplayName",
             Str (toStr firstName ++ " " ++ toStr lastName));
          ("inviteRedirectUrl", Str "https://portal.azure.com");
          ("sendInvitationMessage", Bool true);
          ("invitedUserMessageInfo",
             Obj [("customizedMessageBody",
                   Str "You have been invited to access EGG Events resources. Please accept this invitation to activate your account.")])]).

(** [users.value && users.value.length > 0], given [users.value]. *)
Definition has_match (value : Value) : bool :=
  truthy value &&
  match getProp value "length" with
  | inr len => gt_zero len
  | inl _ => false
  end.

(** OPTION 3 and OPTION 4: search by email, else invite a guest. *)
Definition findOrCreateUser_option34 (email firstName lastName : Value) : M Value :=
  context_log ("🔍 Searching for user by email: " ++ toStr email) ;;
  users <- graph_send (search_request email) ;;
  value <- prop users "value" ;;
  if has_match value then
    upn <- prop (first value) "userPrincipalName" ;;
    context_log ("✅ Found existing user: " ++ toStr upn) ;;
    ret (first value)
  else
    context_log ("➕ Creating new guest user with email: " ++ toStr email) ;;
    invitation <- graph_send (invitation_request email firstName lastName) ;;
    invitedUser <- prop invitation "invitedUser" ;;
    id <- prop invitedUser "id" ;;
    context_log ("✅ Guest user created: " ++ toStr id) ;;
    invitedUserEmailAddress <- prop invitation "invitedUserEmailAddress" ;;
    ret (Obj [("id", id);
              ("userPrincipalName", invitedUserEmailAddress);
              ("mail", email);
              ("displayName", Str (toStr firstName ++ " " ++ toStr lastName))]).

Definition findOrCreateUser
  (entraObjectId entraUPN email firstName lastName : Value) : M Value :=
  try_catch
    (r1 <- findOrCreateUser_option1 entraObjectId ;;
     match r1 with
     | Some user => ret user
     | None =>
         r2 <- findOrCreateUser_option2 entraUPN ;;
         match r2 with
         | Some user => ret user
         | None => findOrCreateUser_option34 email firstName lastName
         end
     end)
    (fun error =>
       context_error "❌ Error finding/creating user:" error ;;
       throw error).

Definition add_member_request (userId : Value) : Request :=
  HttpPost ("/groups/" ++ OFFICE365_E1_GROUP_ID ++ "/members/$ref")
    (Obj [("@odata.id",
           Str ("https://graph.microsoft.com/v1.0/directoryObjects/"
                ++ toStr userId))]).

(** The guard of the [catch] in [addUserToGroup]. *)
Definition already_member (error : Error) : bool :=
  status_is error 400 &&
  (message_includes error "already exist" ||
   message_includes error "already a member" ||
   code_is error "Request_BadRequest").

Definition addUserToGroup (userId : Value) : M unit :=
  try_catch
    (context_log "🔄 Adding user to group (simplified method)" ;;
     graph_send (add_member_request userId) ;;
     context_log "✅ User added to Office 365 E1 group")
    (fun error =>
       if already_member error then
         context_log "ℹ️ User is already a member of the group"
       else
         (context_error "❌ Error adding user to group:" error ;;
          throw error)).

Definition remove_member_request (userId : Value) : Request :=
  HttpDelete ("/groups/" ++ OFFICE365_E1_GROUP_ID ++ "/members/"
              ++ toStr userId ++ "/$ref").

Definition removeUserFromGroup (userId : Value) : M unit :=
  try_catch
    (context_log "🔄 Removing user from group (simplified method)" ;;
     graph_send (remove_member_request userId) ;;
     context_log "✅ User removed from Office 365 E1 group")
    (fun error =>
       if status_is error 404 then
         context_log "ℹ️ User was not a member of the group"
       else
         (context_error "❌ Error removing user from group:" error ;;
          throw error)).

(** The status code and user message the [catch] of the handler picks. *)
Definition error_status (error : Error) : Z * string :=
  if status_is error 401 then
    (401, "Authentication failed. Please check app permissions.")
  else if status_is error 403 then
    (403, "Insufficient permissions to manage licenses.")
  else if status_is error 404 then
    (404, "User or group not found.")
  else if status_is error 429 then
    (429, "Rate limit exceeded. Please try again later.")
  else (500, "Failed to manage license").

Definition manageLicense_catch (error : Error) : M HttpResponse :=
  context_error "❌ Error managing license:" error ;;
  let errorMessage := message_or error "Unknown error occurred" in
  let '(statusCode, userMessage) := error_status error in
  timestamp <- nowISO ;;
  ret (mkResponse statusCode
         (Obj [("success", Bool false);
               ("error", Str userMessage);
               ("details", Str errorMessage);
               ("timestamp", Str timestamp)])).

Definition missing_fields : HttpResponse :=
  mkResponse 400
    (Obj [("success", Bool false);
          ("error", Str "Missing required fields: userEmail, firstName, lastName, isActive")]).

Definition manageLicense_try (request : HttpRequest) : M HttpResponse :=
  licenseRequest <- lift (json request) ;;
  userEmail <- prop licenseRequest "userEmail" ;;
  firstName <- prop licenseRequest "firstName" ;;
  lastName <- prop licenseRequest "lastName" ;;
  isActive <- prop licenseRequest "isActive" ;;
  if negb (truthy userEmail) || negb (truthy firstName)
     || negb (truthy lastName) || is_undefined isActive
  then ret missing_fields
  else
    entraUPN <- prop licenseRequest "entraUPN" ;;
    entraObjectId <- prop licenseRequest "entraObjectId" ;;
    context_log ("👤 Processing license for: " ++ toStr userEmail) ;;
    context_log ("📧 Entra UPN: " ++ toStr (or_else entraUPN (Str "Not provided"))) ;;
    context_log ("🆔 Entra Object ID: "
                 ++ toStr (or_else entraObjectId (Str "Not provided"))) ;;
    context_log ("📊 Active status: " ++ toStr isActive) ;;
    user <- findOrCreateUser entraObjectId entraUPN userEmail firstName lastName ;;
    id <- (if truthy user then prop user "id" else ret Undefined) ;;
    if negb (truthy user) || negb (truthy id) then
      throw (newError "Failed to find or create user in Entra ID")
    else
      userPrincipalName <- prop user "userPrincipalName" ;;
      context_log ("✅ User identified: " ++ toStr userPrincipalName
                   ++ " (" ++ toStr id ++ ")") ;;
      (if truthy isActive then addUserToGroup id else removeUserFromGroup id) ;;
      timestamp <- nowISO ;;
      ret (mkResponse 200
             (Obj [("success", Bool true);
                   ("action", Str (if truthy isActive then "added" else "removed"));
                   ("message",
                      Str (if truthy isActive
                           then "User added to Office 365 E1 group"
                           else "User removed from Office 365 E1 group"));
                   ("userPrincipalName", userPrincipalName);
                   ("userId", id);
                   ("timestamp", Str timestamp)])).

Definition manageLicense (request : HttpRequest) : M HttpResponse :=
  context_log "🔐 License management request received" ;;
  try_catch (manageLicense_try request) manageLicense_catch.

End ManageLicense.

(* ================================================================== *)
(** * Regular expressions, as [String.prototype.replace] runs them *)
(* ================================================================== *)

Module Regex.

Inductive ClassItem : Type :=
| CChar (c : ascii)
| CWord                         (* \w *)
| CSpace.                       (* \s *)

(** The constructs the sanitizer's patterns use.  The patterns have no
    [u] flag, so they run over code units: a literal character of a
    pattern is ASCII and matches one byte, and a class looks at the
    whole byte sequence that starts at the index.  A character of four
    bytes (two units) is taken by a class in one step; the patterns of
    this file have their negated classes under a star that is followed
    by an ASCII character or by the end of the pattern, so none of their
    matches ends between the two units. *)
Inductive Regex : Type :=
| Eps
| Char (c : ascii)
| Class (negated : bool) (items : list ClassItem)
| Seq (r1 r2 : Regex)
| Star (r : Regex)              (* greedy *)
| Group (n : nat) (r : Regex)   (* capturing group number n *)
| NotAhead (r : Regex)          (* (?!r) *)
| WordBoundary.                 (* \b *)

Definition Plus (r : Regex) : Regex := Seq r (Star r).

Fixpoint lit (s : string) : Regex :=
  match s with
  | EmptyString => Eps
  | String c EmptyString => Char c
  | String c rest => Seq (Char c) (lit rest)
  end.

Fixpoint seqs (rs : list Regex) : Regex :=
  match rs with
  | [] => Eps
  | [r] => r
  | r :: rest => Seq r (seqs rest)
  end.

Definition is_word (c : ascii) : bool :=
  let n := nat_of_ascii c in
  ((48 <=? n) && (n <=? 57) || (65 <=? n) && (n <=? 90)
   || (97 <=? n) && (n <=? 122) || (n =? 95))%nat.

Definition of_bytes (codes : list nat) : string :=
  string_of_list_ascii (map ascii_of_nat codes).

(** The white space and line terminators of [\s] beyond ASCII, by their
    bytes: U+00A0, U+1680, U+2000 to U+200A, U+2028, U+2029, U+202F,
    U+205F, U+3000 and U+FEFF. *)
Definition unicode_spaces : list string :=
  map of_bytes
    ([[194; 160]; [225; 154; 128]; [226; 128; 168]; [226; 128; 169];
      [226; 128; 175]; [226; 129; 159]; [227; 128; 128]; [239; 187; 191]]
     ++ map (fun n => [226; 128; n]) (seq 128 11))%nat%list.

(** [\s], on the bytes of one code unit. *)
Definition is_space (u : string) : bool :=
  match u with
  | String c EmptyString =>
      let n := nat_of_ascii c in
      ((9 <=? n) && (n <=? 13) || (n =? 32))%nat
  | _ => existsb (String.eqb u) unicode_spaces
  end.

(** Canonicalize, under the [i] flag: a unit outside ASCII is never
    mapped to an ASCII one. *)
Definition canon (ignoreCase : bool) (c : ascii) : ascii :=
  if ignoreCase then upper_ascii c else c.

(** The bytes of the unit that starts at index [i]. *)
Definition unit_at (s : string) (i : nat) : option string :=
  match String.get i s with
  | Some b => Some (String.substring i (utf8_width b) s)
  | None => None
  end.

Definition item_matches (ignoreCase : bool) (u : string) (it : ClassItem) : bool :=
  match it with
  | CChar d =>
      match u with
      | String c EmptyString => Ascii.eqb (canon ignoreCase c) (canon ignoreCase d)
      | _ => false
      end
  | CWord =>
      match u with
      | String c EmptyString => is_word c
      | _ => false
      end
  | CSpace => is_space u
  end.

Definition class_matches (ignoreCase negated : bool) (items : list ClassItem)
  (u : string) : bool :=
  xorb negated (existsb (item_matches ignoreCase u) items).

(** The index after the unit at [i]; one further when there is none. *)
Definition next_index (s : string) (i : nat) : nat :=
  match unit_at s i with
  | Some u => (i + Nat.max 1 (String.length u))%nat
  | None => S i
  end.

Definition Captures : Type := list (nat * string).

Definition MatchResult : Type := option (nat * Captures).

Definition word_at (s : string) (i : nat) : bool :=
  match String.get i s with
  | Some c => is_word c
  | None => false
  end.

(** Backtracking matcher in continuation style: [rmatch r s ic i caps k]
    tries [r] at index [i] of [s] and hands every end index, in priority
    order, to [k] until [k] accepts.  An iteration of [Star] that matches
    the empty string is rejected, so it runs at most [length s - i]
    times. *)
Fixpoint rmatch (r : Regex) (s : string) (ic : bool)
  : nat -> Captures -> (nat -> Captures -> MatchResult) -> MatchResult :=
  match r with
  | Eps => fun i caps k => k i caps
  | Char c => fun i caps k =>
      match String.get i s with
      | Some d => if Ascii.eqb (canon ic c) (canon ic d) then k (S i) caps else None
      | None => None
      end
  | Class negated items => fun i caps k =>
      match unit_at s i with
      | Some u =>
          if class_matches ic negated items u then k (next_index s i) caps
          else None
      | None => None
      end
  | Seq r1 r2 => fun i caps k =>
      rmatch r1 s ic i caps (fun j caps' => rmatch r2 s ic j caps' k)
  | Star r1 =>
      let body := rmatch r1 s ic in
      fun i caps k =>
        (fix loop (n : nat) (i : nat) (caps : Captures) : MatchResult :=
           match n with
           | O => k i caps
           | S n' =>
               match body i caps
                       (fun j caps' => if (j <=? i)%nat then None else loop n' j caps')
               with
               | Some res => Some res
               | None => k i caps
               end
           end) (S (String.length s - i)) i caps
  | Group n r1 => fun i caps k =>
      rmatch r1 s ic i caps
        (fun j caps' => k j ((n, String.substring i (j - i) s) :: caps'))
  | NotAhead r1 => fun i caps k =>
      match rmatch r1 s ic i caps (fun j caps' => Some (j, caps')) with
      | Some _ => None
      | None => k i caps
      end
  | WordBoundary => fun i caps k =>
      let before := match i with O => false | S p => word_at s p end in
      if xorb before (word_at s i) then k i caps else None
  end.

Definition exec_at (r : Regex) (ic : bool) (s : string) (i : nat) : MatchResult :=
  rmatch r s ic i [] (fun j caps => Some (j, caps)).

(** A replacement string: literal text and [$n] references. *)
Inductive ReplItem : Type :=
| RLit (s : string)
| RRef (n : nat).

Fixpoint capture (n : nat) (caps : Captures) : string :=
  match caps with
  | [] => EmptyString
  | (m, s) :: rest => if (n =? m)%nat then s else capture n rest
  end.

Fixpoint expand (repl : list ReplItem) (caps : Captures) : string :=
  match repl with
  | [] => EmptyString
  | RLit s :: rest => s ++ expand rest caps
  | RRef n :: rest => capture n caps ++ expand rest caps
  end.

(** The loop of [replace] for a pattern with the [g] flag: [i] is
    [lastIndex], [last] the end of the previous match.  Every step moves
    [i] forward by one unit at least, so [length s + 2] steps are never
    used up. *)
Fixpoint replace_from (fuel : nat) (r : Regex) (ic : bool)
  (repl : list ReplItem) (s : string) (i last : nat) : string :=
  let len := String.length s in
  match fuel with
  | O => String.substring last (len - last) s
  | S fuel' =>
      if (len <? i)%nat then String.substring last (len - last) s
      else
        match exec_at r ic s i with
        | Some (e, caps) =>
            String.substring last (i - last) s ++ expand repl caps
            ++ replace_from fuel' r ic repl s
                 (if (e =? i)%nat then next_index s i else e) e
        | None => replace_from fuel' r ic repl s (next_index s i) last
        end
  end.

(** [s.replace(/r/g, repl)] and [s.replace(/r/gi, repl)]. *)
Definition replace_all (r : Regex) (ic : bool) (repl : list ReplItem)
  (s : string) : string :=
  replace_from (String.length s + 2) r ic repl s 0 0.

End Regex.

(* ================================================================== *)
(** * [src/functions/sendEmail/index.ts]: the send-mail function *)
(* ================================================================== *)

Module SendEmail.
Import Regex.

Definition quote : ascii := ascii_of_nat 34.

(** The five patterns of [sanitizeHtml], all with flags [gi].  In these
    comments a space is put between a star and a closing parenthesis, and
    DQ stands for the double-quote character.

    [/<script\b[^<]*(?:(?!<\/script>)<[^<]* )*<\/script>/] *)
Definition script_blocks : Regex :=
  seqs [lit "<script"; WordBoundary;
        Star (Class true [CChar "<"]);
        Star (seqs [NotAhead (lit "</script>"); Char "<";
                    Star (Class true [CChar "<"])]);
        lit "</script>"].

(** [/on\w+\s*=\s*[DQ'][^DQ']*[DQ']/] *)
Definition quoted_handlers : Regex :=
  seqs [lit "on"; Plus (Class false [CWord]); Star (Class false [CSpace]);
        Char "="; Star (Class false [CSpace]);
        Class false [CChar quote; CChar "'"];
        Star (Class true [CChar quote; CChar "'"]);
        Class false [CChar quote; CChar "'"]].

(** [/on\w+\s*=\s*[^\s>]*/] *)
Definition bare_handlers : Regex :=
  seqs [lit "on"; Plus (Class false [CWord]); Star (Class false [CSpace]);
        Char "="; Star (Class false [CSpace]);
        Star (Class true [CSpace; CChar ">"])].

(** [/javascript:/] *)
Definition javascript_scheme : Regex := lit "javascript:".

(** [/(<(?!img)[^>]* )\sdata:[^>]*>/], replaced by [$1>] *)
Definition data_scheme : Regex :=
  seqs [Group 1 (seqs [Char "<"; NotAhead (lit "img");
                       Star (Class true [CChar ">"])]);
        Class false [CSpace]; lit "data:";
        Star (Class true [CChar ">"]); Char ">"].

Definition sanitize_string (html : string) : string :=
  let s1 := replace_all script_blocks true [] html in
  let s2 := replace_all quoted_handlers true [] s1 in
  let s3 := replace_all bare_handlers true [] s2 in
  let s4 := replace_all javascript_scheme true [] s3 in
  replace_all data_scheme true [RRef 1; RLit ">"] s4.

(** [sanitizeHtml(html)].  The parameter is typed [string]; the handler
    passes [emailRequest.body], any truthy JSON value. *)
Definition sanitizeHtml (html : Value) : Result string :=
  if negb (truthy html) then inr EmptyString
  else
    match html with
    | Str s => inr (sanitize_string s)
    | _ => inl (TypeError "html.replace is not a function")
    end.

(** [subject.substring(0, 255)]. *)
Definition subject_prefix (subject : Value) : Result string :=
  match subject with
  | Str s => inr (utf16_prefix 255 s)
  | _ => inl (TypeError "emailRequest.subject.substring is not a function")
  end.

(** [recipients.map(email => ({ emailAddress: { address: email } }))]. *)
Definition toRecipients (recipients : Value) : Result Value :=
  match recipients with
  | Arr items =>
      inr (Arr (map (fun email => Obj [("emailAddress", Obj [("address", email)])])
                    items))
  | _ => inl (TypeError "emailRequest.recipients.map is not a function")
  end.

Definition error_status (error : Error) : Z * string :=
  if status_is error 401 then
    (401, "Authentication failed. Please check app permissions.")
  else if status_is error 403 then
    (403, "Insufficient permissions to send email.")
  else if status_is error 404 then
    (404, "Sender email address not found.")
  else if status_is error 429 then
    (429, "Rate limit exceeded. Please try again later.")
  else (500, "Failed to send email").

Definition httpTrigger_catch (error : Error) : M HttpResponse :=
  context_error "❌ Error sending email:" error ;;
  let errorMessage := message_or error "Unknown error occurred" in
  let '(statusCode, userMessage) := error_status error in
  timestamp <- nowISO ;;
  ret (mkResponse statusCode
         (Obj [("success", Bool false);
               ("error", Str userMessage);
               ("details", Str errorMessage);
               ("timestamp", Str timestamp)])).

Definition body_required : HttpResponse :=
  mkResponse 400
    (Obj [("success", Bool false); ("error", Str "Request body is required")]).

Definition missing_fields : HttpResponse :=
  mkResponse 400
    (Obj [("success", Bool false);
          ("error", Str "Missing required fields: recipients, from, subject, body")]).

Definition too_many_recipients : HttpResponse :=
  mkResponse 400
    (Obj [("success", Bool false);
          ("error", Str "Maximum 50 recipients allowed per email")]).

(** [emailRequest.recipients.length], once [recipients] is truthy. *)
Definition length_of (v : Value) : Value :=
  match getProp v "length" with
  | inr n => n
  | inl _ => Undefined
  end.

(** [v > 50]. *)
Definition gt_50 (v : Value) : bool :=
  match toNumber v with
  | Some n => (50 <? n)%Z
  | None => false
  end.

Definition httpTrigger_try (body : Value) : M HttpResponse :=
  if negb (truthy body) then ret body_required
  else
    let emailRequest := body in
    recipients <- prop emailRequest "recipients" ;;
    subject <- prop emailRequest "subject" ;;
    ebody <- prop emailRequest "body" ;;
    from <- prop emailRequest "from" ;;
    if negb (truthy recipients) || is_zero (length_of recipients)
       || negb (truthy subject) || negb (truthy ebody) || negb (truthy from)
    then ret missing_fields
    else if gt_50 (length_of recipients) then ret too_many_recipients
    else
      fromName <- prop emailRequest "fromName" ;;
      isHtml <- prop emailRequest "isHtml" ;;
      context_log ("📨 Sending email to " ++ toStr (length_of recipients)
                   ++ " recipients") ;;
      context_log ("📧 From: " ++ toStr from ++ " (" ++ toStr fromName ++ ")") ;;
      context_log ("📝 Subject: " ++ toStr subject) ;;
      sanitizedBody <- lift (sanitizeHtml ebody) ;;
      subject255 <- lift (subject_prefix subject) ;;
      tos <- lift (toRecipients recipients) ;;
      let message :=
        Obj [("subject", Str subject255);
             ("body", Obj [("contentType",
                              Str (if truthy isHtml then "HTML" else "Text"));
                           ("content", Str sanitizedBody)]);
             ("from", Obj [("emailAddress",
                            Obj [("address", from);
                                 ("name", or_else fromName (Str "EGG Events"))])]);
             ("toRecipients", tos)] in
      graph_send (HttpPost ("/users/" ++ toStr from ++ "/sendMail")
                    (Obj [("message", message); ("saveToSentItems", Bool true)])) ;;
      context_log ("✅ Email sent successfully to " ++ toStr (length_of recipients)
                   ++ " recipients") ;;
      timestamp <- nowISO ;;
      ret (mkResponse 200
             (Obj [("success", Bool true);
                   ("message", Str ("Email sent to " ++ toStr (length_of recipients)
                                    ++ " recipient(s)"));
                   ("recipientCount", length_of recipients);
                   ("timestamp", Str timestamp)])).

(** [httpTrigger(context, req)]; the result is the final [context.res]. *)
Definition httpTrigger (body : Value) : M HttpResponse :=
  context_log "📧 Email send request received" ;;
  try_catch (httpTrigger_try body) httpTrigger_catch.

End SendEmail.

(* ================================================================== *)
(** * [src/functions/sendEmail/index.ts]: the older [manageLicense/index.ts] *)
(* ================================================================== *)

Module ManageLicenseV1.

Definition OFFICE365_E1_GROUP_ID : string :=
  "1263971a-19e5-42d1-a25e-36d71ec76014".

Definition search_request (email : Value) : Request :=
  HttpGet "/users"
    (Some ("mail eq '" ++ toStr email ++ "' or userPrincipalName eq '"
           ++ toStr email ++ "'"))
    (Some "id,userPrincipalName,mail,displayName").

Definition invitation_request (email firstName lastName : Value) : Request :=
  HttpPost "/invitations"
    (Obj [("invitedUserEmailAddress", email);
          ("invitedUserDisplayName",
             Str (toStr firstName ++ " " ++ toStr lastName));
          ("inviteRedirectUrl", Str "https://myapps.microsoft.com");
          ("sendInvitationMessage", Bool true);
          ("invitedUserMessageInfo",
             Obj [("customizedMessageBody",
                   Str "You have been granted access to EGG Events systems. Please accept this invitation to activate your account.")])]).

(** [x.value && x.value.length > 0], given [x.value]. *)
Definition non_empty (value : Value) : bool :=
  truthy value &&
  match getProp value "length" with
  | inr len => gt_zero len
  | inl _ => false
  end.

(** [!x.value || x.value.length === 0], given [x.value]. *)
Definition is_empty (value : Value) : bool :=
  negb (truthy value) ||
  match getProp value "length" with
  | inr len => is_zero len
  | inl _ => false
  end.

Definition findOrCreateUser (email firstName lastName : Value) : M Value :=
  try_catch
    (context_log ("🔍 Searching for user: " ++ toStr email) ;;
     users <- graph_send (search_request email) ;;
     value <- prop users "value" ;;
     if non_empty value then
       upn <- prop (first value) "userPrincipalName" ;;
       context_log ("✅ Found existing user: " ++ toStr upn) ;;
       ret (first value)
     else
       context_log ("➕ Creating new guest user: " ++ toStr email) ;;
       invitation <- graph_send (invitation_request email firstName lastName) ;;
       invitedUser <- prop invitation "invitedUser" ;;
       id <- prop invitedUser "id" ;;
       context_log ("✅ Guest user created: " ++ toStr id) ;;
       invitedUserEmailAddress <- prop invitation "invitedUserEmailAddress" ;;
       ret (Obj [("id", id);
                 ("userPrincipalName", invitedUserEmailAddress);
                 ("mail", email);
                 ("displayName", Str (toStr firstName ++ " " ++ toStr lastName))]))
    (fun error =>
       context_error "❌ Error finding/creating user:" error ;;
       throw error).

Definition members_request (userId : Value) : Request :=
  HttpGet ("/groups/" ++ OFFICE365_E1_GROUP_ID ++ "/members")
    (Some ("id eq '" ++ toStr userId ++ "'")) None.

Definition add_member_request (userId : Value) : Request :=
  HttpPost ("/groups/" ++ OFFICE365_E1_GROUP_ID ++ "/members/$ref")
    (Obj [("@odata.id",
           Str ("https://graph.microsoft.com/v1.0/directoryObjects/"
                ++ toStr userId))]).

Definition remove_member_request (userId : Value) : Request :=
  HttpDelete ("/groups/" ++ OFFICE365_E1_GROUP_ID ++ "/members/"
              ++ toStr userId ++ "/$ref").

(** The guard of the [catch] in [addUserToGroup]. *)
Definition already_member (error : Error) : bool :=
  status_is error 400 && message_includes error "already exist".

Definition addUserToGroup (userId : Value) : M unit :=
  try_catch
    (members <- graph_send (members_request userId) ;;
     value <- prop members "value" ;;
     if non_empty value then
       context_log "ℹ️ User is already a member of the group"
     else
       (graph_send (add_member_request userId) ;;
        context_log "✅ User added to Office 365 E1 group"))
    (fun error =>
       if already_member error then
         context_log "ℹ️ User is already a member of the group"
       else
         (context_error "❌ Error adding user to group:" error ;;
          throw error)).

Definition removeUserFromGroup (userId : Value) : M unit :=
  try_catch
    (members <- graph_send (members_request userId) ;;
     value <- prop members "value" ;;
     if is_empty value then
       context_log "ℹ️ User is not a member of the group"
     else
       (graph_send (remove_member_request userId) ;;
        context_log "✅ User removed from Office 365 E1 group"))
    (fun error =>
       if status_is error 404 then
         context_log "ℹ️ User is not a member of the group"
       else
         (context_error "❌ Error removing user from group:" error ;;
          throw error)).

Definition error_status (error : Error) : Z * string :=
  if status_is error 401 then
    (401, "Authentication failed. Please check app permissions.")
  else if status_is error 403 then
    (403, "Insufficient permissions to manage licenses.")
  else if status_is error 404 then
    (404, "User or group not found.")
  else (500, "Failed to manage license").

Definition httpTrigger_catch (error : Error) : M HttpResponse :=
  context_error "❌ Error managing license:" error ;;
  let errorMessage := message_or error "Unknown error occurred" in
  let '(statusCode, userMessage) := error_status error in
  timestamp <- nowISO ;;
  ret (mkResponse statusCode
         (Obj [("success", Bool false);
               ("error", Str userMessage);
               ("details", Str errorMessage);
               ("timestamp", Str timestamp)])).

Definition body_required : HttpResponse :=
  mkResponse 400
    (Obj [("success", Bool false); ("error", Str "Request body is required")]).

Definition missing_fields : HttpResponse :=
  mkResponse 400
    (Obj [("success", Bool false);
          ("error", Str "Missing required fields: userEmail, firstName, lastName, isActive")]).

Definition httpTrigger_try (body : Value) : M HttpResponse :=
  if negb (truthy body) then ret body_required
  else
    let licenseRequest := body in
    userEmail <- prop licenseRequest "userEmail" ;;
    firstName <- prop licenseRequest "firstName" ;;
    lastName <- prop licenseRequest "lastName" ;;
    isActive <- prop licenseRequest "isActive" ;;
    if negb (truthy userEmail) || negb (truthy firstName)
       || negb (truthy lastName) || is_undefined isActive
    then ret missing_fields
    else
      context_log ("👤 Processing license for: " ++ toStr userEmail) ;;
      context_log ("📊 Active status: " ++ toStr isActive) ;;
      user <- findOrCreateUser userEmail firstName lastName ;;
      id <- (if truthy user then prop user "id" else ret Undefined) ;;
      if negb (truthy user) || negb (truthy id) then
        throw (newError "Failed to find or create user in Entra ID")
      else
        userPrincipalName <- prop user "userPrincipalName" ;;
        context_log ("✅ User found/created: " ++ toStr userPrincipalName
                     ++ " (" ++ toStr id ++ ")") ;;
        (if truthy isActive then addUserToGroup id else removeUserFromGroup id) ;;
        timestamp <- nowISO ;;
        ret (mkResponse 200
               (Obj [("success", Bool true);
                     ("action", Str (if truthy isActive then "added" else "removed"));
                     ("userEmail", userPrincipalName);
                     ("userId", id);
                     ("groupId", Str OFFICE365_E1_GROUP_ID);
                     ("timestamp", Str timestamp)])).

(** [httpTrigger(context, req)]; the result is the final [context.res]. *)
Definition httpTrigger (body : Value) : M HttpResponse :=
  context_log "🔐 License management request received" ;;
  try_catch (httpTrigger_try body) httpTrigger_catch.

End ManageLicenseV1.

(* ================================================================== *)
(** * [src/functions/handleActivityResponse.ts] *)
(* ================================================================== *)

Module HandleActivityResponse.

Definition OFFICE365_E1_GROUP_ID : string :=
  "1263971a-19e5-42d1-a25e-36d71ec76014".
Definition SHAREPOINT_SITE_URL : string :=
  "https://egginthenest.sharepoint.com/sites/INTRANET".
Definition SHAREPOINT_LIST_ID : string :=
  "ebfc366f-f3ca-4230-8f81-25d4e23d5f0b".
Definition SERVICE_ACCOUNT_EMAIL : string := "noreply@egg-events.com".

(** [new URL(SHAREPOINT_SITE_URL)]: its [hostname] and [pathname]. *)
Definition hostname : string := "egginthenest.sharepoint.com".
Definition sitePath : string := "/sites/INTRANET".

Definition site_request : Request :=
  HttpGet ("/sites/" ++ hostname ++ ":" ++ sitePath) None None.

Definition getSharePointSiteId : M Value :=
  try_catch
    (context_log ("üîç Looking up site: " ++ hostname ++ ":" ++ sitePath) ;;
     site <- graph_send site_request ;;
     id <- prop site "id" ;;
     context_log ("‚úÖ Found site ID: " ++ toStr id) ;;
     ret id)
    (fun error =>
       context_error "‚ùå Error getting SharePoint site ID:" error ;;
       throw error).

Definition patch_request (siteId itemId fields : Value) : Request :=
  HttpPatch ("/sites/" ++ toStr siteId ++ "/lists/" ++ SHAREPOINT_LIST_ID
             ++ "/items/" ++ toStr itemId ++ "/fields")
    fields.

Definition updateSharePointItem (siteId itemId fields : Value) : M unit :=
  try_catch
    (context_log ("üìù Updating SharePoint item " ++ toStr itemId) ;;
     graph_send (patch_request siteId itemId fields) ;;
     context_log "‚úÖ SharePoint item updated successfully")
    (fun error =>
       context_error "‚ùå Error updating SharePoint item:" error ;;
       throw error).

Definition remove_member_request (userId : Value) : Request :=
  HttpDelete ("/groups/" ++ OFFICE365_E1_GROUP_ID ++ "/members/"
              ++ toStr userId ++ "/$ref").

Definition removeUserFromGroup (userId : Value) : M unit :=
  try_catch
    (context_log ("üîÑ Removing user from E1 group: " ++ toStr userId) ;;
     graph_send (remove_member_request userId) ;;
     context_log "‚úÖ User removed from Office 365 E1 group")
    (fun error =>
       if status_is error 404 then
         context_log "‚ÑπÔ∏è User was not a member of the group"
       else
         (context_error "‚ùå Error removing user from group:" error ;;
          throw error)).

Definition sendMail_path : string :=
  "/users/" ++ SERVICE_ACCOUNT_EMAIL ++ "/sendMail".

Definition recipient (address : Value) : Value :=
  Obj [("emailAddress", Obj [("address", address)])].

Definition confirmation_content (firstName : Value) : string :=
  "
          <p>Dear "
      ++ toStr firstName
      ++ ",</p>
          <p>Thank you for confirming your activity status!</p>
          <p>Your access to <strong>egg</strong> resources has been maintained.</p>
          <p>You will receive another check-in request in approximately one month.</p>
          <p>If you have any questions, please contact: OnBoard-Talent@egg-events.com</p>
          <p>Best regards,<br>egg Talent Team</p>
        ".

Definition confirmation_request (recipientEmail firstName : Value) : Request :=
  HttpPost sendMail_path
    (Obj [("message",
           Obj [("subject", Str "Thank you - Activity Confirmed");
                ("body", Obj [("contentType", Str "HTML");
                              ("content", Str (confirmation_content firstName))]);
                ("toRecipients", Arr [recipient recipientEmail])]);
          ("saveToSentItems", Bool false)]).

Definition sendConfirmationEmail (recipientEmail firstName : Value) : M unit :=
  try_catch
    (context_log ("üìß Sending confirmation email to " ++ toStr recipientEmail) ;;
     graph_send (confirmation_request recipientEmail firstName) ;;
     context_log "‚úÖ Confirmation email sent successfully")
    (fun error =>
       context_error "‚ùå Error sending confirmation email:" error).

Definition manager_content (supplierName supplierEmail : Value) : string :=
  "
          <p>The account for <strong>"
      ++ toStr supplierName
      ++ "</strong> ("
      ++ toStr supplierEmail
      ++ ") has been deactivated at their request.</p>
          <p><strong>Reason:</strong> User indicated they are no longer working with egg.</p>
          <p><strong>Action Taken:</strong> Office 365 E1 license has been removed. The user can still log in but will not have access to email or SharePoint.</p>
          <p>If this was done in error or you need to restore access, please contact IT helpdesk: helpdesk_eu@egg-events.com</p>
          <p>Best regards,<br>egg Talent Management System</p>
        ".

Definition manager_request (managerEmail supplierName supplierEmail : Value)
  : Request :=
  HttpPost sendMail_path
    (Obj [("message",
           Obj [("subject",
                   Str ("Freelancer Account Deactivated - " ++ toStr supplierName));
                ("body", Obj [("contentType", Str "HTML");
                              ("content",
                                 Str (manager_content supplierName supplierEmail))]);
                ("toRecipients", Arr [recipient managerEmail]);
                ("ccRecipients",
                   Arr [recipient (Str "OnBoard-Talent@egg-events.com")]);
                ("bccRecipients",
                   Arr [recipient (Str "dl_freelanceonboarding@egg-events.com")]);
                ("importance", Str "High")]);
          ("saveToSentItems", Bool false)]).

Definition sendManagerNotification
  (managerEmail supplierName supplierEmail : Value) : M unit :=
  try_catch
    (context_log ("üìß Sending manager notification to " ++ toStr managerEmail) ;;
     graph_send (manager_request managerEmail supplierName supplierEmail) ;;
     context_log "‚úÖ Manager notification sent successfully")
    (fun error =>
       context_error "‚ùå Error sending manager notification:" error).

(** [activityRequest.response.toLowerCase()], for a truthy [response]. *)
Definition lower_response (response : Value) : Result string :=
  match response with
  | Str s => inr (toLowerCase s)
  | _ => inl (TypeError "activityRequest.response.toLowerCase is not a function")
  end.

Definition missing_fields : HttpResponse :=
  mkResponse 400
    (Obj [("success", Bool false);
          ("error", Str "Missing required fields: response, supplierEmail, entraObjectId, sharePointItemId")]).

Definition invalid_response (response : Value) : HttpResponse :=
  mkResponse 400
    (Obj [("success", Bool false);
          ("error", Str ("Invalid response value: " ++ toStr response
                         ++ ". Expected 'yes' or 'no'."))]).

Definition confirmed_fields (timestamp : string) : Value :=
  Obj [("supplierdb_LastActivityCheck", Str timestamp);
       ("supplierdb_ActivityReminderCount", Num 0);
       ("supplierdb_ActivityCheckStatus", Str "Active")].

Definition removed_fields (timestamp : string) : Value :=
  Obj [("supplierdb_SendToEntra", Bool false);
       ("supplierdb_ActivityCheckStatus", Str "License Removed - User Declined");
       ("supplierdb_LicenseRemovedDate", Str timestamp)].

Definition handleActivityResponse_catch (error : Error) : M HttpResponse :=
  context_error "‚ùå Error processing activity response:" error ;;
  ret (mkResponse 500
         (Obj [("success", Bool false);
               ("error", Str (message_or error "Internal server error"));
               ("details", Str (error_toString error))])).

Definition handleActivityResponse_try (request : HttpRequest) : M HttpResponse :=
  activityRequest <- lift (json request) ;;
  response0 <- prop activityRequest "response" ;;
  supplierEmail <- prop activityRequest "supplierEmail" ;;
  entraObjectId <- prop activityRequest "entraObjectId" ;;
  sharePointItemId <- prop activityRequest "sharePointItemId" ;;
  if negb (truthy response0) || negb (truthy supplierEmail)
     || negb (truthy entraObjectId) || negb (truthy sharePointItemId)
  then ret missing_fields
  else
    response <- lift (lower_response response0) ;;
    supplierName <- prop activityRequest "supplierName" ;;
    firstName <- prop activityRequest "firstName" ;;
    requestedByEmail <- prop activityRequest "requestedByEmail" ;;
    context_log ("üë§ Processing " ++ toUpperCase response ++ " response for: "
                 ++ toStr supplierName) ;;
    context_log ("üìß Email: " ++ toStr supplierEmail) ;;
    context_log ("üÜî Entra Object ID: " ++ toStr entraObjectId) ;;
    context_log ("üìÑ SharePoint Item ID: " ++ toStr sharePointItemId) ;;
    timestamp <- nowISO ;;
    siteId <- getSharePointSiteId ;;
    if response =? "yes" then
      context_log "‚úÖ User confirmed activity - updating SharePoint" ;;
      updateSharePointItem siteId sharePointItemId (confirmed_fields timestamp) ;;
      sendConfirmationEmail supplierEmail firstName ;;
      context_log "‚úÖ Activity confirmation processed successfully" ;;
      ret (mkResponse 200
             (Obj [("success", Bool true);
                   ("action", Str "activity_confirmed");
                   ("message", Str "Activity confirmed and SharePoint updated");
                   ("timestamp", Str timestamp)]))
    else if response =? "no" then
      context_log "üö´ User declined - removing E1 license" ;;
      removeUserFromGroup entraObjectId ;;
      updateSharePointItem siteId sharePointItemId (removed_fields timestamp) ;;
      (if truthy requestedByEmail
       then sendManagerNotification requestedByEmail supplierName supplierEmail
       else ret tt) ;;
      context_log "‚úÖ License removal processed successfully" ;;
      ret (mkResponse 200
             (Obj [("success", Bool true);
                   ("action", Str "license_removed");
                   ("message", Str "License removed and manager notified");
                   ("timestamp", Str timestamp)]))
    else ret (invalid_response response0).

Definition handleActivityResponse (request : HttpRequest) : M HttpResponse :=
  context_log "üì• Activity response webhook received" ;;
  try_catch (handleActivityResponse_try request) handleActivityResponse_catch.

End HandleActivityResponse.

(* ================================================================== *)
(** * [Array.prototype.sort] with an effectful comparator *)
(* ================================================================== *)

Module JsArray.

(** ECMAScript leaves the sequence of comparator calls to the engine.
    This is insertion from the left: each element is compared with the
    already placed ones until the comparator answers a negative number.
    The comparator runs in [M]: it may draw random numbers. *)
Fixpoint insert_by {A} (cmp : A -> A -> M Z) (x : A) (placed : list A)
  : M (list A) :=
  match placed with
  | [] => ret [x]
  | y :: rest =>
      c <- cmp x y ;;
      if (c <? 0)%Z then ret (x :: y :: rest)
      else (r <- insert_by cmp x rest ;; ret (y :: r))
  end.

Fixpoint sort_into {A} (cmp : A -> A -> M Z) (todo placed : list A)
  : M (list A) :=
  match todo with
  | [] => ret placed
  | x :: rest =>
      placed' <- insert_by cmp x placed ;;
      sort_into cmp rest placed'
  end.

Definition sort {A} (cmp : A -> A -> M Z) (items : list A) : M (list A) :=
  sort_into cmp items [].

End JsArray.

(* ================================================================== *)
(** * [src/functions/resetFreelancerPassword.ts] *)
(* ================================================================== *)

Module ResetFreelancerPassword.

Definition SUPPLIER_PORTAL_URL : string :=
  "https://egginthenest.sharepoint.com/sites/SupplierPortal/SitePages/MyProfile.aspx".
Definition HELPDESK_EMAIL : string := "helpdesk_eu@egg-events.com".
Definition SERVICE_ACCOUNT_EMAIL : string := "noreply@egg-events.com".

Definition length : nat := 16.
Definition uppercase : string := "ABCDEFGHIJKLMNOPQRSTUVWXYZ".
Definition lowercase : string := "abcdefghijklmnopqrstuvwxyz".
Definition numbers : string := "0123456789".
Definition symbols : string := "!@#$%^&*".
Definition allChars : string := uppercase ++ lowercase ++ numbers ++ symbols.

(** What [password += s[i]] appends: indexing past the end yields
    [undefined]. *)
Definition char_at (s : string) (i : nat) : string :=
  match String.get i s with
  | Some c => String c EmptyString
  | None => "undefined"
  end.

(** [s[crypto.randomInt(s.length)]]. *)
Definition pick (s : string) : M string :=
  i <- randomInt (String.length s) ;;
  ret (char_at s i).

(** [for (let i = password.length; i < length; i++)
       password += allChars[crypto.randomInt(allChars.length)]],
    with [n] the number of rounds left. *)
Fixpoint fill (n : nat) (password : string) : M string :=
  match n with
  | O => ret password
  | S n' =>
      c <- pick allChars ;;
      fill n' (password ++ c)
  end.

(** [() => crypto.randomInt(3) - 1]. *)
Definition shuffle_cmp (_ _ : ascii) : M Z :=
  r <- randomInt 3 ;;
  ret (Z.of_nat r - 1)%Z.

Definition generateSecurePassword : M string :=
  let password := EmptyString in
  u <- pick uppercase ;;
  let password := password ++ u in
  l <- pick lowercase ;;
  let password := password ++ l in
  d <- pick numbers ;;
  let password := password ++ d in
  s <- pick symbols ;;
  let password := password ++ s in
  password <- fill (length - String.length password) password ;;
  shuffled <- JsArray.sort shuffle_cmp (list_ascii_of_string password) ;;
  ret (string_of_list_ascii shuffled).

Definition htmlBody (firstName upn : Value) (newPassword : string) (year : Z)
  : string :=
  "
<!DOCTYPE html>
<html>
<head>
    <style>
        body { 
            font-family: 'Segoe UI', Arial, sans-serif; 
            line-height: 1.6; 
            color: #333; 
            margin: 0;
            padding: 0;
        }
        .container { 
            max-width: 600px; 
            margin: 0 auto; 
            padding: 20px; 
        }
        .header { 
            background: linear-gradient(135deg, #f093fb 0%, #f5576c 100%); 
            color: white; 
            padding: 30px; 
            text-align: center; 
            border-radius: 10px 10px 0 0; 
        }
        .header h1 {
            margin: 0 0 10px 0;
            font-size: 28px;
        }
        .content { 
            background: #f8f9fa; 
            padding: 30px; 
            border-radius: 0 0 10px 10px; 
        }
        .credential-box { 
            background: #fff; 
            border-left: 4px solid #dc3545; 
            padding: 20px; 
            margin: 20px 0; 
            border-radius: 5px;
            box-shadow: 0 2px 4px rgba(0,0,0,0.1);
        }
        .credential-box h3 {
            margin-top: 0;
            color: #dc3545;
        }
        .credential-box p {
            margin: 10px 0;
        }
        .credential-box code {
            background: #e9ecef;
            padding: 4px 8px;
            border-radius: 3px;
            font-family: 'Courier New', monospace;
            font-size: 14px;
            color: #d63384;
        }
        .button { 
            display: inline-block; 
            background: #dc3545; 
            color: white; 
            padding: 14px 28px; 
            text-decoration: none; 
            border-radius: 5px; 
            margin: 15px 0;
            font-weight: 600;
        }
        .button:hover {
            background: #c82333;
        }
        .warning { 
            background: #fff3cd; 
            border: 1px solid #ffeaa7; 
            padding: 15px; 
            border-radius: 5px; 
            margin: 15px 0; 
        }
        .info-box {
            background: #d1ecf1;
            border: 1px solid #bee5eb;
            padding: 15px;
            border-radius: 5px;
            margin: 15px 0;
        }
        .steps { 
            background: #e7f3ff; 
            padding: 20px; 
            border-radius: 5px; 
            margin: 15px 0; 
        }
        .steps h3 {
            margin-top: 0;
            color: #0078d4;
        }
        .steps ol {
            margin: 10px 0;
            padding-left: 20px;
        }
        .steps li {
            margin: 8px 0;
        }
        .footer { 
            text-align: center; 
            color: #666; 
            font-size: 12px; 
            margin-top: 30px;
            padding-top: 20px;
            border-top: 1px solid #dee2e6;
        }
        .footer a {
            color: #007bff;
            text-decoration: none;
        }
    </style>
</head>
<body>
    <div class=" ++ dq ++ "container" ++ dq ++ ">
        <div class=" ++ dq ++ "header" ++ dq ++ ">
            <h1>🔑 Password Reset Successful</h1>
            <p>Hello "
  ++ toStr firstName
  ++ "!</p>
        </div>
        
        <div class=" ++ dq ++ "content" ++ dq ++ ">
            <p>Your EGG Events account password has been reset successfully. You can now access your account with the new credentials below.</p>
            
            <div class=" ++ dq ++ "credential-box" ++ dq ++ ">
                <h3>🔐 Your New Account Details</h3>
                <p><strong>Username:</strong> <code>"
  ++ toStr upn
  ++ "</code></p>
                <p><strong>New Temporary Password:</strong> <code>"
  ++ newPassword
  ++ "</code></p>
            </div>

            <div class=" ++ dq ++ "warning" ++ dq ++ ">
                ⚠️ <strong>Important Security Notice:</strong> You must change this temporary password immediately upon first login. This is required for your account security.
            </div>

            <div class=" ++ dq ++ "info-box" ++ dq ++ ">
                ℹ️ <strong>Why was my password reset?</strong><br>
                Your password may have been reset because:
                <ul style=" ++ dq ++ "margin: 10px 0; padding-left: 20px;" ++ dq ++ ">
                    <li>You or an administrator requested a password reset</li>
                    <li>You forgot your password</li>
                    <li>Routine security maintenance</li>
                </ul>
            </div>
            
            <h3>🌐 Access Your Account</h3>
            <p>Click the button below to sign in with your new credentials:</p>
            <a href=" ++ dq ++ "https://outlook.office.com/" ++ dq ++ " class=" ++ dq ++ "button" ++ dq ++ ">📧 Sign In to Outlook</a>
            
            <div class=" ++ dq ++ "steps" ++ dq ++ ">
                <h3>🔑 How to Change Your Password</h3>
                <ol>
                    <li>Click the " ++ dq ++ "Sign In to Outlook" ++ dq ++ " button above or go to <a href=" ++ dq ++ "https://office.com/signin" ++ dq ++ ">office.com/signin</a></li>
                    <li>Enter your username: <code>"
  ++ toStr upn
  ++ "</code></li>
                    <li>Enter your temporary password: <code>"
  ++ newPassword
  ++ "</code></li>
                    <li>You'll be prompted to change your password immediately</li>
                    <li>Create a strong new password with:
                        <ul style=" ++ dq ++ "margin-top: 5px;" ++ dq ++ ">
                            <li>At least 8 characters</li>
                            <li>Uppercase and lowercase letters</li>
                            <li>Numbers and special symbols</li>
                        </ul>
                    </li>
                    <li>Confirm your new password and submit</li>
                </ol>
            </div>
            
            <h3>📋 Access Your Supplier Portal</h3>
            <p>After changing your password, you can access the Supplier Portal:</p>
            <a href=" ++ dq
  ++ SUPPLIER_PORTAL_URL
  ++ dq ++ " class=" ++ dq ++ "button" ++ dq ++ ">🏢 Access Supplier Portal</a>
            
            <div class=" ++ dq ++ "warning" ++ dq ++ ">
                <strong>Note:</strong> The Supplier Portal requires your EGG account. If you have trouble accessing it, open a private/incognito browser window and sign in with your EGG credentials.
            </div>
            
            <div class=" ++ dq ++ "footer" ++ dq ++ ">
                <p>If you didn't request this password reset or have any concerns, please contact us immediately.</p>
                <p>📧 Contact us: <a href=" ++ dq ++ "mailto:"
  ++ HELPDESK_EMAIL
  ++ dq ++ ">"
  ++ HELPDESK_EMAIL
  ++ "</a></p>
                <hr style=" ++ dq ++ "border: 0; border-top: 1px solid #dee2e6; margin: 15px 0;" ++ dq ++ ">
                <p>© "
  ++ string_of_Z year
  ++ " EGG Events - Account Security System</p>
            </div>
        </div>
    </div>
</body>
</html>
".

Definition sendMail_request
  (firstName lastName personalEmail upn : Value) (newPassword : string) (year : Z)
  : Request :=
  HttpPost ("/users/" ++ SERVICE_ACCOUNT_EMAIL ++ "/sendMail")
    (Obj [("message",
           Obj [("subject", Str "🔑 Your EGG Events Password Has Been Reset");
                ("body", Obj [("contentType", Str "HTML");
                              ("content",
                                 Str (htmlBody firstName upn newPassword year))]);
                ("toRecipients",
                   Arr [Obj [("emailAddress",
                              Obj [("address", personalEmail);
                                   ("name", Str (toStr firstName ++ " "
                                                 ++ toStr lastName))])]])]);
          ("saveToSentItems", Bool false)]).

(** [sendPasswordResetEmail]: no [try] of its own. *)
Definition sendPasswordResetEmail
  (resetRequest upn : Value) (newPassword : string) : M unit :=
  firstName <- prop resetRequest "firstName" ;;
  d <- newDate ;;
  lastName <- prop resetRequest "lastName" ;;
  personalEmail <- prop resetRequest "personalEmail" ;;
  graph_send (sendMail_request firstName lastName personalEmail upn newPassword
                (getFullYear d)) ;;
  ret tt.

Definition lookup_request (userIdentifier : Value) : Request :=
  HttpGet ("/users/" ++ toStr userIdentifier) None
    (Some "id,userPrincipalName,displayName,givenName,surname").

Definition password_request (id : Value) (newPassword : string) : Request :=
  HttpPatch ("/users/" ++ toStr id)
    (Obj [("passwordProfile",
           Obj [("forceChangePasswordNextSignIn", Bool true);
                ("password", Str newPassword)])]).

Definition missing_fields : HttpResponse :=
  mkResponse 400
    (Obj [("success", Bool false);
          ("error", Str "Missing required fields: (userPrincipalName OR userId), firstName, lastName, personalEmail")]).

(** The status code and user message the [catch] of the handler picks. *)
Definition error_status (error : Error) : Z * string :=
  if code_is error "Request_ResourceNotFound" then
    (404, "User not found. Please verify the user exists in Entra ID.")
  else if status_is error 401 || code_is error "InvalidAuthenticationToken" then
    (401, "Authentication failed. Please check app permissions.")
  else if status_is error 403 then
    (403, "Insufficient permissions to reset passwords.")
  else if status_is error 429 then
    (429, "Rate limit exceeded. Please try again later.")
  else (500, "An unexpected error occurred while resetting the password.").

Definition resetFreelancerPassword_catch (error : Error) : M HttpResponse :=
  context_log ("❌ Error resetting password: " ++ message_text error) ;;
  let errorMessage := message_or error "Unknown error" in
  let '(statusCode, userMessage) := error_status error in
  timestamp <- nowISO ;;
  ret (mkResponse statusCode
         (Obj [("success", Bool false);
               ("error", Str userMessage);
               ("details", Str errorMessage);
               ("timestamp", Str timestamp)])).

(** The inner [try] around the user lookup: [inr user] when it falls
    through, [inl response] for the [return] in its [catch]. *)
Definition lookup_user (userIdentifier : Value) : M (HttpResponse + Value) :=
  try_catch
    (user <- graph_send (lookup_request userIdentifier) ;;
     upn <- prop user "userPrincipalName" ;;
     id <- prop user "id" ;;
     context_log ("✅ Found user: " ++ toStr upn ++ " (ID: " ++ toStr id ++ ")") ;;
     ret (inr user))
    (fun error =>
       if status_is error 404 then
         timestamp <- nowISO ;;
         ret (inl (mkResponse 404
                     (Obj [("success", Bool false);
                           ("error", Str "User not found");
                           ("details", Str ("No user found with identifier: "
                                            ++ toStr userIdentifier));
                           ("timestamp", Str timestamp)])))
       else throw error).

Definition resetFreelancerPassword_try (request : HttpRequest) : M HttpResponse :=
  resetRequest <- lift (json request) ;;
  userPrincipalName <- prop resetRequest "userPrincipalName" ;;
  userId <- prop resetRequest "userId" ;;
  firstName <- prop resetRequest "firstName" ;;
  lastName <- prop resetRequest "lastName" ;;
  personalEmail <- prop resetRequest "personalEmail" ;;
  if negb (truthy userPrincipalName) && negb (truthy userId)
     || negb (truthy firstName) || negb (truthy lastName)
     || negb (truthy personalEmail)
  then ret missing_fields
  else
    context_log ("🔐 Resetting password for: " ++ toStr firstName ++ " "
                 ++ toStr lastName) ;;
    context_log ("📧 Identifier: " ++ toStr (or_else userPrincipalName userId)) ;;
    let userIdentifier := or_else userPrincipalName userId in
    context_log ("🔍 Looking up user: " ++ toStr userIdentifier) ;;
    found <- lookup_user userIdentifier ;;
    match found with
    | inl response => ret response
    | inr user =>
        newPassword <- generateSecurePassword ;;
        context_log "🔐 Generated new password" ;;
        context_log "🔄 Updating password in Entra ID..." ;;
        id <- prop user "id" ;;
        graph_send (password_request id newPassword) ;;
        context_log "✅ Password updated successfully" ;;
        context_log "📧 Sending password reset email..." ;;
        upn <- prop user "userPrincipalName" ;;
        sendPasswordResetEmail resetRequest upn newPassword ;;
        context_log "✅ Password reset email sent" ;;
        timestamp <- nowISO ;;
        ret (mkResponse 200
               (Obj [("success", Bool true);
                     ("newPassword", Str newPassword);
                     ("userPrincipalName", upn);
                     ("timestamp", Str timestamp)]))
    end.

Definition resetFreelancerPassword (request : HttpRequest) : M HttpResponse :=
  context_log "🔄 Reset password request received" ;;
  try_catch (resetFreelancerPassword_try request) resetFreelancerPassword_catch.

End ResetFreelancerPassword.

(* ================================================================== *)
(** * Reading a trace *)
(* ================================================================== *)

Definition token_request : Request := AcquireToken graph_scope.

(** [graphClient.api(`/users/${ident}`).get()]. *)
Definition point_lookup (ident : Value) : Request :=
  HttpGet ("/users/" ++ toStr ident) None None.

(** The invitation-creation calls of a trace. *)
Definition is_invitation (r : Request) : bool :=
  match r with
  | HttpPost path _ => path =? "/invitations"
  | _ => false
  end.

Definition invitations (xs : list Exchange) : list Request :=
  filter is_invitation (requests xs).

(** The mail-send calls of a trace. *)
Definition is_sendMail (r : Request) : bool :=
  match r with
  | HttpPost path _ => includes path "/sendMail"
  | _ => false
  end.

Definition mails (xs : list Exchange) : list Request :=
  filter is_sendMail (requests xs).

(** A run that ends in a 400 response with a structured error and has
    added nothing to the trace of remote exchanges. *)
Definition rejected (run : St * Result HttpResponse) (st : St) : Prop :=
  exists response message,
    snd run = inr response /\
    status response = 400 /\
    getProp (jsonBody response) "success" = inr (Bool false) /\
    getProp (jsonBody response) "error" = inr (Str message) /\
    sent (fst run) = sent st.

(** The error mapping table of the response formatter, in the spec's
    words: remote status 401, 403, 404 and 429 map to themselves, first
    match wins, and any other or absent status maps to 500. *)
Definition spec_status_table (remoteStatus : option Z) : Z :=
  match remoteStatus with
  | Some s =>
      if (s =? 401)%Z then 401
      else if (s =? 403)%Z then 403
      else if (s =? 404)%Z then 404
      else if (s =? 429)%Z then 429
      else 500
  | None => 500
  end.

(** A failure body: [success: false], [error], [details], [timestamp]. *)
Definition error_body (response : HttpResponse) : Prop :=
  getProp (jsonBody response) "success" = inr (Bool false) /\
  (exists text, getProp (jsonBody response) "error" = inr (Str text)) /\
  (exists text, getProp (jsonBody response) "details" = inr (Str text)) /\
  (exists text, getProp (jsonBody response) "timestamp" = inr (Str text)).

(** The characters of a string, and membership in a character class. *)
Definition chars (s : string) : list ascii := list_ascii_of_string s.

Definition in_class (class : string) (c : ascii) : Prop := In c (chars class).

(** Only the random source moved between two states. *)
Definition quiet (st st' : St) : Prop :=
  sent st' = sent st /\ logs st' = logs st /\ ticks st' = ticks st.

(** A comparator that always answers and does nothing but draw. *)
Definition never_throws {A} (cmp : A -> A -> M Z) : Prop :=
  forall a b w st, exists st' z, cmp a b w st = (st', inr z) /\ quiet st st'.

(** The answers a trace holds for the requests of one kind. *)
Definition is_patch (r : Request) : bool :=
  match r with
  | HttpPatch _ _ => true
  | _ => false
  end.


(** The requests of one kind in a trace. *)
Definition sent_of (kind : Request -> bool) (xs : list Exchange) : list Request :=
  filter kind (requests xs).

Definition is_delete (r : Request) : bool :=
  match r with
  | HttpDelete _ => true
  | _ => false
  end.

(** The add-member calls: POST to [.../members/$ref]. *)
Definition is_add_member (r : Request) : bool :=
  match r with
  | HttpPost path _ => includes path "/members/$ref"
  | _ => false
  end.

Definition is_string (v : Value) : bool :=
  match v with
  | Str _ => true
  | _ => false
  end.

(** The request the send-mail function posts for a payload whose
    [recipients] are [items], whose [subject] and [body] are the strings
    given, and whose other fields are read from [fields]. *)
Definition sendMail_post (fields : list (string * Value)) (items : list Value)
  (subject body : string) : Request :=
  HttpPost ("/users/" ++ toStr (lookup "from" fields) ++ "/sendMail")
    (Obj [("message",
           Obj [("subject", Str (utf16_prefix 255 subject));
                ("body",
                   Obj [("contentType",
                           Str (if truthy (lookup "isHtml" fields)
                                then "HTML" else "Text"));
                        ("content", Str (SendEmail.sanitize_string body))]);
                ("from",
                   Obj [("emailAddress",
                         Obj [("address", lookup "from" fields);
                              ("name", or_else (lookup "fromName" fields)
                                         (Str "EGG Events"))])]);
                ("toRecipients",
                   Arr (map (fun email =>
                               Obj [("emailAddress", Obj [("address", email)])])
                            items))]);
          ("saveToSentItems", Bool true)]).

(** [lit_at p s i]: the text [p] stands in [s] at index [i], letter case
    aside; [contains_ci s p]: it stands somewhere in [s]. *)
Fixpoint lit_at (p s : string) (i : nat) : bool :=
  match p with
  | EmptyString => true
  | String c p' =>
      match String.get i s with
      | Some d => Ascii.eqb (upper_ascii c) (upper_ascii d) && lit_at p' s (S i)
      | None => false
      end
  end.

Definition contains_ci (s p : string) : bool :=
  existsb (lit_at p s) (seq 0 (S (String.length s))).

(** The calls on the membership of the licence group, written out as
    they go over the wire: the create-relationship call, the
    delete-relationship call and the membership query of the older
    [manageLicense/index.ts]. *)
Definition membership_post (userId : Value) : Request :=
  HttpPost "/groups/1263971a-19e5-42d1-a25e-36d71ec76014/members/$ref"
    (Obj [("@odata.id",
           Str ("https://graph.microsoft.com/v1.0/directoryObjects/"
                ++ toStr userId))]).

Definition membership_delete (userId : Value) : Request :=
  HttpDelete ("/groups/1263971a-19e5-42d1-a25e-36d71ec76014/members/"
              ++ toStr userId ++ "/$ref").

Definition membership_query (userId : Value) : Request :=
  HttpGet "/groups/1263971a-19e5-42d1-a25e-36d71ec76014/members"
    (Some ("id eq '" ++ toStr userId ++ "'")) None.

(** The calls of the activity webhook on the supplier list: the lookup of
    the intranet site, the patch of one record's fields, and the fields
    written when a licence has been removed. *)
Definition site_lookup : Request :=
  HttpGet "/sites/egginthenest.sharepoint.com:/sites/INTRANET" None None.

Definition record_patch (siteId itemId fields : Value) : Request :=
  HttpPatch ("/sites/" ++ toStr siteId
             ++ "/lists/ebfc366f-f3ca-4230-8f81-25d4e23d5f0b/items/"
             ++ toStr itemId ++ "/fields")
    fields.

Definition licence_removed_record (timestamp : string) : Value :=
  Obj [("supplierdb_SendToEntra", Bool false);
       ("supplierdb_ActivityCheckStatus", Str "License Removed - User Declined");
       ("supplierdb_LicenseRemovedDate", Str timestamp)].

(** A computation whose result and whose effects other than logging do
    not depend on the log it starts from, and a computation that sends no
    request of a given kind. *)
Definition with_logs (lg : list LogEntry) (st : St) : St :=
  mkSt (sent st) lg (ticks st) (draws st).

Definition log_blind {A} (m : M A) : Prop :=
  forall w st lg0, exists lg1,
    m w (with_logs lg0 st) = (with_logs lg1 (fst (m w st)), snd (m w st)).

Definition silent {A} (kind : Request -> bool) (m : M A) : Prop :=
  forall w st, sent_of kind (sent (fst (m w st))) = sent_of kind (sent st).

(** A string of ASCII characters only. *)
Definition ascii_only (s : string) : bool :=
  forallb (fun c => (nat_of_ascii c <? 128)%nat) (list_ascii_of_string s).

(** A JSON value with named fields, as opposed to a scalar or an array. *)
Definition is_object (v : Value) : bool :=
  match v with
  | Obj _ => true
  | _ => false
  end.

(* ================================================================== *)
(** * Sample worlds and requests *)
(* ================================================================== *)

Module Scenario.

Definition token : Value := Obj [("token", Str "eyJ0")].

Definition date0 : Date := mkDate "2025-01-01T00:00:00.000Z" 2025.

(** A world whose token endpoint always answers and whose service
    answers by the request alone. *)
Definition world_of (answer : Request -> Result Value) : World :=
  mkWorld
    (fun _ req =>
       match req with
       | AcquireToken _ => inr token
       | _ => answer req
       end)
    (fun _ => date0)
    (fun n => n).

Definition graphError (status : Z) (code message : string) : Error :=
  mkError "Error" (Some status) (Some code) (Some message).

Definition notFound : Error :=
  graphError 404 "Request_ResourceNotFound"
    "Resource does not exist or one of its queried reference-property objects are not present.".

Definition badRequest : Error :=
  graphError 400 "Request_BadRequest" "Invalid object identifier 'u-1'.".

Definition alreadyExists : Error :=
  graphError 400 "Request_BadRequest"
    "One or more added object references already exist for the following modified properties: 'members'.".

Definition accessDenied : Error :=
  graphError 403 "ErrorAccessDenied" "Access is denied. Check credentials and try again.".

Definition unauthorized : Error :=
  graphError 401 "Unauthorized" "Access token has expired or is not yet valid.".

Definition tooManyRequests : Error :=
  graphError 429 "TooManyRequests" "Too many requests.".

(** The token is granted and the service refuses every request with [e]. *)
Definition refusing_world (e : Error) : World :=
  world_of (fun _ => inl e).

Definition u1 : Value := Str "u-1".


(** A directory user, as a point lookup returns it. *)
Definition alice : Value :=
  Obj [("id", Str "u-1");
       ("userPrincipalName", Str "alice.talent@egg-events.com");
       ("displayName", Str "Alice Martin")].

(** Every GET answers with [alice]. *)
Definition directory_world : World :=
  world_of (fun req =>
              match req with
              | HttpGet _ _ _ => inr alice
              | _ => inr Undefined
              end).

(** Nobody is in the directory: point lookups answer 404, the search
    answers an empty page, and the invitation service answers with the
    address in lower case. *)
Definition invitation_reply : Value :=
  Obj [("id", Str "inv-1");
       ("invitedUserEmailAddress", Str "a@b.com");
       ("invitedUser", Obj [("id", Str "u-2")])].

Definition empty_directory : World :=
  world_of (fun req =>
              match req with
              | HttpGet "/users" _ _ => inr (Obj [("value", Arr [])])
              | HttpGet _ _ _ => inl notFound
              | HttpPost "/invitations" _ => inr invitation_reply
              | _ => inr Undefined
              end).

(** A well-formed activity answer. *)
Definition activity_yes_fields : list (string * Value) :=
  [("response", Str "yes");
   ("supplierEmail", Str "alice@example.org");
   ("supplierName", Str "Alice Martin");
   ("firstName", Str "Alice");
   ("entraObjectId", Str "u-1");
   ("sharePointItemId", Str "42")].

Definition activity_yes : HttpRequest :=
  mkRequest (inr (Obj activity_yes_fields)).

(** A license request that lacks [lastName], and an activity answer that
    lacks [sharePointItemId]. *)
Definition license_without_lastName : list (string * Value) :=
  [("userEmail", Str "alice@example.org");
   ("firstName", Str "Alice");
   ("isActive", Bool true)].

Definition activity_without_item : list (string * Value) :=
  [("response", Str "yes");
   ("supplierEmail", Str "alice@example.org");
   ("entraObjectId", Str "u-1")].

(** The supplier declines and no manager address comes with the answer. *)
Definition activity_no_without_manager : list (string * Value) :=
  [("response", Str "No");
   ("supplierEmail", Str "alice@example.org");
   ("supplierName", Str "Alice Martin");
   ("firstName", Str "Alice");
   ("entraObjectId", Str "u-1");
   ("sharePointItemId", Str "42")].

(** The directory and the record store answer, the mail service refuses
    every send. *)
Definition mail_down : World :=
  world_of (fun req =>
              match req with
              | HttpGet _ _ _ => inr alice
              | HttpPost _ _ => inl accessDenied
              | _ => inr Undefined
              end).

Definition activity_no_with_manager : list (string * Value) :=
  [("response", Str "NO");
   ("supplierEmail", Str "alice@example.org");
   ("supplierName", Str "Alice Martin");
   ("firstName", Str "Alice");
   ("entraObjectId", Str "u-1");
   ("sharePointItemId", Str "42");
   ("requestedByEmail", Str "manager@egg-events.com")].

Definition reset_fields : list (string * Value) :=
  [("userId", Str "u-1");
   ("firstName", Str "Alice");
   ("lastName", Str "Martin");
   ("personalEmail", Str "alice@example.org")].

(** A mail for two recipients, and the same with a number as body. *)
Definition mail_fields : list (string * Value) :=
  [("recipients", Arr [Str "a@example.org"; Str "b@example.org"]);
   ("from", Str "noreply@egg-events.com");
   ("fromName", Str "EGG");
   ("subject", Str "Hello");
   ("body", Str "<b>Hi</b>");
   ("isHtml", Bool true)].

Definition mail_fields_numeric_body : list (string * Value) :=
  [("recipients", Arr [Str "a@example.org"]);
   ("from", Str "noreply@egg-events.com");
   ("subject", Str "Hello");
   ("body", Num 5)].

Definition mail_fields_no_recipient : list (string * Value) :=
  [("recipients", Arr []);
   ("from", Str "noreply@egg-events.com");
   ("subject", Str "Hello");
   ("body", Str "Hi")].

Definition mail_fields_crowd : list (string * Value) :=
  [("recipients", Arr (repeat (Str "a@example.org") 51));
   ("from", Str "noreply@egg-events.com");
   ("subject", Str "Hello");
   ("body", Str "Hi")].

(** The object-id lookup is refused for lack of permission, the lookup
    by principal name answers. *)
Definition id_lookup_denied : World :=
  world_of (fun req =>
              match req with
              | HttpGet "/users/u-1" _ _ => inl accessDenied
              | HttpGet _ _ _ => inr alice
              | _ => inr Undefined
              end).

(** The directory search finds [alice]; point lookups answer 404. *)
Definition search_finds_alice : World :=
  world_of (fun req =>
              match req with
              | HttpGet "/users" _ _ => inr (Obj [("value", Arr [alice])])
              | HttpGet _ _ _ => inl notFound
              | _ => inr Undefined
              end).

(** The directory search is refused; so is the invitation service in the
    second world, whose search finds nobody. *)
Definition search_denied : World :=
  world_of (fun req =>
              match req with
              | HttpGet _ _ _ => inl accessDenied
              | _ => inr Undefined
              end).

Definition invitation_denied : World :=
  world_of (fun req =>
              match req with
              | HttpGet "/users" _ _ => inr (Obj [("value", Arr [])])
              | HttpGet _ _ _ => inl notFound
              | HttpPost _ _ => inl accessDenied
              | _ => inr Undefined
              end).

(** License requests for a known object id: to activate, and with
    [isActive: null]. *)
Definition license_activate : list (string * Value) :=
  [("userEmail", Str "alice@example.org");
   ("entraObjectId", Str "u-1");
   ("firstName", Str "Alice");
   ("lastName", Str "Martin");
   ("isActive", Bool true)].

Definition license_isActive_null : list (string * Value) :=
  [("userEmail", Str "alice@example.org");
   ("entraObjectId", Str "u-1");
   ("firstName", Str "Alice");
   ("lastName", Str "Martin");
   ("isActive", Null)].

(** A directory record that has no [id]. *)
Definition nameless : Value :=
  Obj [("userPrincipalName", Str "alice.talent@egg-events.com")].

(** An activity answer that is neither yes nor no. *)
Definition activity_maybe : list (string * Value) :=
  [("response", Str "Maybe");
   ("supplierEmail", Str "alice@example.org");
   ("supplierName", Str "Alice Martin");
   ("firstName", Str "Alice");
   ("entraObjectId", Str "u-1");
   ("sharePointItemId", Str "42")].

(** The group service refuses the removal; the record store refuses the
    patch. *)
Definition removal_denied : World :=
  world_of (fun req =>
              match req with
              | HttpGet _ _ _ => inr alice
              | HttpDelete _ => inl accessDenied
              | _ => inr Undefined
              end).

Definition patch_denied : World :=
  world_of (fun req =>
              match req with
              | HttpGet _ _ _ => inr alice
              | HttpPatch _ _ => inl accessDenied
              | _ => inr Undefined
              end).

(** A service that knows the licence group with its one possible member
    [u-1], the intranet site, record 42 of the supplier list and the
    mailbox of the service account, and refuses every request it does
    not know. *)
Definition unknownRequest : Error :=
  graphError 400 "BadRequest" "Resource not found for the segment.".

Definition site1 : Value := Obj [("id", Str "site-1")].

Definition strict_service (post delete : Result Value) (req : Request)
  : Result Value :=
  match req with
  | HttpGet path None None =>
      if path =? "/sites/egginthenest.sharepoint.com:/sites/INTRANET"
      then inr site1 else inl unknownRequest
  | HttpGet path (Some filter) None =>
      if (path =? "/groups/1263971a-19e5-42d1-a25e-36d71ec76014/members")
         && (filter =? "id eq 'u-1'")
      then inr (Obj [("value", Arr [])]) else inl unknownRequest
  | HttpPost path _ =>
      if path =? "/groups/1263971a-19e5-42d1-a25e-36d71ec76014/members/$ref"
      then post
      else if path =? "/users/noreply@egg-events.com/sendMail"
      then inr Undefined
      else inl unknownRequest
  | HttpDelete path =>
      if path =? "/groups/1263971a-19e5-42d1-a25e-36d71ec76014/members/u-1/$ref"
      then delete else inl unknownRequest
  | HttpPatch path _ =>
      if path =? "/sites/site-1/lists/ebfc366f-f3ca-4230-8f81-25d4e23d5f0b/items/42/fields"
      then inr Undefined else inl unknownRequest
  | _ => inl unknownRequest
  end.

Definition strict_world (post delete : Result Value) : World :=
  world_of (strict_service post delete).

(** The site lookup is refused for lack of permission. *)
Definition site_denied : World :=
  world_of (fun req =>
              match req with
              | HttpGet _ _ _ => inl accessDenied
              | _ => inr Undefined
              end).

(** An activity answer without the supplier's names. *)
Definition activity_without_names : list (string * Value) :=
  [("response", Str "yes");
   ("supplierEmail", Str "alice@example.org");
   ("entraObjectId", Str "u-1");
   ("sharePointItemId", Str "42")].

(** Point lookups answer 404 and the directory search finds a record
    that has no [id]. *)
Definition search_finds_nameless : World :=
  world_of (fun req =>
              match req with
              | HttpGet "/users" _ _ => inr (Obj [("value", Arr [nameless])])
              | HttpGet _ _ _ => inl notFound
              | _ => inr Undefined
              end).

(** A mail whose subject is 300 times the two-byte letter e-acute, one
    code unit each, and whose body has a handler attribute that ends at
    a no-break space. *)
Fixpoint times (n : nat) (s : string) : string :=
  match n with
  | O => EmptyString
  | S n' => s ++ times n' s
  end.

Definition e_acute : string :=
  String (ascii_of_nat 195) (String (ascii_of_nat 169) EmptyString).

Definition nbsp : string :=
  String (ascii_of_nat 194) (String (ascii_of_nat 160) EmptyString).

Definition subject_accents : string := times 300 e_acute.

Definition body_nbsp : string := "<a onclick=run" ++ nbsp ++ "id=x>go</a>".

Definition mail_fields_accents : list (string * Value) :=
  [("recipients", Arr [Str "a@example.org"; Str "b@example.org"]);
   ("from", Str "noreply@egg-events.com");
   ("subject", Str subject_accents);
   ("body", Str body_nbsp)].

End Scenario.

(* ================================================================== *)
(** * Properties *)
(* ================================================================== *)

(** ** Running the monad *)

Lemma status_is_true (e : Error) (n : Z) :
  status_is e n = true <-> statusCode e = Some n.
Proof.
  unfold status_is.
  destruct (statusCode e) as [s|]; split; intros H; try discriminate.
  - apply Z.eqb_eq in H. now subst.
  - injection H as ->. apply Z.eqb_refl.
Qed.

Lemma status_is_false (e : Error) (n : Z) :
  status_is e n = false <-> statusCode e <> Some n.
Proof.
  split; intros H.
  - intros K. apply status_is_true in K. congruence.
  - destruct (status_is e n) eqn:E; [|reflexivity].
    apply status_is_true in E. contradiction.
Qed.

Ltac msimpl := cbn [fst snd sent logs ticks draws].

Ltac run_monad :=
  unfold prop, nowISO, context_log, context_error;
  unfold try_catch, bind, ret, throw, lift, add_log, graph_send, newDate;
  msimpl.

(** ** The Graph client *)

Lemma graph_result_ok (w : World) (h : list Exchange) (req : Request) (v : Value) :
  graph_result w h req = inr v ->
  exists tok,
    graph_exchanges w h req = [(token_request, inr tok); (req, inr v)].
Proof.
  unfold graph_result, graph_exchanges, graph_outcome, token_request.
  destruct (remote w h (AcquireToken graph_scope)) as [e|tok]; [discriminate|].
  destruct (getProp tok "token") as [e|t]; [discriminate|].
  cbn [fst snd]. intros ->. now exists tok.
Qed.

Lemma graph_requests (w : World) (h : list Exchange) (req : Request) :
  requests (graph_exchanges w h req) = [token_request] \/
  requests (graph_exchanges w h req) = [token_request; req].
Proof.
  unfold graph_exchanges, graph_outcome, token_request.
  destruct (remote w h (AcquireToken graph_scope)) as [e|tok]; [now left|].
  destruct (getProp tok "token") as [e|t]; [now left | now right].
Qed.

Lemma graph_requests_ok (w : World) (h : list Exchange) (req : Request) (v : Value) :
  graph_result w h req = inr v ->
  requests (graph_exchanges w h req) = [token_request; req].
Proof.
  intros Hv. destruct (graph_result_ok _ _ _ _ Hv) as (tok & ->). reflexivity.
Qed.

(** An error whose status is not the client's own -1 is an answer of the
    service: the token was granted and the request went out. *)
Lemma graph_result_refused (w : World) (h : list Exchange) (req : Request)
  (e : Error) :
  graph_result w h req = inl e ->
  statusCode e <> Some (-1) ->
  exists tok,
    graph_exchanges w h req = [(token_request, inr tok); (req, inl e)].
Proof.
  unfold graph_result, graph_exchanges, graph_outcome, token_request.
  destruct (remote w h (AcquireToken graph_scope)) as [e0|tok].
  { cbn [fst snd]. intros [= <-] H. now contradiction H. }
  destruct (getProp tok "token") as [e0|t].
  { cbn [fst snd]. intros [= <-] H. now contradiction H. }
  cbn [fst snd]. intros -> _. now exists tok.
Qed.

Lemma requests_app (xs ys : list Exchange) :
  requests (xs ++ ys) = (requests xs ++ requests ys)%list.
Proof. apply map_app. Qed.

(** ** Idempotent removal *)

Section RemoveMember.

Variables (w : World) (st : St) (userId : Value).

Lemma removeUserFromGroup_run :
  let req := ManageLicense.remove_member_request userId in
  let run := ManageLicense.removeUserFromGroup userId w st in
  sent (fst run) = (sent st ++ graph_exchanges w (sent st) req)%list /\
  ticks (fst run) = ticks st /\
  snd run = match graph_result w (sent st) req with
            | inr _ => inr tt
            | inl e => if status_is e 404 then inr tt else inl e
            end.
Proof.
  intros req run. subst run.
  unfold ManageLicense.removeUserFromGroup. run_monad. fold req.
  destruct (graph_result w (sent st) req) as [e|v]; [|auto].
  destruct (status_is e 404); auto.
Qed.

Lemma activity_removeUserFromGroup_run :
  let req := HandleActivityResponse.remove_member_request userId in
  let run := HandleActivityResponse.removeUserFromGroup userId w st in
  sent (fst run) = (sent st ++ graph_exchanges w (sent st) req)%list /\
  ticks (fst run) = ticks st /\
  snd run = match graph_result w (sent st) req with
            | inr _ => inr tt
            | inl e => if status_is e 404 then inr tt else inl e
            end.
Proof.
  intros req run. subst run.
  unfold HandleActivityResponse.removeUserFromGroup. run_monad. fold req.
  destruct (graph_result w (sent st) req) as [e|v]; [|auto].
  destruct (status_is e 404); auto.
Qed.

End RemoveMember.

(** C7.  [removeUserFromGroup], in [manageLicense.ts] and in
    [handleActivityResponse.ts], sends the delete-relationship call, the
    DELETE of the user's reference among the members of the licence
    group, through the client and nothing else.  When the call succeeds
    the function returns normally; when it fails with an error whose
    [statusCode] is 404 the function returns normally as well, and that
    answer can only have come from the service, so the DELETE did go out;
    every other error is thrown on to the caller unchanged. *)
Theorem removeUserFromGroup_absorbs_not_found :
  forall (w : World) (st : St) (userId : Value),
    let req := membership_delete userId in
    let holds (run : St * Result unit) :=
      sent (fst run) = (sent st ++ graph_exchanges w (sent st) req)%list /\
      (forall v, graph_result w (sent st) req = inr v ->
         snd run = inr tt /\
         requests (sent (fst run))
         = (requests (sent st) ++ [token_request; req])%list) /\
      (forall e, graph_result w (sent st) req = inl e ->
         statusCode e = Some 404 ->
         snd run = inr tt /\
         requests (sent (fst run))
         = (requests (sent st) ++ [token_request; req])%list) /\
      (forall e, graph_result w (sent st) req = inl e ->
         statusCode e <> Some 404 -> snd run = inl e) in
    holds (ManageLicense.removeUserFromGroup userId w st) /\
    holds (HandleActivityResponse.removeUserFromGroup userId w st).
Proof.
  intros w st userId req holds.
  assert (Hgen : forall run : St * Result unit,
             sent (fst run) = (sent st ++ graph_exchanges w (sent st) req)%list ->
             snd run = match graph_result w (sent st) req with
                       | inr _ => inr tt
                       | inl e => if status_is e 404 then inr tt else inl e
                       end ->
             holds run).
  { intros run Hs Hr. unfold holds. split; [exact Hs|]. split; [|split].
    - intros v Hv. rewrite Hr, Hv. split; [reflexivity|].
      now rewrite Hs, requests_app, (graph_requests_ok _ _ _ _ Hv).
    - intros e He H404. rewrite Hr, He.
      destruct (graph_result_refused _ _ _ _ He) as (tok & Hx);
        [rewrite H404; discriminate|].
      apply status_is_true in H404. rewrite H404. split; [reflexivity|].
      now rewrite Hs, requests_app, Hx.
    - intros e He H404. apply status_is_false in H404.
      now rewrite Hr, He, H404. }
  split.
  - destruct (removeUserFromGroup_run w st userId) as (Hs & _ & Hr).
    apply Hgen; [exact Hs | exact Hr].
  - destruct (activity_removeUserFromGroup_run w st userId) as (Hs & _ & Hr).
    apply Hgen; [exact Hs | exact Hr].
Qed.

Lemma removeUserFromGroup_absorbs_not_found_witness :
  let w := Scenario.strict_world (inr Undefined) (inl Scenario.notFound) in
  let gone :=
    HttpDelete "/groups/1263971a-19e5-42d1-a25e-36d71ec76014/members/u-1/$ref" in
  let license := ManageLicense.removeUserFromGroup Scenario.u1 w St0 in
  let activity := HandleActivityResponse.removeUserFromGroup Scenario.u1 w St0 in
  (snd license = inr tt /\ requests (sent (fst license)) = [token_request; gone]) /\
  (snd activity = inr tt /\ requests (sent (fst activity)) = [token_request; gone]).
Proof.
  destruct (removeUserFromGroup_absorbs_not_found
              (Scenario.strict_world (inr Undefined) (inl Scenario.notFound))
              St0 Scenario.u1)
    as [(_ & _ & H1 & _) (_ & _ & H2 & _)].
  split.
  - exact (H1 Scenario.notFound eq_refl eq_refl).
  - exact (H2 Scenario.notFound eq_refl eq_refl).
Defined.

(** ** Idempotent addition *)

Section AddMember.

Variables (w : World) (st : St) (userId : Value).

Lemma addUserToGroup_run :
  let req := ManageLicense.add_member_request userId in
  let run := ManageLicense.addUserToGroup userId w st in
  sent (fst run) = (sent st ++ graph_exchanges w (sent st) req)%list /\
  ticks (fst run) = ticks st /\
  snd run = match graph_result w (sent st) req with
            | inr _ => inr tt
            | inl e => if ManageLicense.already_member e then inr tt else inl e
            end.
Proof.
  intros req run. subst run.
  unfold ManageLicense.addUserToGroup. run_monad. fold req.
  destruct (graph_result w (sent st) req) as [e|v]; [|auto].
  destruct (ManageLicense.already_member e); auto.
Qed.

Lemma v1_addUserToGroup_run :
  let chk := ManageLicenseV1.members_request userId in
  let req := ManageLicenseV1.add_member_request userId in
  let run := ManageLicenseV1.addUserToGroup userId w st in
  let absorb (e : Error) : Result unit :=
    if ManageLicenseV1.already_member e then inr tt else inl e in
  let h1 := (sent st ++ graph_exchanges w (sent st) chk)%list in
  ticks (fst run) = ticks st /\
  match graph_result w (sent st) chk with
  | inl e => sent (fst run) = h1 /\ snd run = absorb e
  | inr members =>
      match getProp members "value" with
      | inl e => sent (fst run) = h1 /\ snd run = absorb e
      | inr value =>
          if ManageLicenseV1.non_empty value
          then sent (fst run) = h1 /\ snd run = inr tt
          else sent (fst run) = (h1 ++ graph_exchanges w h1 req)%list /\
               snd run = match graph_result w h1 req with
                         | inr _ => inr tt
                         | inl e => absorb e
                         end
      end
  end.
Proof.
  intros chk req run absorb h1. subst run absorb h1.
  unfold ManageLicenseV1.addUserToGroup. run_monad. fold chk req.
  destruct (graph_result w (sent st) chk) as [e|members].
  - msimpl.
    destruct (ManageLicenseV1.already_member e); msimpl; auto.
  - destruct (getProp members "value") as [e|value]; msimpl.
    + destruct (ManageLicenseV1.already_member e); msimpl; auto.
    + destruct (ManageLicenseV1.non_empty value); msimpl; [auto|].
      destruct (graph_result w _ req) as [e|v]; msimpl; [|auto].
      destruct (ManageLicenseV1.already_member e); msimpl; auto.
Qed.

End AddMember.

(** C1 fails in [manageLicense.ts].  The add-member POST for user [u-1]
    is refused by the service with status 400, code [Request_BadRequest]
    and the message "Invalid object identifier 'u-1'.", which says nothing
    about an existing membership.  [addUserToGroup] has sent exactly the
    token request and that POST, and it returns normally after logging
    that the user is already a member, instead of throwing the error on
    as the comments of its own [catch] announce.  The sibling in the
    older [manageLicense/index.ts], run against the same service, sends
    the same POST after its membership query and throws the error on. *)
Theorem addUserToGroup_swallows_bad_request :
  let e := Scenario.badRequest in
  let w := Scenario.strict_world (inl e) (inr Undefined) in
  let query :=
    HttpGet "/groups/1263971a-19e5-42d1-a25e-36d71ec76014/members"
      (Some "id eq 'u-1'") None in
  let post :=
    HttpPost "/groups/1263971a-19e5-42d1-a25e-36d71ec76014/members/$ref"
      (Obj [("@odata.id",
             Str "https://graph.microsoft.com/v1.0/directoryObjects/u-1")]) in
  let run := ManageLicense.addUserToGroup Scenario.u1 w St0 in
  let older := ManageLicenseV1.addUserToGroup Scenario.u1 w St0 in
  (statusCode e = Some 400 /\
   code e = Some "Request_BadRequest" /\
   message e = Some "Invalid object identifier 'u-1'." /\
   message_includes e "already exist" = false /\
   message_includes e "already a member" = false) /\
  (sent (fst run) = [(token_request, inr Scenario.token); (post, inl e)] /\
   snd run = inr tt /\
   logs (fst run)
   = [LogInfo "🔄 Adding user to group (simplified method)";
      LogInfo "ℹ️ User is already a member of the group"]) /\
  (requests (sent (fst older)) = [token_request; query; token_request; post] /\
   snd older = inl e).
Proof.
  cbv zeta. repeat split.
Qed.

(** ** What the guards of [addUserToGroup] absorb *)

(** X22.  [addUserToGroup] sends the create-relationship call, the POST of
    the user's reference to the members of the licence group; in the
    older [manageLicense/index.ts] it does so only after a membership
    query that found nothing, and a query that finds the member ends the
    function at once.  In both variants a success returns normally, a
    failure with [statusCode] 400 whose message contains "already exist"
    (in [manageLicense.ts] also "already a member") returns normally,
    and a failure whose [statusCode] is not 400 is thrown on unchanged.
    In the older variant every failure outside its guard is thrown on,
    those of the membership query included. *)
Theorem addUserToGroup_absorbs_already_member :
  forall (w : World) (st : St) (userId : Value),
    (let req := membership_post userId in
     let run := ManageLicense.addUserToGroup userId w st in
     sent (fst run) = (sent st ++ graph_exchanges w (sent st) req)%list /\
     (forall v, graph_result w (sent st) req = inr v ->
        snd run = inr tt /\
        requests (sent (fst run))
        = (requests (sent st) ++ [token_request; req])%list) /\
     (forall e, graph_result w (sent st) req = inl e ->
        statusCode e = Some 400 ->
        message_includes e "already exist"
        || message_includes e "already a member" = true ->
        snd run = inr tt) /\
     (forall e, graph_result w (sent st) req = inl e ->
        statusCode e <> Some 400 -> snd run = inl e)) /\
    (let chk := membership_query userId in
     let req := membership_post userId in
     let run := ManageLicenseV1.addUserToGroup userId w st in
     let absorb (e : Error) : Result unit :=
       if status_is e 400 && message_includes e "already exist"
       then inr tt else inl e in
     let h1 := (sent st ++ graph_exchanges w (sent st) chk)%list in
     (forall e, graph_result w (sent st) chk = inl e ->
        sent (fst run) = h1 /\ snd run = absorb e) /\
     (forall members value,
        graph_result w (sent st) chk = inr members ->
        getProp members "value" = inr value ->
        ManageLicenseV1.non_empty value = true ->
        sent (fst run) = h1 /\ snd run = inr tt) /\
     (forall members value,
        graph_result w (sent st) chk = inr members ->
        getProp members "value" = inr value ->
        ManageLicenseV1.non_empty value = false ->
        sent (fst run) = (h1 ++ graph_exchanges w h1 req)%list /\
        (forall v, graph_result w h1 req = inr v ->
           snd run = inr tt /\
           requests (sent (fst run))
           = (requests h1 ++ [token_request; req])%list) /\
        (forall e, graph_result w h1 req = inl e -> snd run = absorb e))).
Proof.
  intros w st userId. split.
  - destruct (addUserToGroup_run w st userId) as (Hs & _ & Hr).
    cbv zeta in *. split; [exact Hs|]. split; [|split].
    + intros v Hv. rewrite Hr. split.
      * change (ManageLicense.add_member_request userId)
          with (membership_post userId). now rewrite Hv.
      * rewrite Hs. change (ManageLicense.add_member_request userId)
          with (membership_post userId).
        now rewrite requests_app, (graph_requests_ok _ _ _ _ Hv).
    + intros e He H400 Hmsg. rewrite Hr.
      change (ManageLicense.add_member_request userId)
        with (membership_post userId). rewrite He.
      unfold ManageLicense.already_member.
      apply status_is_true in H400. rewrite H400.
      apply orb_true_iff in Hmsg. destruct Hmsg as [-> | ->]; cbn;
        now rewrite ?orb_true_r.
    + intros e He H400. rewrite Hr.
      change (ManageLicense.add_member_request userId)
        with (membership_post userId). rewrite He.
      unfold ManageLicense.already_member.
      apply status_is_false in H400. now rewrite H400.
  - pose proof (v1_addUserToGroup_run w st userId) as (_ & H).
    cbv zeta in *.
    change (ManageLicenseV1.members_request userId)
      with (membership_query userId) in H.
    change (ManageLicenseV1.add_member_request userId)
      with (membership_post userId) in H.
    unfold ManageLicenseV1.already_member in H.
    split; [|split].
    + intros e He. now rewrite He in H.
    + intros members value Hm Hv Hne. now rewrite Hm, Hv, Hne in H.
    + intros members value Hm Hv Hne. rewrite Hm, Hv, Hne in H.
      destruct H as (Hs & Hr). split; [exact Hs|]. split.
      * intros v Hv'. rewrite Hr, Hv'. split; [reflexivity|].
        now rewrite Hs, requests_app, (graph_requests_ok _ _ _ _ Hv').
      * intros e He. now rewrite Hr, He.
Qed.

Lemma addUserToGroup_absorbs_already_member_witness :
  let w := Scenario.strict_world (inl Scenario.alreadyExists) (inr Undefined) in
  snd (ManageLicense.addUserToGroup Scenario.u1 w St0) = inr tt /\
  snd (ManageLicenseV1.addUserToGroup Scenario.u1 w St0) = inr tt.
Proof.
  destruct (addUserToGroup_absorbs_already_member
              (Scenario.strict_world (inl Scenario.alreadyExists) (inr Undefined))
              St0 Scenario.u1)
    as [(_ & _ & H2 & _) (_ & _ & H1)].
  split.
  - exact (H2 Scenario.alreadyExists eq_refl eq_refl eq_refl).
  - destruct (H1 (Obj [("value", Arr [])]) (Arr []) eq_refl eq_refl eq_refl)
      as (_ & _ & H).
    rewrite (H Scenario.alreadyExists eq_refl). reflexivity.
Defined.

Lemma invitations_app (xs ys : list Exchange) :
  invitations (xs ++ ys) = (invitations xs ++ invitations ys)%list.
Proof. unfold invitations, requests. now rewrite map_app, filter_app. Qed.

Lemma invitations_graph_other (w : World) (h : list Exchange) (req : Request) :
  is_invitation req = false -> invitations (graph_exchanges w h req) = [].
Proof.
  intros H. unfold invitations.
  destruct (graph_requests w h req) as [-> | ->]; cbn; now rewrite ?H.
Qed.

Lemma invitations_graph_ok (w : World) (h : list Exchange) (req : Request) (v : Value) :
  is_invitation req = true ->
  graph_result w h req = inr v ->
  invitations (graph_exchanges w h req) = [req].
Proof.
  intros H Hv. destruct (graph_result_ok _ _ _ _ Hv) as (tok & ->).
  unfold invitations. cbn. now rewrite H.
Qed.

(** ** User resolution in [manageLicense.ts] *)

Section Resolve.

Variables (w : World) (st : St).

Lemma option1_run (entraObjectId : Value) :
  let req := point_lookup entraObjectId in
  let run := ManageLicense.findOrCreateUser_option1 entraObjectId w st in
  ticks (fst run) = ticks st /\
  if truthy entraObjectId then
    sent (fst run) = (sent st ++ graph_exchanges w (sent st) req)%list /\
    snd run = match graph_result w (sent st) req with
              | inr user => if nullish user then inr None else inr (Some user)
              | inl _ => inr None
              end
  else sent (fst run) = sent st /\ snd run = inr None.
Proof.
  intros req run. subst run. unfold ManageLicense.findOrCreateUser_option1.
  destruct (truthy entraObjectId); [|cbn; auto].
  run_monad. fold (point_lookup entraObjectId). fold req.
  destruct (graph_result w (sent st) req) as [e|user]; msimpl; [auto|].
  destruct user; cbn; auto.
Qed.

Lemma option2_run (entraUPN : Value) :
  let req := point_lookup entraUPN in
  let run := ManageLicense.findOrCreateUser_option2 entraUPN w st in
  ticks (fst run) = ticks st /\
  if truthy entraUPN then
    sent (fst run) = (sent st ++ graph_exchanges w (sent st) req)%list /\
    snd run = match graph_result w (sent st) req with
              | inr user => if nullish user then inr None else inr (Some user)
              | inl _ => inr None
              end
  else sent (fst run) = sent st /\ snd run = inr None.
Proof.
  intros req run. subst run. unfold ManageLicense.findOrCreateUser_option2.
  destruct (truthy entraUPN); [|cbn; auto].
  run_monad. fold (point_lookup entraUPN). fold req.
  destruct (graph_result w (sent st) req) as [e|user]; msimpl; [auto|].
  destruct user; cbn; auto.
Qed.

End Resolve.

(** C4.  When the [entraObjectId] hint is present and the point lookup
    [GET /users/{entraObjectId}] returns a user record, [findOrCreateUser]
    returns that record, and the only exchanges it adds to the trace are
    the token request and that GET: no lookup by principal name, no
    filtered search, no invitation. *)
Theorem findOrCreateUser_objectId_short_circuit :
  forall (w : World) (st : St)
         (entraObjectId entraUPN email firstName lastName user : Value),
    truthy entraObjectId = true ->
    graph_result w (sent st) (point_lookup entraObjectId) = inr user ->
    nullish user = false ->
    let run := ManageLicense.findOrCreateUser
                 entraObjectId entraUPN email firstName lastName w st in
    snd run = inr user /\
    exists tok,
      sent (fst run) =
      (sent st ++ [(token_request, inr tok);
                   (point_lookup entraObjectId, inr user)])%list.
Proof.
  intros w st oid upn email fn ln user Hoid Hget Huser run. subst run.
  destruct (option1_run w st oid) as (_ & H1).
  rewrite Hoid, Hget, Huser in H1. destruct H1 as (Hs & Hr).
  destruct (graph_result_ok _ _ _ _ Hget) as (tok & Hx). rewrite Hx in Hs.
  unfold ManageLicense.findOrCreateUser, try_catch, bind.
  destruct (ManageLicense.findOrCreateUser_option1 oid w st) as [st1 r1].
  cbn [fst snd] in Hs, Hr. subst r1. cbn. split; [reflexivity|].
  exists tok. exact Hs.
Qed.

Lemma findOrCreateUser_objectId_short_circuit_witness :
  snd (ManageLicense.findOrCreateUser (Str "u-1") (Str "alice.talent@egg-events.com")
         (Str "alice@example.org") (Str "Alice") (Str "Martin")
         Scenario.directory_world St0)
  = inr Scenario.alice.
Proof.
  apply (findOrCreateUser_objectId_short_circuit
           Scenario.directory_world St0 (Str "u-1")
           (Str "alice.talent@egg-events.com") (Str "alice@example.org")
           (Str "Alice") (Str "Martin") Scenario.alice);
    reflexivity.
Defined.

Section Invite.

Variables (w : World) (st : St) (email firstName lastName : Value).

Lemma option34_invites (users value invitation invitedUser id address : Value) :
  let search := ManageLicense.search_request email in
  let invite := ManageLicense.invitation_request email firstName lastName in
  let h := (sent st ++ graph_exchanges w (sent st) search)%list in
  let run := ManageLicense.findOrCreateUser_option34 email firstName lastName w st in
  graph_result w (sent st) search = inr users ->
  getProp users "value" = inr value ->
  ManageLicense.has_match value = false ->
  graph_result w h invite = inr invitation ->
  getProp invitation "invitedUser" = inr invitedUser ->
  getProp invitedUser "id" = inr id ->
  getProp invitation "invitedUserEmailAddress" = inr address ->
  snd run = inr (Obj [("id", id);
                      ("userPrincipalName", address);
                      ("mail", email);
                      ("displayName",
                         Str (toStr firstName ++ " " ++ toStr lastName))]) /\
  sent (fst run) = (h ++ graph_exchanges w h invite)%list.
Proof.
  intros search invite h run Hs Hv Hm Hi Hu Hid Ha. subst run h.
  unfold ManageLicense.findOrCreateUser_option34. run_monad.
  fold search. rewrite Hs. msimpl. rewrite Hv. msimpl. rewrite Hm. msimpl.
  fold invite. rewrite Hi. msimpl. rewrite Hu. msimpl. rewrite Hid. msimpl.
  rewrite Ha. msimpl. split; reflexivity.
Qed.

Lemma v1_findOrCreateUser_invites
  (users value invitation invitedUser id address : Value) :
  let search := ManageLicenseV1.search_request email in
  let invite := ManageLicenseV1.invitation_request email firstName lastName in
  let h := (sent st ++ graph_exchanges w (sent st) search)%list in
  let run := ManageLicenseV1.findOrCreateUser email firstName lastName w st in
  graph_result w (sent st) search = inr users ->
  getProp users "value" = inr value ->
  ManageLicenseV1.non_empty value = false ->
  graph_result w h invite = inr invitation ->
  getProp invitation "invitedUser" = inr invitedUser ->
  getProp invitedUser "id" = inr id ->
  getProp invitation "invitedUserEmailAddress" = inr address ->
  snd run = inr (Obj [("id", id);
                      ("userPrincipalName", address);
                      ("mail", email);
                      ("displayName",
                         Str (toStr firstName ++ " " ++ toStr lastName))]) /\
  sent (fst run) = (h ++ graph_exchanges w h invite)%list.
Proof.
  intros search invite h run Hs Hv Hm Hi Hu Hid Ha. subst run h.
  unfold ManageLicenseV1.findOrCreateUser. run_monad.
  fold search. rewrite Hs. msimpl. rewrite Hv. msimpl. rewrite Hm. msimpl.
  fold invite. rewrite Hi. msimpl. rewrite Hu. msimpl. rewrite Hid. msimpl.
  rewrite Ha. msimpl. split; reflexivity.
Qed.

End Invite.

Lemma option1_invitations (w : World) (st : St) (entraObjectId : Value) :
  invitations (sent (fst (ManageLicense.findOrCreateUser_option1 entraObjectId w st)))
  = invitations (sent st).
Proof.
  destruct (option1_run w st entraObjectId) as (_ & H).
  destruct (truthy entraObjectId); destruct H as (-> & _); [|reflexivity].
  rewrite invitations_app, invitations_graph_other, app_nil_r; reflexivity.
Qed.

Lemma option2_invitations (w : World) (st : St) (entraUPN : Value) :
  invitations (sent (fst (ManageLicense.findOrCreateUser_option2 entraUPN w st)))
  = invitations (sent st).
Proof.
  destruct (option2_run w st entraUPN) as (_ & H).
  destruct (truthy entraUPN); destruct H as (-> & _); [|reflexivity].
  rewrite invitations_app, invitations_graph_other, app_nil_r; reflexivity.
Qed.

(** C5, as the code has it.  When OPTION 1 and OPTION 2 return without a
    user, the filtered search answers with no match, and the invitation
    call answers with an invitation whose [invitedUser] has an [id],
    [findOrCreateUser] adds exactly one invitation-creation call to the
    trace and returns the record
    [{ id: invitation.invitedUser.id,
       userPrincipalName: invitation.invitedUserEmailAddress,
       mail: email,
       displayName: firstName + " " + lastName }]:
    the principal name is the address the invitation response carries and
    the display name joins the two names with a space.  The older
    [manageLicense/index.ts] does the same after its search. *)
Theorem findOrCreateUser_invites_guest :
  forall (w : World) (st : St) (email firstName lastName : Value)
         (users value invitation invitedUser id address : Value),
    getProp users "value" = inr value ->
    getProp invitation "invitedUser" = inr invitedUser ->
    getProp invitedUser "id" = inr id ->
    getProp invitation "invitedUserEmailAddress" = inr address ->
    let record :=
      Obj [("id", id);
           ("userPrincipalName", address);
           ("mail", email);
           ("displayName", Str (toStr firstName ++ " " ++ toStr lastName))] in
    (forall entraObjectId entraUPN,
       let o1 := ManageLicense.findOrCreateUser_option1 entraObjectId w st in
       let o2 := ManageLicense.findOrCreateUser_option2 entraUPN w (fst o1) in
       let search := ManageLicense.search_request email in
       let invite := ManageLicense.invitation_request email firstName lastName in
       let h := (sent (fst o2) ++ graph_exchanges w (sent (fst o2)) search)%list in
       let run := ManageLicense.findOrCreateUser
                    entraObjectId entraUPN email firstName lastName w st in
       snd o1 = inr None ->
       snd o2 = inr None ->
       graph_result w (sent (fst o2)) search = inr users ->
       ManageLicense.has_match value = false ->
       graph_result w h invite = inr invitation ->
       snd run = inr record /\
       invitations (sent (fst run)) = (invitations (sent st) ++ [invite])%list) /\
    (let search := ManageLicenseV1.search_request email in
     let invite := ManageLicenseV1.invitation_request email firstName lastName in
     let h := (sent st ++ graph_exchanges w (sent st) search)%list in
     let run := ManageLicenseV1.findOrCreateUser email firstName lastName w st in
     graph_result w (sent st) search = inr users ->
     ManageLicenseV1.non_empty value = false ->
     graph_result w h invite = inr invitation ->
     snd run = inr record /\
     invitations (sent (fst run)) = (invitations (sent st) ++ [invite])%list).
Proof.
  intros w st email fn ln users value inv iu id addr Hv Hu Hid Ha record.
  split.
  - intros oid upn o1 o2 search invite h run H1 H2 Hs Hm Hi.
    destruct (option34_invites w (fst o2) email fn ln users value inv iu id addr
                Hs Hv Hm Hi Hu Hid Ha) as (Hr & Hsent).
    pose proof (option1_invitations w st oid) as I1.
    pose proof (option2_invitations w (fst o1) upn) as I2.
    fold o1 in I1. fold o2 in I2.
    subst run. unfold ManageLicense.findOrCreateUser, try_catch, bind.
    fold o1. destruct o1 as [s1 r1]. cbn [fst snd] in *. subst r1.
    fold o2. destruct o2 as [s2 r2]. cbn [fst snd] in *. subst r2.
    destruct (ManageLicense.findOrCreateUser_option34 email fn ln w s2)
      as [s3 r3]. cbn [fst snd] in *. subst r3.
    split; [reflexivity|]. subst h. cbn [fst]. fold search invite in Hsent.
    rewrite Hsent, !invitations_app, I2, I1.
    rewrite invitations_graph_other by reflexivity.
    rewrite (invitations_graph_ok _ _ _ inv) by (reflexivity || exact Hi).
    now rewrite app_nil_r.
  - intros search invite h run Hs Hm Hi.
    destruct (v1_findOrCreateUser_invites w st email fn ln users value inv iu id addr
                Hs Hv Hm Hi Hu Hid Ha) as (Hr & Hsent).
    fold run in Hr, Hsent. split; [exact Hr|].
    rewrite Hsent, !invitations_app.
    rewrite invitations_graph_other by reflexivity.
    rewrite (invitations_graph_ok _ _ _ inv) by (reflexivity || exact Hi).
    now rewrite app_nil_r.
Qed.

Lemma findOrCreateUser_invites_guest_witness :
  let record :=
    Obj [("id", Str "u-2");
         ("userPrincipalName", Str "a@b.com");
         ("mail", Str "A@B.com");
         ("displayName", Str "A B")] in
  snd (ManageLicense.findOrCreateUser (Str "u-9") Undefined
         (Str "A@B.com") (Str "A") (Str "B") Scenario.empty_directory St0)
  = inr record /\
  snd (ManageLicenseV1.findOrCreateUser
         (Str "A@B.com") (Str "A") (Str "B") Scenario.empty_directory St0)
  = inr record.
Proof.
  cbv zeta.
  destruct (findOrCreateUser_invites_guest
              Scenario.empty_directory St0 (Str "A@B.com") (Str "A") (Str "B")
              (Obj [("value", Arr [])]) (Arr []) Scenario.invitation_reply
              (Obj [("id", Str "u-2")]) (Str "u-2") (Str "a@b.com")
              eq_refl eq_refl eq_refl eq_refl) as [H2 H1].
  split.
  - apply (H2 (Str "u-9") Undefined eq_refl eq_refl eq_refl eq_refl eq_refl).
  - apply (H1 eq_refl eq_refl eq_refl).
Defined.

(** C5 as stated fails: with nobody in the directory, one invitation is
    created, but the returned record takes its principal name from the
    invitation response, here not the input email, and its display name
    is not the two names put end to end. *)
Lemma findOrCreateUser_guest_record_differs :
  let email := Str "A@B.com" in
  let run := ManageLicense.findOrCreateUser Undefined Undefined
               email (Str "A") (Str "B") Scenario.empty_directory St0 in
  exists record,
    snd run = inr record /\
    invitations (sent (fst run))
    = [ManageLicense.invitation_request email (Str "A") (Str "B")] /\
    getProp record "userPrincipalName" <> inr email /\
    getProp record "displayName" <> inr (Str ("A" ++ "B")).
Proof.
  cbv zeta. eexists. split; [reflexivity|].
  split; [reflexivity|]. split; discriminate.
Qed.

(** ** Validation comes before any remote call *)

Section Validation.

Variables (w : World) (st : St) (fields : list (string * Value)).

Let field (k : string) : Value := lookup k fields.

Lemma manageLicense_rejects :
  negb (truthy (field "userEmail")) || negb (truthy (field "firstName"))
  || negb (truthy (field "lastName")) || is_undefined (field "isActive") = true ->
  rejected (ManageLicense.manageLicense (mkRequest (inr (Obj fields))) w st) st.
Proof.
  unfold field. intros H.
  unfold ManageLicense.manageLicense, ManageLicense.manageLicense_try.
  run_monad. cbn [json getProp]. rewrite H. msimpl.
  eexists _, _. repeat split; reflexivity.
Qed.

Lemma v1_httpTrigger_rejects :
  negb (truthy (field "userEmail")) || negb (truthy (field "firstName"))
  || negb (truthy (field "lastName")) || is_undefined (field "isActive") = true ->
  rejected (ManageLicenseV1.httpTrigger (Obj fields) w st) st.
Proof.
  unfold field. intros H.
  unfold ManageLicenseV1.httpTrigger, ManageLicenseV1.httpTrigger_try.
  cbn [truthy negb]. run_monad. cbn [getProp]. rewrite H. msimpl.
  eexists _, _. repeat split; reflexivity.
Qed.

Lemma handleActivityResponse_rejects :
  negb (truthy (field "response")) || negb (truthy (field "supplierEmail"))
  || negb (truthy (field "entraObjectId"))
  || negb (truthy (field "sharePointItemId")) = true ->
  rejected (HandleActivityResponse.handleActivityResponse
              (mkRequest (inr (Obj fields))) w st) st.
Proof.
  unfold field. intros H.
  unfold HandleActivityResponse.handleActivityResponse,
    HandleActivityResponse.handleActivityResponse_try.
  run_monad. cbn [json getProp]. rewrite H. msimpl.
  eexists _, _. repeat split; reflexivity.
Qed.

Lemma resetFreelancerPassword_rejects :
  negb (truthy (field "userPrincipalName")) && negb (truthy (field "userId"))
  || negb (truthy (field "firstName")) || negb (truthy (field "lastName"))
  || negb (truthy (field "personalEmail")) = true ->
  rejected (ResetFreelancerPassword.resetFreelancerPassword
              (mkRequest (inr (Obj fields))) w st) st.
Proof.
  unfold field. intros H.
  unfold ResetFreelancerPassword.resetFreelancerPassword,
    ResetFreelancerPassword.resetFreelancerPassword_try.
  run_monad. cbn [json getProp]. rewrite H. msimpl.
  eexists _, _. repeat split; reflexivity.
Qed.

Lemma sendEmail_httpTrigger_rejects :
  negb (truthy (field "recipients"))
  || is_zero (SendEmail.length_of (field "recipients"))
  || negb (truthy (field "subject")) || negb (truthy (field "body"))
  || negb (truthy (field "from")) = true ->
  rejected (SendEmail.httpTrigger (Obj fields) w st) st.
Proof.
  unfold field. intros H.
  unfold SendEmail.httpTrigger, SendEmail.httpTrigger_try.
  cbn [truthy negb]. run_monad. cbn [getProp]. rewrite H. msimpl.
  eexists _, _. repeat split; reflexivity.
Qed.

End Validation.

Lemma body_required_rejected (w : World) (st : St) (body : Value) :
  truthy body = false ->
  rejected (SendEmail.httpTrigger body w st) st /\
  rejected (ManageLicenseV1.httpTrigger body w st) st.
Proof.
  intros H. split.
  - unfold SendEmail.httpTrigger, SendEmail.httpTrigger_try. rewrite H.
    run_monad. eexists _, _. repeat split; reflexivity.
  - unfold ManageLicenseV1.httpTrigger, ManageLicenseV1.httpTrigger_try. rewrite H.
    run_monad. eexists _, _. repeat split; reflexivity.
Qed.

Ltac missing_field H :=
  cbn [In]; intros K;
  repeat (destruct K as [<- | K]; [rewrite H; cbn; now rewrite ?orb_true_r|]);
  contradiction.

(** C6, amended.  A payload that is a JSON object and lacks one of the
    fields its handler tests ([userEmail], [firstName], [lastName] or
    [isActive] for both license handlers; [response], [supplierEmail],
    [entraObjectId] or [sharePointItemId] for the activity webhook;
    [firstName], [lastName], [personalEmail], or both [userPrincipalName]
    and [userId], for the password reset; [recipients], [from],
    [subject] or [body] for send-mail) is answered with status 400 and a
    body carrying [success: false] and an [error] text, and the trace of
    remote exchanges (token requests and Graph requests alike) is left
    as it was.  The send-mail function and the older license handler
    answer an absent body the same way. *)
Theorem validation_precedes_remote_calls :
  forall (w : World) (st : St) (fields : list (string * Value)) (k : string),
    lookup k fields = Undefined ->
    (In k ["userEmail"; "firstName"; "lastName"; "isActive"] ->
     rejected (ManageLicense.manageLicense (mkRequest (inr (Obj fields))) w st) st) /\
    (In k ["response"; "supplierEmail"; "entraObjectId"; "sharePointItemId"] ->
     rejected (HandleActivityResponse.handleActivityResponse
                 (mkRequest (inr (Obj fields))) w st) st) /\
    (In k ["firstName"; "lastName"; "personalEmail"] ->
     rejected (ResetFreelancerPassword.resetFreelancerPassword
                 (mkRequest (inr (Obj fields))) w st) st) /\
    (k = "userPrincipalName" -> lookup "userId" fields = Undefined ->
     rejected (ResetFreelancerPassword.resetFreelancerPassword
                 (mkRequest (inr (Obj fields))) w st) st) /\
    (In k ["recipients"; "from"; "subject"; "body"] ->
     rejected (SendEmail.httpTrigger (Obj fields) w st) st) /\
    (In k ["userEmail"; "firstName"; "lastName"; "isActive"] ->
     rejected (ManageLicenseV1.httpTrigger (Obj fields) w st) st) /\
    (forall body, truthy body = false ->
       rejected (SendEmail.httpTrigger body w st) st /\
       rejected (ManageLicenseV1.httpTrigger body w st) st).
Proof.
  intros w st fields k H. repeat split.
  - intros K. apply manageLicense_rejects. revert K. missing_field H.
  - intros K. apply handleActivityResponse_rejects. revert K. missing_field H.
  - intros K. apply resetFreelancerPassword_rejects. revert K. missing_field H.
  - intros -> H'. apply resetFreelancerPassword_rejects. now rewrite H, H'.
  - intros K. apply sendEmail_httpTrigger_rejects. revert K. missing_field H.
  - intros K. apply v1_httpTrigger_rejects. revert K. missing_field H.
  - now apply body_required_rejected.
  - now apply body_required_rejected.
Qed.

Lemma validation_precedes_remote_calls_witness :
  rejected (ManageLicense.manageLicense
              (mkRequest (inr (Obj Scenario.license_without_lastName)))
              Scenario.directory_world St0) St0 /\
  rejected (HandleActivityResponse.handleActivityResponse
              (mkRequest (inr (Obj Scenario.activity_without_item)))
              Scenario.directory_world St0) St0 /\
  rejected (ResetFreelancerPassword.resetFreelancerPassword
              (mkRequest (inr (Obj Scenario.license_without_lastName)))
              Scenario.directory_world St0) St0 /\
  rejected (SendEmail.httpTrigger (Obj Scenario.license_without_lastName)
              Scenario.directory_world St0) St0 /\
  rejected (ManageLicenseV1.httpTrigger (Obj Scenario.license_without_lastName)
              Scenario.directory_world St0) St0.
Proof.
  pose proof (validation_precedes_remote_calls Scenario.directory_world St0
                Scenario.license_without_lastName "lastName" eq_refl)
    as (Hlicense & _ & Hreset & _ & _ & Hv1 & _).
  pose proof (validation_precedes_remote_calls Scenario.directory_world St0
                Scenario.activity_without_item "sharePointItemId" eq_refl)
    as (_ & Hactivity & _).
  pose proof (validation_precedes_remote_calls Scenario.directory_world St0
                Scenario.license_without_lastName "subject" eq_refl)
    as (_ & _ & _ & _ & Hmail & _).
  repeat split.
  - apply Hlicense. cbn. tauto.
  - apply Hactivity. cbn. tauto.
  - apply Hreset. cbn. tauto.
  - apply Hmail. cbn. tauto.
  - apply Hv1. cbn. tauto.
Defined.

Lemma not_rejected (run : St * Result HttpResponse) (st : St) (r : HttpResponse) :
  snd run = inr r -> status r <> 400 -> ~ rejected run st.
Proof.
  intros Hr Hs (r' & m & Hr' & Hs' & _).
  rewrite Hr in Hr'. injection Hr' as <-. contradiction.
Qed.

(** C6 as stated fails for fields the handler does not test and for
    bodies that are not objects.  An activity answer without [firstName]
    and [supplierName], both declared without a question mark in the
    payload's interface, passes the validation: the handler looks up the
    site, patches the record, sends the confirmation mail and answers
    200.  A body that parses to [null] is answered 500, not 400. *)
Lemma handleActivityResponse_accepts_without_names :
  let fields := Scenario.activity_without_names in
  let w := Scenario.strict_world (inr Undefined) (inr Undefined) in
  let run := HandleActivityResponse.handleActivityResponse
               (mkRequest (inr (Obj fields))) w St0 in
  let null := ManageLicense.manageLicense (mkRequest (inr Null)) w St0 in
  (lookup "firstName" fields = Undefined /\
   lookup "supplierName" fields = Undefined) /\
  (exists r,
     snd run = inr r /\
     status r = 200 /\
     map is_http (requests (sent (fst run)))
     = [false; true; false; true; false; true] /\
     List.length (sent_of is_patch (sent (fst run))) = 1%nat /\
     List.length (mails (sent (fst run))) = 1%nat /\
     ~ rejected run St0) /\
  (exists r,
     snd null = inr r /\
     status r = 500 /\
     ~ rejected null St0).
Proof.
  cbv zeta. split; [split; reflexivity|]. split.
  - eexists. split; [vm_compute; reflexivity|].
    split; [reflexivity|].
    split; [vm_compute; reflexivity|].
    split; [vm_compute; reflexivity|].
    split; [vm_compute; reflexivity|].
    eapply not_rejected; [vm_compute; reflexivity | discriminate].
  - eexists. split; [vm_compute; reflexivity|].
    split; [reflexivity|].
    eapply not_rejected; [vm_compute; reflexivity | discriminate].
Qed.

(** ** The response formatters *)

Lemma error_status_table (e : Error) :
  fst (ManageLicense.error_status e) = spec_status_table (statusCode e) /\
  fst (SendEmail.error_status e) = spec_status_table (statusCode e).
Proof.
  unfold ManageLicense.error_status, SendEmail.error_status, spec_status_table,
    status_is.
  destruct (statusCode e) as [s|]; [|split; reflexivity].
  destruct (s =? 401)%Z; [split; reflexivity|].
  destruct (s =? 403)%Z; [split; reflexivity|].
  destruct (s =? 404)%Z; [split; reflexivity|].
  destruct (s =? 429)%Z; split; reflexivity.
Qed.

Lemma v1_error_status_table (e : Error) :
  statusCode e <> Some 429 ->
  fst (ManageLicenseV1.error_status e) = spec_status_table (statusCode e).
Proof.
  unfold ManageLicenseV1.error_status, spec_status_table, status_is.
  destruct (statusCode e) as [s|]; [|reflexivity]. intros H.
  destruct (s =? 401)%Z; [reflexivity|].
  destruct (s =? 403)%Z; [reflexivity|].
  destruct (s =? 404)%Z; [reflexivity|].
  destruct (s =? 429)%Z eqn:E; [|reflexivity].
  apply Z.eqb_eq in E. congruence.
Qed.

Section Formatters.

Variables (w : World) (st : St) (e : Error).

Lemma manageLicense_catch_run :
  exists st' text,
    ManageLicense.manageLicense_catch e w st
    = (st', inr (mkResponse (fst (ManageLicense.error_status e))
                   (Obj [("success", Bool false);
                         ("error", Str (snd (ManageLicense.error_status e)));
                         ("details", Str (message_or e "Unknown error occurred"));
                         ("timestamp", Str text)]))).
Proof.
  unfold ManageLicense.manageLicense_catch.
  destruct (ManageLicense.error_status e) as [c m]. run_monad. eauto.
Qed.

Lemma sendEmail_catch_run :
  exists st' text,
    SendEmail.httpTrigger_catch e w st
    = (st', inr (mkResponse (fst (SendEmail.error_status e))
                   (Obj [("success", Bool false);
                         ("error", Str (snd (SendEmail.error_status e)));
                         ("details", Str (message_or e "Unknown error occurred"));
                         ("timestamp", Str text)]))).
Proof.
  unfold SendEmail.httpTrigger_catch.
  destruct (SendEmail.error_status e) as [c m]. run_monad. eauto.
Qed.

Lemma v1_catch_run :
  exists st' text,
    ManageLicenseV1.httpTrigger_catch e w st
    = (st', inr (mkResponse (fst (ManageLicenseV1.error_status e))
                   (Obj [("success", Bool false);
                         ("error", Str (snd (ManageLicenseV1.error_status e)));
                         ("details", Str (message_or e "Unknown error occurred"));
                         ("timestamp", Str text)]))).
Proof.
  unfold ManageLicenseV1.httpTrigger_catch.
  destruct (ManageLicenseV1.error_status e) as [c m]. run_monad. eauto.
Qed.

Lemma reset_catch_run :
  exists st' text,
    ResetFreelancerPassword.resetFreelancerPassword_catch e w st
    = (st', inr (mkResponse (fst (ResetFreelancerPassword.error_status e))
                   (Obj [("success", Bool false);
                         ("error", Str (snd (ResetFreelancerPassword.error_status e)));
                         ("details", Str (message_or e "Unknown error"));
                         ("timestamp", Str text)]))).
Proof.
  unfold ResetFreelancerPassword.resetFreelancerPassword_catch.
  destruct (ResetFreelancerPassword.error_status e) as [c m]. run_monad. eauto.
Qed.

End Formatters.

Ltac formatter_case run :=
  destruct run as (st' & text & ->);
  exists st'; eexists; split; [reflexivity|]; cbn [status jsonBody].

(** C3, as the code has it.  The [catch] of [manageLicense] in
    [manageLicense.ts] and of the send-mail function map the caught
    error's [statusCode] by the table (401, 403, 404 and 429 to
    themselves, anything else or nothing to 500) and answer with a body
    of [success: false], [error], [details] and [timestamp].  The older
    [manageLicense/index.ts] does so for every status other than 429.
    [resetFreelancerPassword] looks at the error's [code] first
    ([Request_ResourceNotFound] gives 404, [InvalidAuthenticationToken]
    gives 401) and maps by [statusCode] only 401, 403 and 429.
    [handleActivityResponse] answers every caught error with 500 and a
    body of [success: false], [error] and [details], without a
    timestamp. *)
Theorem error_responses_by_handler :
  forall (w : World) (st : St) (e : Error),
    (exists st' r,
       ManageLicense.manageLicense_catch e w st = (st', inr r) /\
       status r = spec_status_table (statusCode e) /\ error_body r) /\
    (exists st' r,
       SendEmail.httpTrigger_catch e w st = (st', inr r) /\
       status r = spec_status_table (statusCode e) /\ error_body r) /\
    (statusCode e <> Some 429 ->
     exists st' r,
       ManageLicenseV1.httpTrigger_catch e w st = (st', inr r) /\
       status r = spec_status_table (statusCode e) /\ error_body r) /\
    (exists st' r,
       ResetFreelancerPassword.resetFreelancerPassword_catch e w st = (st', inr r) /\
       status r =
         (if code_is e "Request_ResourceNotFound" then 404
          else if status_is e 401 || code_is e "InvalidAuthenticationToken" then 401
          else if status_is e 403 then 403
          else if status_is e 429 then 429
          else 500) /\
       error_body r) /\
    (exists st' r,
       HandleActivityResponse.handleActivityResponse_catch e w st = (st', inr r) /\
       status r = 500 /\
       getProp (jsonBody r) "success" = inr (Bool false) /\
       (exists text, getProp (jsonBody r) "error" = inr (Str text)) /\
       (exists text, getProp (jsonBody r) "details" = inr (Str text)) /\
       getProp (jsonBody r) "timestamp" = inr Undefined).
Proof.
  intros w st e. unfold error_body. repeat apply conj.
  - formatter_case (manageLicense_catch_run w st e).
    split; [apply error_status_table|]. cbn. eauto 10.
  - formatter_case (sendEmail_catch_run w st e).
    split; [apply error_status_table|]. cbn. eauto 10.
  - intros H. formatter_case (v1_catch_run w st e).
    split; [now apply v1_error_status_table|]. cbn. eauto 10.
  - formatter_case (reset_catch_run w st e).
    split; [|cbn; eauto 10].
    unfold ResetFreelancerPassword.error_status.
    destruct (code_is e "Request_ResourceNotFound"); [reflexivity|].
    destruct (status_is e 401 || code_is e "InvalidAuthenticationToken");
      [reflexivity|].
    destruct (status_is e 403); [reflexivity|].
    destruct (status_is e 429); reflexivity.
  - unfold HandleActivityResponse.handleActivityResponse_catch. run_monad.
    eexists _, _. split; [reflexivity|]. cbn. eauto 10.
Qed.

Lemma error_responses_by_handler_witness :
  exists st' r,
    ManageLicenseV1.httpTrigger_catch Scenario.notFound
      Scenario.directory_world St0 = (st', inr r) /\
    status r = 404 /\ error_body r.
Proof.
  destruct (error_responses_by_handler
              Scenario.directory_world St0 Scenario.notFound)
    as (_ & _ & H & _).
  apply H. discriminate.
Defined.

(** C3 as stated fails for [handleActivityResponse]: the token is granted
    and the service refuses the site lookup with status 401; that error
    is the one the handler's [catch] receives, and the answer is 500 with
    no timestamp in the body. *)
Lemma handleActivityResponse_answers_500_on_401 :
  let w := Scenario.refusing_world Scenario.unauthorized in
  let st := mkSt [] [LogInfo "üì• Activity response webhook received"] 0 0 in
  statusCode Scenario.unauthorized = Some 401 /\
  snd (HandleActivityResponse.handleActivityResponse_try Scenario.activity_yes w st)
  = inl Scenario.unauthorized /\
  sent (fst (HandleActivityResponse.handleActivityResponse
               Scenario.activity_yes w St0))
  = [(token_request, inr Scenario.token);
     (site_lookup, inl Scenario.unauthorized)] /\
  exists r,
    snd (HandleActivityResponse.handleActivityResponse Scenario.activity_yes w St0)
    = inr r /\
    status r = 500 /\
    status r <> spec_status_table (statusCode Scenario.unauthorized) /\
    getProp (jsonBody r) "timestamp" = inr Undefined.
Proof.
  cbv zeta. split; [reflexivity|]. split; [reflexivity|].
  split; [reflexivity|].
  eexists. split; [reflexivity|]. repeat split. discriminate.
Qed.

(** ** The sanitizer *)

(** C8.  [sanitizeHtml] on the three example bodies: the script block is
    removed and [Hello] is left; the [javascript:] scheme is taken out of
    the [href] and the anchor stays; the image with a [data:] source is
    returned as it came. *)
Theorem sanitizeHtml_examples :
  SendEmail.sanitizeHtml (Str "<script>alert(1)</script>Hello") = inr "Hello" /\
  SendEmail.sanitizeHtml
    (Str ("<a href=" ++ dq ++ "javascript:evil()" ++ dq ++ ">x</a>"))
  = inr ("<a href=" ++ dq ++ "evil()" ++ dq ++ ">x</a>") /\
  SendEmail.sanitizeHtml
    (Str ("<img src=" ++ dq ++ "data:image/png;base64,AAA" ++ dq ++ ">"))
  = inr ("<img src=" ++ dq ++ "data:image/png;base64,AAA" ++ dq ++ ">").
Proof. repeat split; vm_compute; reflexivity. Qed.

(** ** Password generation *)

Lemma get_in_chars (s : string) (i : nat) :
  (i < String.length s)%nat ->
  exists c, String.get i s = Some c /\ In c (chars s).
Proof.
  revert i. induction s as [|a s IH]; intros i Hi; cbn in Hi; [lia|].
  destruct i as [|i].
  - exists a. cbn. auto.
  - destruct (IH i) as (c & Hc & Hin); [lia|].
    exists c. cbn. auto.
Qed.


Lemma chars_length (s : string) : List.length (chars s) = String.length s.
Proof.
  unfold chars. induction s as [|a s IH]; cbn; [reflexivity | now rewrite IH].
Qed.

Lemma append_assoc (s t u : string) : (s ++ t) ++ u = s ++ (t ++ u).
Proof. induction s as [|a s IH]; cbn; [reflexivity | now rewrite IH]. Qed.

Lemma append_empty (s : string) : s ++ EmptyString = s.
Proof. induction s as [|a s IH]; cbn; [reflexivity | now rewrite IH]. Qed.

Lemma quiet_refl (st : St) : quiet st st.
Proof. now repeat split. Qed.

Lemma quiet_trans (st1 st2 st3 : St) : quiet st1 st2 -> quiet st2 st3 -> quiet st1 st3.
Proof. unfold quiet. intros (-> & -> & ->) (-> & -> & ->). now repeat split. Qed.

Lemma quiet_draw (st : St) :
  quiet st (mkSt (sent st) (logs st) (ticks st) (S (draws st))).
Proof. now repeat split. Qed.

#[local] Hint Resolve quiet_refl quiet_draw : core.

Section Password.

Variable w : World.

Lemma pick_run (s : string) (st : St) :
  s <> EmptyString ->
  exists c,
    In c (chars s) /\
    ResetFreelancerPassword.pick s w st
    = (mkSt (sent st) (logs st) (ticks st) (S (draws st)),
       inr (String c EmptyString)).
Proof.
  intros Hs. unfold ResetFreelancerPassword.pick, bind, randomInt, ret.
  destruct (String.length s) as [|n] eqn:Hlen.
  - destruct s; [contradiction | discriminate].
  - destruct (get_in_chars s (Nat.modulo (entropy w (draws st)) (S n)))
      as (c & Hget & Hin).
    + rewrite Hlen. apply Nat.mod_upper_bound. discriminate.
    + exists c. split; [exact Hin|].
      unfold ResetFreelancerPassword.char_at. now rewrite Hget.
Qed.

Lemma fill_run (n : nat) :
  forall (password : string) (st : St),
  exists st' tail,
    ResetFreelancerPassword.fill n password w st = (st', inr (password ++ tail)) /\
    quiet st st' /\
    String.length tail = n /\
    Forall (in_class ResetFreelancerPassword.allChars) (chars tail).
Proof.
  induction n as [|n IH]; intros password st; cbn [ResetFreelancerPassword.fill].
  - exists st, EmptyString. unfold ret. rewrite append_empty.
    repeat split. constructor.
  - destruct (pick_run ResetFreelancerPassword.allChars st) as (c & Hc & Hp);
      [discriminate|].
    unfold bind. rewrite Hp.
    destruct (IH (password ++ String c EmptyString)
                 (mkSt (sent st) (logs st) (ticks st) (S (draws st))))
      as (st' & tail & Hf & Hq & Hl & Hall).
    exists st', (String c tail). rewrite Hf, append_assoc. cbn.
    split; [reflexivity|]. split; [eapply quiet_trans; eauto|].
    split; [now rewrite Hl|]. constructor; assumption.
Qed.

Lemma shuffle_cmp_never_throws :
  never_throws ResetFreelancerPassword.shuffle_cmp.
Proof.
  intros a b w' st. unfold ResetFreelancerPassword.shuffle_cmp, bind, randomInt, ret.
  eauto.
Qed.

End Password.

Section Sort.

Context {A : Type} (cmp : A -> A -> M Z) (Hcmp : never_throws cmp).

Lemma insert_by_permutes (x : A) (placed : list A) :
  forall w st, exists st' l,
    JsArray.insert_by cmp x placed w st = (st', inr l) /\
    quiet st st' /\
    Permutation (x :: placed) l.
Proof.
  induction placed as [|y rest IH]; intros w st; cbn [JsArray.insert_by].
  - exists st, [x]. repeat split. apply Permutation_refl.
  - unfold bind. destruct (Hcmp x y w st) as (st1 & z & -> & Hq1).
    destruct (z <? 0)%Z.
    + exists st1, (x :: y :: rest).
      split; [reflexivity|]. split; [exact Hq1 | apply Permutation_refl].
    + destruct (IH w st1) as (st2 & l & -> & Hq2 & Hp).
      exists st2, (y :: l). split; [reflexivity|].
      split; [eapply quiet_trans; eauto|].
      eapply Permutation_trans; [apply perm_swap|]. now apply perm_skip.
Qed.

Lemma sort_into_permutes (todo : list A) :
  forall placed w st, exists st' l,
    JsArray.sort_into cmp todo placed w st = (st', inr l) /\
    quiet st st' /\
    Permutation (todo ++ placed) l.
Proof.
  induction todo as [|x rest IH]; intros placed w st; cbn [JsArray.sort_into].
  - exists st, placed. repeat split. apply Permutation_refl.
  - unfold bind.
    destruct (insert_by_permutes x placed w st) as (st1 & l1 & -> & Hq1 & Hp1).
    destruct (IH l1 w st1) as (st2 & l & -> & Hq2 & Hp).
    exists st2, l. split; [reflexivity|].
    split; [eapply quiet_trans; eauto|].
    eapply Permutation_trans; [|exact Hp]. cbn.
    eapply Permutation_trans; [apply Permutation_middle|].
    now apply Permutation_app_head.
Qed.

Lemma sort_permutes (items : list A) :
  forall w st, exists st' l,
    JsArray.sort cmp items w st = (st', inr l) /\
    quiet st st' /\
    Permutation items l.
Proof.
  intros w st. unfold JsArray.sort.
  destruct (sort_into_permutes items [] w st) as (st' & l & H & Hq & Hp).
  exists st', l. split; [exact H|]. split; [exact Hq|].
  now rewrite app_nil_r in Hp.
Qed.

End Sort.


Lemma string_of_chars (l : list ascii) : chars (string_of_list_ascii l) = l.
Proof. apply list_ascii_of_string_of_list_ascii. Qed.

(** The password before the shuffle is one character of each class and
    twelve of any; the shuffle permutes it; nothing but the random source
    is touched. *)
Lemma generateSecurePassword_run (w : World) (st : St) :
  exists st' password cu cl cd cs tail,
    ResetFreelancerPassword.generateSecurePassword w st = (st', inr password) /\
    quiet st st' /\
    in_class ResetFreelancerPassword.uppercase cu /\
    in_class ResetFreelancerPassword.lowercase cl /\
    in_class ResetFreelancerPassword.numbers cd /\
    in_class ResetFreelancerPassword.symbols cs /\
    List.length tail = 12%nat /\
    Forall (in_class ResetFreelancerPassword.allChars) tail /\
    Permutation (cu :: cl :: cd :: cs :: tail) (chars password).
Proof.
  unfold ResetFreelancerPassword.generateSecurePassword, bind.
  destruct (pick_run w ResetFreelancerPassword.uppercase st) as (cu & Hu & ->);
    [discriminate|].
  destruct (pick_run w ResetFreelancerPassword.lowercase
              (mkSt (sent st) (logs st) (ticks st) (S (draws st))))
    as (cl & Hl & ->); [discriminate|].
  match goal with |- context [ResetFreelancerPassword.pick _ w ?s] =>
    destruct (pick_run w ResetFreelancerPassword.numbers s) as (cd & Hd & ->);
      [discriminate|] end.
  match goal with |- context [ResetFreelancerPassword.pick _ w ?s] =>
    destruct (pick_run w ResetFreelancerPassword.symbols s) as (cs & Hs & ->);
      [discriminate|] end.
  cbn [append String.length ResetFreelancerPassword.length Nat.sub].
  match goal with |- context [ResetFreelancerPassword.fill ?n ?p w ?s] =>
    destruct (fill_run w n p s) as (st1 & tail & -> & Hq1 & Hlen & Htail) end.
  match goal with |- context [JsArray.sort _ ?l w ?s] =>
    destruct (sort_permutes ResetFreelancerPassword.shuffle_cmp
                shuffle_cmp_never_throws l w s)
      as (st2 & shuffled & -> & Hq2 & Hperm)
  end.
  exists st2, (string_of_list_ascii shuffled), cu, cl, cd, cs, (chars tail).
  unfold ret. split; [reflexivity|].
  split.
  { eapply quiet_trans; [|exact Hq2]. eapply quiet_trans; [|exact Hq1].
    now repeat split. }
  rewrite string_of_chars, chars_length.
  repeat split; assumption.
Qed.


(** ** The activity webhook, step by step *)

Section ActivitySteps.

Import HandleActivityResponse.

Variables (w : World) (st : St).

Lemma getSharePointSiteId_run :
  exists lg,
    getSharePointSiteId w st
    = (mkSt (sent st ++ graph_exchanges w (sent st) site_request)
            (logs st ++ lg) (ticks st) (draws st),
       match graph_result w (sent st) site_request with
       | inl e => inl e
       | inr site => getProp site "id"
       end).
Proof.
  unfold getSharePointSiteId. run_monad.
  destruct (graph_result w (sent st) site_request) as [e|site]; msimpl.
  - rewrite <- app_assoc. eauto.
  - destruct (getProp site "id") as [e|id]; msimpl; rewrite <- !app_assoc; eauto.
Qed.

Lemma updateSharePointItem_run (siteId itemId fields : Value) :
  let req := patch_request siteId itemId fields in
  exists lg,
    updateSharePointItem siteId itemId fields w st
    = (mkSt (sent st ++ graph_exchanges w (sent st) req)
            (logs st ++ lg) (ticks st) (draws st),
       match graph_result w (sent st) req with
       | inl e => inl e
       | inr _ => inr tt
       end).
Proof.
  intros req. unfold updateSharePointItem. run_monad. fold req.
  destruct (graph_result w (sent st) req) as [e|v]; msimpl;
    rewrite <- !app_assoc; eauto.
Qed.

Lemma removeUserFromGroup_steps (userId : Value) :
  let req := remove_member_request userId in
  exists lg,
    removeUserFromGroup userId w st
    = (mkSt (sent st ++ graph_exchanges w (sent st) req)
            (logs st ++ lg) (ticks st) (draws st),
       match graph_result w (sent st) req with
       | inl e => if status_is e 404 then inr tt else inl e
       | inr _ => inr tt
       end).
Proof.
  intros req. unfold removeUserFromGroup. run_monad. fold req.
  destruct (graph_result w (sent st) req) as [e|v]; msimpl.
  - destruct (status_is e 404); msimpl; rewrite <- !app_assoc; eauto.
  - rewrite <- !app_assoc; eauto.
Qed.

Lemma sendConfirmationEmail_run (recipientEmail firstName : Value) :
  let req := confirmation_request recipientEmail firstName in
  exists lg,
    sendConfirmationEmail recipientEmail firstName w st
    = (mkSt (sent st ++ graph_exchanges w (sent st) req)
            (logs st ++ lg) (ticks st) (draws st),
       inr tt) /\
    forall e, graph_result w (sent st) req = inl e ->
              In (LogError "‚ùå Error sending confirmation email:" e) lg.
Proof.
  intros req. unfold sendConfirmationEmail. run_monad. fold req.
  destruct (graph_result w (sent st) req) as [e|v]; msimpl;
    rewrite <- !app_assoc; eexists; (split; [reflexivity|]).
  - intros e' [= <-]. cbn. auto.
  - discriminate.
Qed.


End ActivitySteps.

Lemma lower_not_empty (s lowered : string) :
  toLowerCase s = lowered -> lowered <> EmptyString ->
  truthy (Str s) = true.
Proof. destruct s; cbn; [congruence | reflexivity]. Qed.

Lemma mails_app (xs ys : list Exchange) :
  mails (xs ++ ys) = (mails xs ++ mails ys)%list.
Proof. unfold mails, requests. now rewrite map_app, filter_app. Qed.

Lemma mails_graph_other (w : World) (h : list Exchange) (req : Request) :
  is_sendMail req = false -> mails (graph_exchanges w h req) = [].
Proof.
  intros H. unfold mails.
  destruct (graph_requests w h req) as [-> | ->]; cbn; now rewrite ?H.
Qed.

(** ** Declining without a manager address *)

(** The run of a declined answer without a manager address, in terms
    of the requests the handler builds. *)
Lemma declined_steps :
  forall (w : World) (st : St) (fields : list (string * Value)) (response : string),
    lookup "response" fields = Str response ->
    toLowerCase response = "no" ->
    truthy (lookup "supplierEmail" fields) = true ->
    truthy (lookup "entraObjectId" fields) = true ->
    truthy (lookup "sharePointItemId" fields) = true ->
    lookup "requestedByEmail" fields = Undefined ->
    let run := HandleActivityResponse.handleActivityResponse
                 (mkRequest (inr (Obj fields))) w st in
    mails (sent (fst run)) = mails (sent st) /\
    forall site siteId,
      let lookup_site := HandleActivityResponse.site_request in
      let removal := HandleActivityResponse.remove_member_request
                       (lookup "entraObjectId" fields) in
      let patch := HandleActivityResponse.patch_request siteId
                     (lookup "sharePointItemId" fields)
                     (HandleActivityResponse.removed_fields
                        (toISOString (clock w (ticks st)))) in
      let h1 := (sent st ++ graph_exchanges w (sent st) lookup_site)%list in
      let h2 := (h1 ++ graph_exchanges w h1 removal)%list in
      graph_result w (sent st) lookup_site = inr site ->
      getProp site "id" = inr siteId ->
      ((exists v, graph_result w h1 removal = inr v) \/
       (exists e, graph_result w h1 removal = inl e /\ statusCode e = Some 404)) ->
      (exists v, graph_result w h2 patch = inr v) ->
      sent (fst run) = (h2 ++ graph_exchanges w h2 patch)%list /\
      exists r,
        snd run = inr r /\
        status r = 200 /\
        getProp (jsonBody r) "success" = inr (Bool true) /\
        getProp (jsonBody r) "action" = inr (Str "license_removed").
Proof.
  intros w st fields response Hresp Hlow Hmail Hoid Hitem Hmgr run. subst run.
  assert (Htruthy : truthy (Str response) = true)
    by (apply (lower_not_empty _ _ Hlow); discriminate).
  unfold HandleActivityResponse.handleActivityResponse,
    HandleActivityResponse.handleActivityResponse_try,
    HandleActivityResponse.handleActivityResponse_catch.
  run_monad. cbn [json getProp].
  rewrite Hresp, Htruthy, Hmail, Hoid, Hitem, Hmgr. msimpl.
  cbn [HandleActivityResponse.lower_response negb orb]. rewrite Hlow. msimpl.
  change ("no" =? "yes") with false. change ("no" =? "no") with true.
  cbn [truthy].
  match goal with |- context [HandleActivityResponse.getSharePointSiteId w ?s] =>
    destruct (getSharePointSiteId_run w s) as (lg1 & ->) end.
  msimpl.
  destruct (graph_result w (sent st) HandleActivityResponse.site_request)
    as [e|site] eqn:Hsite.
  { msimpl. split; [|intros; congruence].
    rewrite mails_app, mails_graph_other, app_nil_r; reflexivity. }
  destruct (getProp site "id") as [e|siteId] eqn:Hid.
  { msimpl. split; [|intros; congruence].
    rewrite mails_app, mails_graph_other, app_nil_r; reflexivity. }
  msimpl.
  match goal with |- context [HandleActivityResponse.removeUserFromGroup ?u w ?s] =>
    destruct (removeUserFromGroup_steps w s u) as (lg2 & ->) end.
  msimpl.
  match goal with |- context [HandleActivityResponse.updateSharePointItem ?a ?b ?c w ?s] =>
    pose proof (updateSharePointItem_run w s a b c) as Hpatch end.
  cbv zeta in Hpatch. cbn [fst snd sent logs ticks draws] in Hpatch.
  set (removal := HandleActivityResponse.remove_member_request
                    (lookup "entraObjectId" fields)) in *.
  set (h1 := (sent st ++ graph_exchanges w (sent st)
                HandleActivityResponse.site_request)%list) in *.
  destruct (graph_result w h1 removal) as [e|v] eqn:Hdel.
  - destruct (status_is e 404) eqn:H404; msimpl.
    + destruct Hpatch as (lg3 & ->). msimpl.
      match goal with |- context [graph_result w ?h ?p] =>
        destruct (graph_result w h p) as [e'|v'] eqn:Hp end; msimpl.
      * split.
        -- unfold h1, removal; rewrite !mails_app, !mails_graph_other, !app_nil_r; reflexivity.
        -- intros site' siteId' [= <-] Hid'. rewrite Hid in Hid'.
           injection Hid' as <-. intros _ (v & Hv). congruence.
      * split.
        -- unfold h1, removal; rewrite !mails_app, !mails_graph_other, !app_nil_r; reflexivity.
        -- intros site' siteId' [= <-] Hid'. rewrite Hid in Hid'.
           injection Hid' as <-. intros _ _. split; [reflexivity|].
           eexists. repeat split.
    + split.
      * unfold h1, removal; rewrite !mails_app, !mails_graph_other, !app_nil_r; reflexivity.
      * intros site' siteId' _ _ [(v & Hv) | (e' & [= <-] & He')];
          [discriminate|].
        apply status_is_true in He'. congruence.
  - msimpl. destruct Hpatch as (lg3 & ->). msimpl.
    match goal with |- context [graph_result w ?h ?p] =>
      destruct (graph_result w h p) as [e'|v'] eqn:Hp end; msimpl.
    + split.
      * unfold h1, removal; rewrite !mails_app, !mails_graph_other, !app_nil_r; reflexivity.
      * intros site' siteId' [= <-] Hid'. rewrite Hid in Hid'.
        injection Hid' as <-. intros _ (v0 & Hv). congruence.
    + split.
      * unfold h1, removal; rewrite !mails_app, !mails_graph_other, !app_nil_r; reflexivity.
      * intros site' siteId' [= <-] Hid'. rewrite Hid in Hid'.
        injection Hid' as <-. intros _ _. split; [reflexivity|].
        eexists. repeat split.
Qed.

(** C10, amended.  For an activity answer whose [response] is "no" in any
    casing, whose validated fields are present and whose
    [requestedByEmail] is absent, the handler never sends a mail.  It
    first looks up the intranet site; when that lookup answers with a
    site id, the DELETE of the user's reference among the members of the
    licence group goes through (or is answered 404) and the PATCH of the
    record's fields goes through, the handler has sent exactly these
    three calls, in this order, each after a token request; the fields
    written are [supplierdb_SendToEntra: false], the status
    "License Removed - User Declined" and the removal date; and the answer
    is 200 with [success: true] and [action: "license_removed"]. *)
Theorem declined_without_manager :
  forall (w : World) (st : St) (fields : list (string * Value)) (response : string),
    lookup "response" fields = Str response ->
    toLowerCase response = "no" ->
    truthy (lookup "supplierEmail" fields) = true ->
    truthy (lookup "entraObjectId" fields) = true ->
    truthy (lookup "sharePointItemId" fields) = true ->
    lookup "requestedByEmail" fields = Undefined ->
    let run := HandleActivityResponse.handleActivityResponse
                 (mkRequest (inr (Obj fields))) w st in
    mails (sent (fst run)) = mails (sent st) /\
    forall site siteId,
      let removal := membership_delete (lookup "entraObjectId" fields) in
      let patch := record_patch siteId (lookup "sharePointItemId" fields)
                     (licence_removed_record
                        (toISOString (clock w (ticks st)))) in
      let h1 := (sent st ++ graph_exchanges w (sent st) site_lookup)%list in
      let h2 := (h1 ++ graph_exchanges w h1 removal)%list in
      graph_result w (sent st) site_lookup = inr site ->
      getProp site "id" = inr siteId ->
      ((exists v, graph_result w h1 removal = inr v) \/
       (exists e, graph_result w h1 removal = inl e /\ statusCode e = Some 404)) ->
      (exists v, graph_result w h2 patch = inr v) ->
      requests (sent (fst run))
      = (requests (sent st)
         ++ [token_request; site_lookup;
             token_request; removal;
             token_request; patch])%list /\
      sent (fst run) = (h2 ++ graph_exchanges w h2 patch)%list /\
      exists r,
        snd run = inr r /\
        status r = 200 /\
        getProp (jsonBody r) "success" = inr (Bool true) /\
        getProp (jsonBody r) "action" = inr (Str "license_removed").
Proof.
  intros w st fields response Hresp Hlow Hmail Hoid Hitem Hmgr run.
  destruct (declined_steps w st fields response Hresp Hlow Hmail Hoid Hitem Hmgr)
    as (Hmails & Hsteps).
  split; [exact Hmails|].
  intros site siteId removal patch h1 h2 Hsite Hid Hdel Hpatch.
  destruct (Hsteps site siteId Hsite Hid Hdel Hpatch) as (Hs & Hr).
  assert (Hs' : sent (fst run) = (h2 ++ graph_exchanges w h2 patch)%list)
    by exact Hs.
  split; [|split; [exact Hs' | exact Hr]].
  rewrite Hs'. unfold h2 at 1. unfold h1 at 1.
  rewrite !requests_app.
  rewrite (graph_requests_ok _ _ _ _ Hsite).
  destruct Hpatch as (v & Hv). rewrite (graph_requests_ok _ _ _ _ Hv).
  assert (Hrem : requests (graph_exchanges w h1 removal) = [token_request; removal]).
  { destruct Hdel as [(v' & Hv') | (e & He & H404)].
    - exact (graph_requests_ok _ _ _ _ Hv').
    - destruct (graph_result_refused _ _ _ _ He) as (tok & ->);
        [rewrite H404; discriminate | reflexivity]. }
  rewrite Hrem. now rewrite <- !app_assoc.
Qed.

Lemma declined_without_manager_witness :
  let w := Scenario.strict_world (inr Undefined) (inr Undefined) in
  let run := HandleActivityResponse.handleActivityResponse
               (mkRequest (inr (Obj Scenario.activity_no_without_manager)))
               w St0 in
  mails (sent (fst run)) = [] /\
  requests (sent (fst run))
  = [token_request;
     HttpGet "/sites/egginthenest.sharepoint.com:/sites/INTRANET" None None;
     token_request;
     HttpDelete "/groups/1263971a-19e5-42d1-a25e-36d71ec76014/members/u-1/$ref";
     token_request;
     HttpPatch
       "/sites/site-1/lists/ebfc366f-f3ca-4230-8f81-25d4e23d5f0b/items/42/fields"
       (Obj [("supplierdb_SendToEntra", Bool false);
             ("supplierdb_ActivityCheckStatus",
                Str "License Removed - User Declined");
             ("supplierdb_LicenseRemovedDate",
                Str "2025-01-01T00:00:00.000Z")])] /\
  exists r,
    snd run = inr r /\
    status r = 200 /\
    getProp (jsonBody r) "success" = inr (Bool true) /\
    getProp (jsonBody r) "action" = inr (Str "license_removed").
Proof.
  destruct (declined_without_manager
              (Scenario.strict_world (inr Undefined) (inr Undefined)) St0
              Scenario.activity_no_without_manager "No"
              eq_refl eq_refl eq_refl eq_refl eq_refl eq_refl) as [Hm H].
  split; [exact Hm|].
  destruct (H Scenario.site1 (Str "site-1") eq_refl eq_refl
              (or_introl (ex_intro _ Undefined eq_refl))
              (ex_intro _ Undefined eq_refl)) as (Hreq & _ & Hr).
  split; [exact Hreq | exact Hr].
Defined.

(** C10 as stated fails when one of the remote calls fails: the same
    answer, "No" without a manager address, is answered 500 when the site
    lookup is refused (and then neither the removal nor the patch is
    sent), when the removal is refused with a status other than 404 (and
    then no patch is sent), and when the patch is refused. *)
Lemma declined_without_manager_needs_its_calls :
  let request := mkRequest (inr (Obj Scenario.activity_no_without_manager)) in
  let run (w : World) :=
    HandleActivityResponse.handleActivityResponse request w St0 in
  lookup "requestedByEmail" Scenario.activity_no_without_manager = Undefined /\
  (exists r,
     snd (run Scenario.site_denied) = inr r /\
     status r = 500 /\
     sent_of is_delete (sent (fst (run Scenario.site_denied))) = [] /\
     sent_of is_patch (sent (fst (run Scenario.site_denied))) = []) /\
  (exists r,
     snd (run Scenario.removal_denied) = inr r /\
     status r = 500 /\
     sent_of is_patch (sent (fst (run Scenario.removal_denied))) = []) /\
  (exists r,
     snd (run Scenario.patch_denied) = inr r /\
     status r = 500 /\
     getProp (jsonBody r) "action" = inr Undefined).
Proof.
  cbv zeta. split; [reflexivity|].
  split; [|split]; eexists; repeat split.
Qed.

(** ** Notification failures *)

Section ActivityNotifications.

Import HandleActivityResponse.

Variables (w : World) (st : St) (fields : list (string * Value)).
Variables (response : string) (site siteId : Value) (e : Error).

Hypothesis Hresponse : lookup "response" fields = Str response.
Hypothesis Hmail : truthy (lookup "supplierEmail" fields) = true.
Hypothesis Hoid : truthy (lookup "entraObjectId" fields) = true.
Hypothesis Hitem : truthy (lookup "sharePointItemId" fields) = true.
Hypothesis Hsite : graph_result w (sent st) site_request = inr site.
Hypothesis Hid : getProp site "id" = inr siteId.

Let h1 := (sent st ++ graph_exchanges w (sent st) site_request)%list.
Let timestamp := toISOString (clock w (ticks st)).
Let run := handleActivityResponse (mkRequest (inr (Obj fields))) w st.



End ActivityNotifications.

Lemma reset_error_status_not_200 (e : Error) :
  fst (ResetFreelancerPassword.error_status e) <> 200.
Proof.
  unfold ResetFreelancerPassword.error_status.
  destruct (code_is e "Request_ResourceNotFound"); [discriminate|].
  destruct (status_is e 401 || code_is e "InvalidAuthenticationToken");
    [discriminate|].
  destruct (status_is e 403); [discriminate|].
  destruct (status_is e 429); discriminate.
Qed.

Section ResetNotification.

Import ResetFreelancerPassword.

Variables (w : World) (st : St) (fields : list (string * Value)).
Variables (user id upn : Value) (e : Error).

Let ident := or_else (lookup "userPrincipalName" fields) (lookup "userId" fields).
Let firstName := lookup "firstName" fields.
Let lastName := lookup "lastName" fields.
Let personalEmail := lookup "personalEmail" fields.
Let h1 := (sent st ++ graph_exchanges w (sent st) (lookup_request ident))%list.

Hypothesis Hident : truthy ident = true.
Hypothesis HfirstName : truthy firstName = true.
Hypothesis HlastName : truthy lastName = true.
Hypothesis HpersonalEmail : truthy personalEmail = true.
Hypothesis Hlookup : graph_result w (sent st) (lookup_request ident) = inr user.
Hypothesis Hupn : getProp user "userPrincipalName" = inr upn.
Hypothesis Hid : getProp user "id" = inr id.
Hypothesis Hpatch :
  forall password, exists v, graph_result w h1 (password_request id password) = inr v.
Hypothesis Hsend :
  forall password year,
    graph_result w (h1 ++ graph_exchanges w h1 (password_request id password))
      (sendMail_request firstName lastName personalEmail upn password year)
    = inl e.


End ResetNotification.




(* ================================================================== *)
(** * Further properties of the handlers *)
(* ================================================================== *)

(** ** Reading a run backwards *)

Lemma bind_inr {A B} (m : M A) (k : A -> M B) (w : World) (st st' : St) (b : B) :
  bind m k w st = (st', inr b) ->
  exists a st1, m w st = (st1, inr a) /\ k a w st1 = (st', inr b).
Proof.
  unfold bind. destruct (m w st) as [st1 [e|a]]; [discriminate|]. eauto.
Qed.

Lemma try_catch_inr {A} (body : M A) (h : Error -> M A) (w : World)
  (st st' : St) (a : A) :
  try_catch body h w st = (st', inr a) ->
  body w st = (st', inr a) \/
  exists e st1, body w st = (st1, inl e) /\ h e w st1 = (st', inr a).
Proof.
  unfold try_catch. destruct (body w st) as [st1 [e|x]]; eauto.
Qed.

Lemma sent_of_app (kind : Request -> bool) (xs ys : list Exchange) :
  sent_of kind (xs ++ ys) = (sent_of kind xs ++ sent_of kind ys)%list.
Proof. unfold sent_of, requests. now rewrite map_app, filter_app. Qed.

Lemma sent_of_graph_other (kind : Request -> bool) (w : World)
  (h : list Exchange) (req : Request) :
  kind token_request = false -> kind req = false ->
  sent_of kind (graph_exchanges w h req) = [].
Proof.
  intros Ht Hr. unfold sent_of.
  destruct (graph_requests w h req) as [-> | ->]; cbn; now rewrite Ht, ?Hr.
Qed.

Lemma sent_of_graph_ok (kind : Request -> bool) (w : World)
  (h : list Exchange) (req : Request) (v : Value) :
  kind token_request = false -> kind req = true ->
  graph_result w h req = inr v ->
  sent_of kind (graph_exchanges w h req) = [req].
Proof.
  intros Ht Hr Hv. destruct (graph_result_ok _ _ _ _ Hv) as (tok & ->).
  unfold sent_of. cbn. now rewrite Ht, Hr.
Qed.

(** Strips one [bind] after the other off a hypothesis that says a
    computation returned normally, splitting on the conditions met on the
    way. *)
Ltac returned H :=
  repeat first
    [ apply bind_inr in H;
      let a := fresh "a" in
      let s := fresh "s" in
      let Hm := fresh "Hm" in
      destruct H as (a & s & Hm & H); cbv beta zeta in H
    | match type of H with
      | (if ?c then _ else _) _ _ = _ => destruct c
      | (match ?x with Some _ => _ | None => _ end) _ _ = _ => destruct x
      end ].

(** ** Every handler answers *)

Lemma error_status_codes (e : Error) :
  In (fst (ManageLicense.error_status e)) [401; 403; 404; 429; 500] /\
  In (fst (SendEmail.error_status e)) [401; 403; 404; 429; 500] /\
  In (fst (ManageLicenseV1.error_status e)) [401; 403; 404; 500] /\
  In (fst (ResetFreelancerPassword.error_status e)) [401; 403; 404; 429; 500].
Proof.
  unfold ManageLicense.error_status, SendEmail.error_status,
    ManageLicenseV1.error_status, ResetFreelancerPassword.error_status.
  destruct (status_is e 401), (status_is e 403), (status_is e 404),
    (status_is e 429), (code_is e "Request_ResourceNotFound"),
    (code_is e "InvalidAuthenticationToken"); cbn; tauto.
Qed.

Section Answers.

Variables (w : World) (st : St).

Lemma manageLicense_answers (request : HttpRequest) :
  exists st' r,
    ManageLicense.manageLicense request w st = (st', inr r) /\
    In (status r) [200; 400; 401; 403; 404; 429; 500].
Proof.
  unfold ManageLicense.manageLicense, bind at 1, context_log, add_log, try_catch.
  destruct (ManageLicense.manageLicense_try request w _) as [st1 [e|r]] eqn:H.
  - destruct (manageLicense_catch_run w st1 e) as (st' & text & ->).
    eexists _, _. split; [reflexivity|]. cbn [status].
    destruct (error_status_codes e) as (Hc & _). cbn in Hc |- *. tauto.
  - exists st1, r. split; [reflexivity|].
    unfold ManageLicense.manageLicense_try in H. returned H.
    + injection H as _ <-. cbn. tauto.
    + discriminate.
    + injection H as _ <-. cbn. tauto.
Qed.

Lemma sendEmail_answers (body : Value) :
  exists st' r,
    SendEmail.httpTrigger body w st = (st', inr r) /\
    In (status r) [200; 400; 401; 403; 404; 429; 500].
Proof.
  unfold SendEmail.httpTrigger, bind at 1, context_log, add_log, try_catch.
  destruct (SendEmail.httpTrigger_try body w _) as [st1 [e|r]] eqn:H.
  - destruct (sendEmail_catch_run w st1 e) as (st' & text & ->).
    eexists _, _. split; [reflexivity|]. cbn [status].
    destruct (error_status_codes e) as (_ & Hc & _). cbn in Hc |- *. tauto.
  - exists st1, r. split; [reflexivity|].
    unfold SendEmail.httpTrigger_try in H. returned H;
      injection H as _ <-; cbn; tauto.
Qed.

Lemma v1_httpTrigger_answers (body : Value) :
  exists st' r,
    ManageLicenseV1.httpTrigger body w st = (st', inr r) /\
    In (status r) [200; 400; 401; 403; 404; 500].
Proof.
  unfold ManageLicenseV1.httpTrigger, bind at 1, context_log, add_log, try_catch.
  destruct (ManageLicenseV1.httpTrigger_try body w _) as [st1 [e|r]] eqn:H.
  - destruct (v1_catch_run w st1 e) as (st' & text & ->).
    eexists _, _. split; [reflexivity|]. cbn [status].
    destruct (error_status_codes e) as (_ & _ & Hc & _). cbn in Hc |- *. tauto.
  - exists st1, r. split; [reflexivity|].
    unfold ManageLicenseV1.httpTrigger_try in H. returned H;
      try discriminate; injection H as _ <-; cbn; tauto.
Qed.

Lemma handleActivityResponse_answers (request : HttpRequest) :
  exists st' r,
    HandleActivityResponse.handleActivityResponse request w st = (st', inr r) /\
    In (status r) [200; 400; 500].
Proof.
  unfold HandleActivityResponse.handleActivityResponse, bind at 1, context_log,
    add_log, try_catch.
  destruct (HandleActivityResponse.handleActivityResponse_try request w _)
    as [st1 [e|r]] eqn:H.
  - unfold HandleActivityResponse.handleActivityResponse_catch. run_monad.
    eexists _, _. split; [reflexivity|]. cbn. tauto.
  - exists st1, r. split; [reflexivity|].
    unfold HandleActivityResponse.handleActivityResponse_try in H. returned H;
      injection H as _ <-; cbn; tauto.
Qed.

Lemma lookup_user_early (ident : Value) (st0 st1 : St) (response : HttpResponse) :
  ResetFreelancerPassword.lookup_user ident w st0 = (st1, inr (inl response)) ->
  status response = 404 /\
  getProp (jsonBody response) "error" = inr (Str "User not found").
Proof.
  unfold ResetFreelancerPassword.lookup_user. intros H.
  apply try_catch_inr in H. destruct H as [H | (e & s & _ & H)].
  - returned H. discriminate.
  - destruct (status_is e 404); [|discriminate].
    returned H. injection H as _ <-. split; reflexivity.
Qed.

Lemma resetFreelancerPassword_answers (request : HttpRequest) :
  exists st' r,
    ResetFreelancerPassword.resetFreelancerPassword request w st = (st', inr r) /\
    In (status r) [200; 400; 401; 403; 404; 429; 500].
Proof.
  unfold ResetFreelancerPassword.resetFreelancerPassword, bind at 1, context_log,
    add_log, try_catch.
  destruct (ResetFreelancerPassword.resetFreelancerPassword_try request w _)
    as [st1 [e|r]] eqn:H.
  - destruct (reset_catch_run w st1 e) as (st' & text & ->).
    eexists _, _. split; [reflexivity|]. cbn [status].
    destruct (error_status_codes e) as (_ & _ & _ & Hc). cbn in Hc |- *. tauto.
  - exists st1, r. split; [reflexivity|].
    unfold ResetFreelancerPassword.resetFreelancerPassword_try in H. returned H.
    + injection H as _ <-. cbn. tauto.
    + match goal with
      | Hm : ResetFreelancerPassword.lookup_user _ _ _ = (_, inr ?x) |- _ =>
          destruct x as [response|user]
      end.
      * match goal with
        | Hm : ResetFreelancerPassword.lookup_user _ _ _ = _ |- _ =>
            apply lookup_user_early in Hm; destruct Hm as (Hstatus & _)
        end.
        injection H as _ <-. rewrite Hstatus. cbn. tauto.
      * returned H. injection H as _ <-. cbn. tauto.
Qed.

End Answers.

(** X1.  Whatever the request and whatever the remote service, the clock
    and the random source do, each of the five handlers returns a response
    (no exception leaves it), and the status of that response is one of
    200, 400, 401, 403, 404, 429, 500; [handleActivityResponse] only ever
    answers 200, 400 or 500, and the older [manageLicense/index.ts] never
    answers 429. *)
Theorem handlers_always_answer :
  forall (w : World) (st : St),
    (forall request, exists st' r,
       ManageLicense.manageLicense request w st = (st', inr r) /\
       In (status r) [200; 400; 401; 403; 404; 429; 500]) /\
    (forall body, exists st' r,
       SendEmail.httpTrigger body w st = (st', inr r) /\
       In (status r) [200; 400; 401; 403; 404; 429; 500]) /\
    (forall body, exists st' r,
       ManageLicenseV1.httpTrigger body w st = (st', inr r) /\
       In (status r) [200; 400; 401; 403; 404; 500]) /\
    (forall request, exists st' r,
       HandleActivityResponse.handleActivityResponse request w st = (st', inr r) /\
       In (status r) [200; 400; 500]) /\
    (forall request, exists st' r,
       ResetFreelancerPassword.resetFreelancerPassword request w st = (st', inr r) /\
       In (status r) [200; 400; 401; 403; 404; 429; 500]).
Proof.
  intros w st. repeat split.
  - apply manageLicense_answers.
  - apply sendEmail_answers.
  - apply v1_httpTrigger_answers.
  - apply handleActivityResponse_answers.
  - apply resetFreelancerPassword_answers.
Qed.

(** ** The send-mail function *)

Lemma not_empty_truthy (s : string) : s <> EmptyString -> truthy (Str s) = true.
Proof. destruct s; cbn; congruence. Qed.

(** X2.  A payload whose [recipients] is an empty array, or an array of
    more than 50 entries, is answered with 400 and a structured error, and
    nothing is sent to the remote service. *)
Theorem sendEmail_recipient_bounds :
  forall (w : World) (st : St) (fields : list (string * Value)) (items : list Value),
    lookup "recipients" fields = Arr items ->
    items = [] \/ (50 < List.length items)%nat ->
    rejected (SendEmail.httpTrigger (Obj fields) w st) st.
Proof.
  intros w st fields items Hrec Hbound.
  unfold SendEmail.httpTrigger, SendEmail.httpTrigger_try.
  cbn [truthy negb]. run_monad. cbn [getProp]. rewrite Hrec.
  change (SendEmail.length_of (Arr items)) with (Num (Z.of_nat (List.length items))).
  match goal with |- context [if ?c then _ else _] => destruct c eqn:Hc end.
  - msimpl. eexists _, _. repeat split; reflexivity.
  - assert (Hgt : SendEmail.gt_50 (Num (Z.of_nat (List.length items))) = true).
    { destruct Hbound as [-> | Hlen]; [cbn in Hc; discriminate|].
      unfold SendEmail.gt_50. cbn [toNumber]. apply Z.ltb_lt. lia. }
    rewrite Hgt. msimpl. eexists _, _. repeat split; reflexivity.
Qed.

Lemma sendEmail_recipient_bounds_witness :
  rejected (SendEmail.httpTrigger (Obj Scenario.mail_fields_no_recipient)
              Scenario.directory_world St0) St0 /\
  rejected (SendEmail.httpTrigger (Obj Scenario.mail_fields_crowd)
              Scenario.directory_world St0) St0.
Proof.
  split.
  - apply (sendEmail_recipient_bounds Scenario.directory_world St0
             Scenario.mail_fields_no_recipient [] eq_refl).
    left. reflexivity.
  - apply (sendEmail_recipient_bounds Scenario.directory_world St0
             Scenario.mail_fields_crowd (repeat (Str "a@example.org") 51) eq_refl).
    right. cbn. lia.
Defined.

Section SendMail.

Variables (w : World) (st : St) (fields : list (string * Value)).
Variables (items : list Value) (subject body : string).

Hypothesis Hrecipients : lookup "recipients" fields = Arr items.
Hypothesis Hitems : items <> [].
Hypothesis Hmax : (List.length items <= 50)%nat.
Hypothesis Hsubject : lookup "subject" fields = Str subject.
Hypothesis Hsubject_ne : subject <> EmptyString.
Hypothesis Hbody : lookup "body" fields = Str body.
Hypothesis Hbody_ne : body <> EmptyString.
Hypothesis Hfrom : truthy (lookup "from" fields) = true.

Let n := Num (Z.of_nat (List.length items)).
Let post := sendMail_post fields items subject body.

Lemma sendEmail_run :
  exists lg,
    SendEmail.httpTrigger (Obj fields) w st
    = (mkSt (sent st ++ graph_exchanges w (sent st) post)
            (logs st ++ lg) (S (ticks st)) (draws st),
       match graph_result w (sent st) post with
       | inr _ =>
           inr (mkResponse 200
                  (Obj [("success", Bool true);
                        ("message", Str ("Email sent to " ++ toStr n
                                         ++ " recipient(s)"));
                        ("recipientCount", n);
                        ("timestamp", Str (toISOString (clock w (ticks st))))]))
       | inl e =>
           inr (mkResponse (fst (SendEmail.error_status e))
                  (Obj [("success", Bool false);
                        ("error", Str (snd (SendEmail.error_status e)));
                        ("details", Str (message_or e "Unknown error occurred"));
                        ("timestamp", Str (toISOString (clock w (ticks st))))]))
       end) /\
    forall e, graph_result w (sent st) post = inl e ->
              In (LogError "❌ Error sending email:" e) lg.
Proof.
  assert (Hzero : is_zero n = false).
  { unfold n. cbn. destruct items; [contradiction | reflexivity]. }
  assert (Hgt : SendEmail.gt_50 n = false).
  { unfold n, SendEmail.gt_50. cbn [toNumber]. apply Z.ltb_ge. lia. }
  assert (Hsan : SendEmail.sanitizeHtml (Str body)
                 = inr (SendEmail.sanitize_string body)).
  { unfold SendEmail.sanitizeHtml. now rewrite (not_empty_truthy _ Hbody_ne). }
  unfold SendEmail.httpTrigger, SendEmail.httpTrigger_try,
    SendEmail.httpTrigger_catch.
  cbn [truthy negb]. run_monad. cbn [getProp].
  rewrite Hrecipients, Hsubject, Hbody, Hfrom.
  change (SendEmail.length_of (Arr items)) with n.
  rewrite Hzero, Hgt, (not_empty_truthy _ Hsubject_ne),
    (not_empty_truthy _ Hbody_ne), Hsan.
  cbn [truthy negb orb SendEmail.subject_prefix SendEmail.toRecipients]. msimpl.
  fold (sendMail_post fields items subject body). fold post.
  destruct (graph_result w (sent st) post) as [e|v]; msimpl.
  - destruct (SendEmail.error_status e) as [c m]. msimpl.
    rewrite <- !app_assoc. eexists. split; [reflexivity|].
    intros e' [= <-]. cbn. auto 10.
  - rewrite <- !app_assoc. eexists. split; [reflexivity | discriminate].
Qed.

End SendMail.

Lemma continuation_byte (k : N) :
  units_of_byte (ascii_of_N (128 + k mod 64)) = 0%nat.
Proof.
  assert (Hk : (k mod 64 < 64)%N) by (apply N.mod_lt; discriminate).
  remember (k mod 64)%N as m eqn:Hm. clear Hm k.
  unfold units_of_byte, nat_of_ascii.
  rewrite N_ascii_embedding by lia.
  rewrite N2Nat.inj_add.
  change (N.to_nat 128) with 128%nat.
  assert (Hm : (N.to_nat m < 64)%nat) by lia.
  remember (N.to_nat m) as j eqn:Hj. clear Hj Hk m.
  destruct (Nat.ltb_spec (128 + j) 128); [lia|].
  destruct (Nat.ltb_spec (128 + j) 192); [reflexivity | lia].
Qed.

Lemma high_surrogate_length (b c1 c2 : ascii) :
  utf16_length (high_surrogate b c1 c2) = 1%nat.
Proof.
  unfold high_surrogate. cbn [utf16_length].
  now rewrite !continuation_byte.
Qed.

Lemma utf16_prefix_length (s : string) :
  forall n, (utf16_length (utf16_prefix n s) <= n)%nat.
Proof.
  induction s as [|b s IH]; intros n; cbn [utf16_prefix utf16_length]; [lia|].
  destruct (units_of_byte b) as [|[|u]] eqn:Hb.
  - cbn [utf16_length]. rewrite Hb. apply IH.
  - destruct n as [|n]; cbn [utf16_length]; [lia|].
    rewrite Hb. specialize (IH n). lia.
  - destruct n as [|[|n]]; cbn [utf16_length]; [lia | |].
    + rewrite high_surrogate_length. lia.
    + assert (Hu : units_of_byte b = 2%nat).
      { revert Hb. unfold units_of_byte.
        repeat match goal with
               | |- context [if ?c then _ else _] => destruct c
               end; congruence. }
      rewrite Hu. specialize (IH n). lia.
Qed.

Lemma utf16_prefix_ascii (s : string) :
  ascii_only s = true ->
  forall n, utf16_prefix n s = String.substring 0 n s.
Proof.
  unfold ascii_only.
  induction s as [|b s IH]; intros Hs n; cbn [utf16_prefix String.substring].
  - now destruct n.
  - cbn [list_ascii_of_string forallb] in Hs.
    apply andb_true_iff in Hs. destruct Hs as (Hb & Hs).
    unfold units_of_byte. rewrite Hb.
    destruct n as [|n]; [reflexivity|]. now rewrite (IH Hs).
Qed.

(** X3.  For a payload with 1 to 50 recipients, a non-empty string
    subject, a non-empty string body and a sender, when the service
    accepts the mail the function answers 200 with [recipientCount] equal
    to the number of recipients, and the only exchanges it adds are the
    token request and one POST to [/users/{from}/sendMail]; the message
    carries the first 255 code units of the subject (for an ASCII subject
    its first 255 characters; never more than 255 units), the sanitized
    body (whatever [isHtml] says) and one [toRecipients] entry per
    recipient. *)
Theorem sendEmail_sends_once :
  forall (w : World) (st : St) (fields : list (string * Value))
         (items : list Value) (subject body : string) (v : Value),
    lookup "recipients" fields = Arr items ->
    items <> [] ->
    (List.length items <= 50)%nat ->
    lookup "subject" fields = Str subject ->
    subject <> EmptyString ->
    lookup "body" fields = Str body ->
    body <> EmptyString ->
    truthy (lookup "from" fields) = true ->
    let post := sendMail_post fields items subject body in
    graph_result w (sent st) post = inr v ->
    (utf16_length (utf16_prefix 255 subject) <= 255)%nat /\
    (ascii_only subject = true ->
     utf16_prefix 255 subject = String.substring 0 255 subject) /\
    exists st' r tok,
      SendEmail.httpTrigger (Obj fields) w st = (st', inr r) /\
      status r = 200 /\
      getProp (jsonBody r) "success" = inr (Bool true) /\
      getProp (jsonBody r) "recipientCount"
      = inr (Num (Z.of_nat (List.length items))) /\
      sent st' = (sent st ++ [(token_request, inr tok); (post, inr v)])%list.
Proof.
  intros w st fields items subject body v Hr Hi Hm Hs Hsn Hb Hbn Hf post Hv.
  split; [apply utf16_prefix_length|].
  split; [intros Ha; now apply utf16_prefix_ascii|].
  destruct (sendEmail_run w st fields items subject body Hr Hi Hm Hs Hsn Hb Hbn Hf)
    as (lg & Hrun & _).
  fold post in Hrun. rewrite Hv in Hrun.
  destruct (graph_result_ok _ _ _ _ Hv) as (tok & Hx). rewrite Hx in Hrun.
  eexists _, _, tok. split; [exact Hrun|]. repeat split.
Qed.

Lemma sendEmail_sends_once_witness :
  exists st' r,
    SendEmail.httpTrigger (Obj Scenario.mail_fields_accents)
      Scenario.directory_world St0
    = (st', inr r) /\
    status r = 200 /\
    getProp (jsonBody r) "recipientCount" = inr (Num 2).
Proof.
  assert (Hitems : [Str "a@example.org"; Str "b@example.org"] <> [])
    by discriminate.
  assert (Hmax : (List.length [Str "a@example.org"; Str "b@example.org"] <= 50)%nat)
    by (cbn; lia).
  assert (Hsubject : Scenario.subject_accents <> EmptyString) by discriminate.
  assert (Hbody : Scenario.body_nbsp <> EmptyString) by discriminate.
  destruct (sendEmail_sends_once Scenario.directory_world St0
              Scenario.mail_fields_accents
              [Str "a@example.org"; Str "b@example.org"]
              Scenario.subject_accents Scenario.body_nbsp
              Undefined eq_refl Hitems Hmax eq_refl Hsubject eq_refl Hbody
              eq_refl)
    as (_ & _ & st' & r & tok & Hrun & Hstatus & _ & Hcount & _).
  - vm_compute. reflexivity.
  - exists st', r. auto.
Defined.

(** X4.  For the same payloads, when the send fails the failure is not
    swallowed: it is logged with [context.log.error] and the function
    answers with [success: false], the status the table gives for the
    error's [statusCode], and the error's message (or "Unknown error
    occurred" when it has none) as [details]. *)
Theorem sendEmail_failure_is_reported :
  forall (w : World) (st : St) (fields : list (string * Value))
         (items : list Value) (subject body : string) (e : Error),
    lookup "recipients" fields = Arr items ->
    items <> [] ->
    (List.length items <= 50)%nat ->
    lookup "subject" fields = Str subject ->
    subject <> EmptyString ->
    lookup "body" fields = Str body ->
    body <> EmptyString ->
    truthy (lookup "from" fields) = true ->
    graph_result w (sent st) (sendMail_post fields items subject body) = inl e ->
    exists st' r,
      SendEmail.httpTrigger (Obj fields) w st = (st', inr r) /\
      status r = spec_status_table (statusCode e) /\
      getProp (jsonBody r) "success" = inr (Bool false) /\
      getProp (jsonBody r) "details"
      = inr (Str (message_or e "Unknown error occurred")) /\
      In (LogError "❌ Error sending email:" e) (logs st').
Proof.
  intros w st fields items subject body e Hr Hi Hm Hs Hsn Hb Hbn Hf He.
  destruct (sendEmail_run w st fields items subject body Hr Hi Hm Hs Hsn Hb Hbn Hf)
    as (lg & Hrun & Hlog).
  rewrite He in Hrun. eexists _, _. split; [exact Hrun|].
  cbn [status jsonBody logs]. split; [apply error_status_table|].
  repeat split. apply in_or_app. right. now apply Hlog.
Qed.

Lemma sendEmail_failure_is_reported_witness :
  exists st' r,
    SendEmail.httpTrigger (Obj Scenario.mail_fields) Scenario.mail_down St0
    = (st', inr r) /\
    status r = 403 /\
    getProp (jsonBody r) "success" = inr (Bool false).
Proof.
  destruct (sendEmail_failure_is_reported Scenario.mail_down St0 Scenario.mail_fields
              [Str "a@example.org"; Str "b@example.org"] "Hello" "<b>Hi</b>"
              Scenario.accessDenied eq_refl)
    as (st' & r & Hrun & Hstatus & Hbody & _);
    try reflexivity; try discriminate.
  - cbn. lia.
  - exists st', r. auto.
Defined.

(** X5.  A payload that passes the presence checks but whose [body] or
    [subject] is not a string (a number, an object, [true]) makes the
    function fail on [html.replace] or [subject.substring] before the
    client is used: the answer is 500 with [success: false] and nothing
    is sent to the remote service. *)
Theorem sendEmail_rejects_non_strings_late :
  forall (w : World) (st : St) (fields : list (string * Value)) (items : list Value),
    lookup "recipients" fields = Arr items ->
    items <> [] ->
    (List.length items <= 50)%nat ->
    truthy (lookup "subject" fields) = true ->
    truthy (lookup "body" fields) = true ->
    truthy (lookup "from" fields) = true ->
    is_string (lookup "body" fields) = false \/
    is_string (lookup "subject" fields) = false ->
    exists st' r,
      SendEmail.httpTrigger (Obj fields) w st = (st', inr r) /\
      status r = 500 /\
      getProp (jsonBody r) "success" = inr (Bool false) /\
      sent st' = sent st.
Proof.
  intros w st fields items Hr Hi Hm Hs Hb Hf Hbad.
  assert (Hzero : is_zero (Num (Z.of_nat (List.length items))) = false).
  { cbn. destruct items; [contradiction | reflexivity]. }
  assert (Hgt : SendEmail.gt_50 (Num (Z.of_nat (List.length items))) = false).
  { unfold SendEmail.gt_50. cbn [toNumber]. apply Z.ltb_ge. lia. }
  unfold SendEmail.httpTrigger, SendEmail.httpTrigger_try,
    SendEmail.httpTrigger_catch.
  cbn [truthy negb]. run_monad. cbn [getProp].
  rewrite Hr, Hs, Hb, Hf.
  change (SendEmail.length_of (Arr items))
    with (Num (Z.of_nat (List.length items))).
  rewrite Hzero, Hgt. cbn [truthy negb orb]. msimpl.
  unfold SendEmail.sanitizeHtml. rewrite Hb. cbn [negb].
  destruct (lookup "body" fields) as [| |b|z|sb|l|o];
    try discriminate Hb; msimpl;
    try (eexists _, _; split; [reflexivity|]; repeat split).
  destruct Hbad as [Hbad|Hbad]; [discriminate|].
  destruct (lookup "subject" fields) as [| |b|z|ss|l|o];
    try discriminate Hs; try discriminate Hbad;
    cbn [SendEmail.subject_prefix]; msimpl;
    eexists _, _; (split; [reflexivity|]); repeat split.
Qed.

Lemma sendEmail_rejects_non_strings_late_witness :
  exists st' r,
    SendEmail.httpTrigger (Obj Scenario.mail_fields_numeric_body)
      Scenario.directory_world St0 = (st', inr r) /\
    status r = 500 /\
    sent st' = [].
Proof.
  destruct (sendEmail_rejects_non_strings_late Scenario.directory_world St0
              Scenario.mail_fields_numeric_body [Str "a@example.org"] eq_refl)
    as (st' & r & Hrun & Hstatus & _ & Hsent);
    try reflexivity; try discriminate.
  - cbn. lia.
  - left. reflexivity.
  - exists st', r. auto.
Defined.

(** ** Text the sanitizer leaves alone *)

Section Literal.

Import Regex.

Variable s : string.

Lemma rmatch_lit (p : string) :
  forall i caps k,
    rmatch (lit p) s true i caps k
    = if lit_at p s i then k (i + String.length p)%nat caps else None.
Proof.
  induction p as [|c p IH]; intros i caps k.
  - cbn. now rewrite Nat.add_0_r.
  - destruct p as [|c' p].
    + cbn. destruct (String.get i s) as [d|]; [|reflexivity].
      rewrite andb_true_r, Nat.add_1_r. reflexivity.
    + change (lit (String c (String c' p)))
        with (Seq (Char c) (lit (String c' p))).
      cbn [rmatch lit_at]. destruct (String.get i s) as [d|]; [|reflexivity].
      cbn [canon].
      destruct (Ascii.eqb (upper_ascii c) (upper_ascii d)); [|reflexivity].
      rewrite IH. cbn [andb String.length].
      replace (S i + S (String.length p))%nat
        with (i + S (S (String.length p)))%nat by lia.
      reflexivity.
Qed.

Lemma lit_at_longer (c : ascii) (rest : string) (i : nat) :
  lit_at (String c EmptyString) s i = false -> lit_at (String c rest) s i = false.
Proof.
  cbn. destruct (String.get i s) as [d|]; [|reflexivity].
  rewrite andb_true_r. now intros ->.
Qed.

Lemma contains_ci_none (p : string) (i : nat) :
  contains_ci s p = false -> (i <= String.length s)%nat -> lit_at p s i = false.
Proof.
  unfold contains_ci. intros H Hi.
  destruct (lit_at p s i) eqn:E; [|reflexivity].
  assert (Hex : existsb (lit_at p s) (seq 0 (S (String.length s))) = true).
  { apply existsb_exists. exists i. split; [apply in_seq; lia | exact E]. }
  congruence.
Qed.

Lemma substring_all (t : string) : String.substring 0 (String.length t) t = t.
Proof. induction t as [|a t IH]; cbn; [reflexivity | now rewrite IH]. Qed.

Lemma replace_all_no_match (r : Regex) (repl : list ReplItem) :
  (forall i, (i <= String.length s)%nat -> exec_at r true s i = None) ->
  replace_all r true repl s = s.
Proof.
  intros Hnone. unfold replace_all.
  assert (H : forall fuel i,
             replace_from fuel r true repl s i 0
             = String.substring 0 (String.length s - 0) s).
  { induction fuel as [|fuel IH]; intros i; cbn [replace_from]; [reflexivity|].
    destruct (String.length s <? i)%nat eqn:E; [reflexivity|].
    apply Nat.ltb_ge in E. rewrite (Hnone i E). apply IH. }
  rewrite H, Nat.sub_0_r. apply substring_all.
Qed.

Hypothesis Hangle : contains_ci s "<" = false.
Hypothesis Hon : contains_ci s "on" = false.
Hypothesis Hscheme : contains_ci s "javascript:" = false.

Lemma script_blocks_no_match (i : nat) :
  (i <= String.length s)%nat -> exec_at SendEmail.script_blocks true s i = None.
Proof.
  intros Hi. unfold exec_at, SendEmail.script_blocks.
  cbn [seqs]. cbn [rmatch]. rewrite rmatch_lit.
  now rewrite (lit_at_longer _ _ _ (contains_ci_none "<" i Hangle Hi)).
Qed.

Lemma quoted_handlers_no_match (i : nat) :
  (i <= String.length s)%nat -> exec_at SendEmail.quoted_handlers true s i = None.
Proof.
  intros Hi. unfold exec_at, SendEmail.quoted_handlers.
  cbn [seqs]. cbn [rmatch]. rewrite rmatch_lit.
  now rewrite (contains_ci_none "on" i Hon Hi).
Qed.

Lemma bare_handlers_no_match (i : nat) :
  (i <= String.length s)%nat -> exec_at SendEmail.bare_handlers true s i = None.
Proof.
  intros Hi. unfold exec_at, SendEmail.bare_handlers.
  cbn [seqs]. cbn [rmatch]. rewrite rmatch_lit.
  now rewrite (contains_ci_none "on" i Hon Hi).
Qed.

Lemma javascript_scheme_no_match (i : nat) :
  (i <= String.length s)%nat -> exec_at SendEmail.javascript_scheme true s i = None.
Proof.
  intros Hi. unfold exec_at, SendEmail.javascript_scheme.
  rewrite rmatch_lit. now rewrite (contains_ci_none "javascript:" i Hscheme Hi).
Qed.

Lemma data_scheme_no_match (i : nat) :
  (i <= String.length s)%nat -> exec_at SendEmail.data_scheme true s i = None.
Proof.
  intros Hi. unfold exec_at, SendEmail.data_scheme.
  cbn [seqs]. cbn [rmatch].
  pose proof (contains_ci_none "<" i Hangle Hi) as H. cbn [lit_at] in H.
  destruct (String.get i s) as [d|]; [|reflexivity].
  rewrite andb_true_r in H. cbn [canon]. now rewrite H.
Qed.

Lemma sanitize_string_clean : SendEmail.sanitize_string s = s.
Proof.
  unfold SendEmail.sanitize_string. cbv zeta.
  rewrite (replace_all_no_match _ _ script_blocks_no_match).
  rewrite (replace_all_no_match _ _ quoted_handlers_no_match).
  rewrite (replace_all_no_match _ _ bare_handlers_no_match).
  rewrite (replace_all_no_match _ _ javascript_scheme_no_match).
  apply (replace_all_no_match _ _ data_scheme_no_match).
Qed.

End Literal.

(** X6.  A body in which no [<] occurs and neither "on" nor
    "javascript:" occurs in any letter case is returned by [sanitizeHtml]
    exactly as it came. *)
Theorem sanitizeHtml_keeps_clean_text :
  forall s : string,
    contains_ci s "<" = false ->
    contains_ci s "on" = false ->
    contains_ci s "javascript:" = false ->
    SendEmail.sanitizeHtml (Str s) = inr s.
Proof.
  intros s H1 H2 H3. unfold SendEmail.sanitizeHtml.
  destruct s as [|a s]; [reflexivity|].
  cbn [truthy negb String.eqb]. now rewrite (sanitize_string_clean _ H1 H2 H3).
Qed.

Lemma sanitizeHtml_keeps_clean_text_witness :
  SendEmail.sanitizeHtml (Str "Dear Alice, the schedule is attached. 2 > 1")
  = inr "Dear Alice, the schedule is attached. 2 > 1".
Proof.
  apply sanitizeHtml_keeps_clean_text; reflexivity.
Defined.

(** ** More on user resolution *)

Lemma getProp_defined (v : Value) (k : string) :
  nullish v = false -> exists x, getProp v k = inr x.
Proof.
  destruct v; cbn; try discriminate; intros _; eauto;
    destruct (k =? "length"); eauto.
Qed.

Lemma has_match_cons (x : Value) (rest : list Value) :
  ManageLicense.has_match (Arr (x :: rest)) = true /\
  ManageLicenseV1.non_empty (Arr (x :: rest)) = true.
Proof.
  unfold ManageLicense.has_match, ManageLicenseV1.non_empty. cbn. auto.
Qed.

Section ResolveMore.

Variables (w : World) (st : St) (email firstName lastName : Value).

Lemma option34_run :
  let search := ManageLicense.search_request email in
  let invite := ManageLicense.invitation_request email firstName lastName in
  let h := (sent st ++ graph_exchanges w (sent st) search)%list in
  let run := ManageLicense.findOrCreateUser_option34 email firstName lastName w st in
  match graph_result w (sent st) search with
  | inl e => sent (fst run) = h /\ snd run = inl e
  | inr users =>
      match getProp users "value" with
      | inl e => sent (fst run) = h /\ snd run = inl e
      | inr value =>
          if ManageLicense.has_match value then
            sent (fst run) = h /\
            snd run = match getProp (first value) "userPrincipalName" with
                      | inl e => inl e
                      | inr _ => inr (first value)
                      end
          else
            sent (fst run) = (h ++ graph_exchanges w h invite)%list /\
            (forall e, graph_result w h invite = inl e -> snd run = inl e)
      end
  end.
Proof.
  intros search invite h run. subst run h.
  unfold ManageLicense.findOrCreateUser_option34. run_monad. fold search.
  destruct (graph_result w (sent st) search) as [e|users]; msimpl; [auto|].
  destruct (getProp users "value") as [e|value]; msimpl; [auto|].
  destruct (ManageLicense.has_match value); msimpl.
  - destruct (getProp (first value) "userPrincipalName"); msimpl; auto.
  - fold invite. split.
    + destruct (graph_result w _ invite) as [e|inv]; msimpl; [reflexivity|].
      destruct (getProp inv "invitedUser") as [e|iu]; msimpl; [reflexivity|].
      destruct (getProp iu "id") as [e|id]; msimpl; [reflexivity|].
      destruct (getProp inv "invitedUserEmailAddress"); reflexivity.
    + intros e He. rewrite He. reflexivity.
Qed.

Lemma v1_findOrCreateUser_run :
  let search := ManageLicenseV1.search_request email in
  let invite := ManageLicenseV1.invitation_request email firstName lastName in
  let h := (sent st ++ graph_exchanges w (sent st) search)%list in
  let run := ManageLicenseV1.findOrCreateUser email firstName lastName w st in
  match graph_result w (sent st) search with
  | inl e => sent (fst run) = h /\ snd run = inl e
  | inr users =>
      match getProp users "value" with
      | inl e => sent (fst run) = h /\ snd run = inl e
      | inr value =>
          if ManageLicenseV1.non_empty value then
            sent (fst run) = h /\
            snd run = match getProp (first value) "userPrincipalName" with
                      | inl e => inl e
                      | inr _ => inr (first value)
                      end
          else
            sent (fst run) = (h ++ graph_exchanges w h invite)%list /\
            (forall e, graph_result w h invite = inl e -> snd run = inl e)
      end
  end.
Proof.
  intros search invite h run. subst run h.
  unfold ManageLicenseV1.findOrCreateUser. run_monad. fold search.
  destruct (graph_result w (sent st) search) as [e|users]; msimpl; [auto|].
  destruct (getProp users "value") as [e|value]; msimpl; [auto|].
  destruct (ManageLicenseV1.non_empty value); msimpl.
  - destruct (getProp (first value) "userPrincipalName"); msimpl; auto.
  - fold invite. split.
    + destruct (graph_result w _ invite) as [e|inv]; msimpl; [reflexivity|].
      destruct (getProp inv "invitedUser") as [e|iu]; msimpl; [reflexivity|].
      destruct (getProp iu "id") as [e|id]; msimpl; [reflexivity|].
      destruct (getProp inv "invitedUserEmailAddress"); reflexivity.
    + intros e He. rewrite He. reflexivity.
Qed.

(** The outer [try] of [findOrCreateUser] in [manageLicense.ts]: what the
    three strategies yield is passed on; an error is logged first. *)
Lemma findOrCreateUser_steps (entraObjectId entraUPN : Value) :
  let o1 := ManageLicense.findOrCreateUser_option1 entraObjectId w st in
  let o2 := ManageLicense.findOrCreateUser_option2 entraUPN w (fst o1) in
  let o3 := ManageLicense.findOrCreateUser_option34 email firstName lastName
              w (fst o2) in
  let run := ManageLicense.findOrCreateUser
               entraObjectId entraUPN email firstName lastName w st in
  (forall user, snd o1 = inr (Some user) ->
     snd run = inr user /\ sent (fst run) = sent (fst o1)) /\
  (forall user, snd o1 = inr None -> snd o2 = inr (Some user) ->
     snd run = inr user /\ sent (fst run) = sent (fst o2)) /\
  (snd o1 = inr None -> snd o2 = inr None ->
     snd run = snd o3 /\ sent (fst run) = sent (fst o3) /\
     forall e, snd o3 = inl e ->
       In (LogError "❌ Error finding/creating user:" e) (logs (fst run))).
Proof.
  intros o1 o2 o3 run. subst run o3 o2 o1.
  unfold ManageLicense.findOrCreateUser, try_catch, bind, ret, throw,
    context_error, add_log.
  destruct (ManageLicense.findOrCreateUser_option1 entraObjectId w st)
    as [s1 r1]. cbn [fst snd].
  split; [|split].
  - intros user ->. split; reflexivity.
  - intros user ->.
    destruct (ManageLicense.findOrCreateUser_option2 entraUPN w s1)
      as [s2 r2]. cbn [fst snd].
    intros ->. split; reflexivity.
  - intros ->.
    destruct (ManageLicense.findOrCreateUser_option2 entraUPN w s1)
      as [s2 r2]. cbn [fst snd].
    intros ->.
    destruct (ManageLicense.findOrCreateUser_option34 email firstName lastName w s2)
      as [s3 [e|u]]; cbn [fst snd sent logs].
    + repeat split. intros e' [= <-]. apply in_or_app. right. cbn. auto.
    + repeat split. discriminate.
Qed.

End ResolveMore.

Lemma rethrow_is_logged {A} (body : M A) (msg : string) (w : World) (st : St)
  (e : Error) :
  let run := try_catch body
               (fun error => context_error msg error ;; throw error) w st in
  snd run = inl e -> In (LogError msg e) (logs (fst run)).
Proof.
  cbv zeta. unfold try_catch, bind, context_error, add_log, throw.
  destruct (body w st) as [s [e'|a]]; cbn [fst snd logs]; [|discriminate].
  intros [= <-]. apply in_or_app. right. cbn. auto.
Qed.

Lemma v1_findOrCreateUser_logs (w : World) (st : St)
  (email firstName lastName : Value) (e : Error) :
  let run := ManageLicenseV1.findOrCreateUser email firstName lastName w st in
  snd run = inl e ->
  In (LogError "❌ Error finding/creating user:" e) (logs (fst run)).
Proof. unfold ManageLicenseV1.findOrCreateUser. apply rethrow_is_logged. Qed.

(** X7.  In [manageLicense.ts], when the object-id hint is absent, or its
    point lookup fails with any error at all (not only "not found"), and
    the principal-name hint is present and its point lookup returns a
    user record, [findOrCreateUser] returns that record; after the first
    lookup the trace gains only the token request and the GET by
    principal name: no search, no invitation. *)
Theorem findOrCreateUser_falls_back_to_upn :
  forall (w : World) (st : St)
         (entraObjectId entraUPN email firstName lastName user : Value),
    truthy entraUPN = true ->
    truthy entraObjectId = false \/
    (exists e, graph_result w (sent st) (point_lookup entraObjectId) = inl e) ->
    let h1 := if truthy entraObjectId
              then (sent st ++ graph_exchanges w (sent st)
                                 (point_lookup entraObjectId))%list
              else sent st in
    graph_result w h1 (point_lookup entraUPN) = inr user ->
    nullish user = false ->
    let run := ManageLicense.findOrCreateUser
                 entraObjectId entraUPN email firstName lastName w st in
    snd run = inr user /\
    exists tok,
      sent (fst run)
      = (h1 ++ [(token_request, inr tok); (point_lookup entraUPN, inr user)])%list.
Proof.
  intros w st oid upn email fn ln user Hupn Hoid h1 Hget Huser run.
  destruct (option1_run w st oid) as (_ & H1).
  assert (Ho1 : snd (ManageLicense.findOrCreateUser_option1 oid w st) = inr None /\
                sent (fst (ManageLicense.findOrCreateUser_option1 oid w st)) = h1).
  { subst h1. destruct (truthy oid).
    - destruct Hoid as [Hoid | (e & He)]; [discriminate|].
      rewrite He in H1. destruct H1 as (-> & ->). auto.
    - destruct H1 as (-> & ->). auto. }
  destruct Ho1 as (Hr1 & Hs1).
  destruct (option2_run w (fst (ManageLicense.findOrCreateUser_option1 oid w st)) upn)
    as (_ & H2).
  rewrite Hupn, Hs1, Hget, Huser in H2. destruct H2 as (Hs2 & Hr2).
  destruct (findOrCreateUser_steps w st email fn ln oid upn) as (_ & Hstep & _).
  destruct (Hstep user Hr1 Hr2) as (Hr & Hs). fold run in Hr, Hs.
  split; [exact Hr|].
  destruct (graph_result_ok _ _ _ _ Hget) as (tok & Hx).
  exists tok. now rewrite Hs, Hs2, Hx.
Qed.

Lemma findOrCreateUser_falls_back_to_upn_witness :
  snd (ManageLicense.findOrCreateUser (Str "u-1") (Str "alice.talent@egg-events.com")
         (Str "alice@example.org") (Str "Alice") (Str "Martin")
         Scenario.id_lookup_denied St0)
  = inr Scenario.alice.
Proof.
  apply (findOrCreateUser_falls_back_to_upn Scenario.id_lookup_denied St0
           (Str "u-1") (Str "alice.talent@egg-events.com")
           (Str "alice@example.org") (Str "Alice") (Str "Martin") Scenario.alice).
  - reflexivity.
  - right. exists Scenario.accessDenied. reflexivity.
  - reflexivity.
  - reflexivity.
Defined.

(** X8.  When the point lookups return no user and the filtered search
    answers with a non-empty array whose first entry is a record,
    [findOrCreateUser] returns that first entry, whatever follows it, and
    creates no invitation; so does the older [manageLicense/index.ts]. *)
Theorem findOrCreateUser_returns_first_match :
  forall (w : World) (st : St) (email firstName lastName : Value)
         (users first_user : Value) (others : list Value),
    getProp users "value" = inr (Arr (first_user :: others)) ->
    nullish first_user = false ->
    (forall entraObjectId entraUPN,
       let o1 := ManageLicense.findOrCreateUser_option1 entraObjectId w st in
       let o2 := ManageLicense.findOrCreateUser_option2 entraUPN w (fst o1) in
       let search := ManageLicense.search_request email in
       let run := ManageLicense.findOrCreateUser
                    entraObjectId entraUPN email firstName lastName w st in
       snd o1 = inr None ->
       snd o2 = inr None ->
       graph_result w (sent (fst o2)) search = inr users ->
       snd run = inr first_user /\
       sent (fst run)
       = (sent (fst o2) ++ graph_exchanges w (sent (fst o2)) search)%list /\
       invitations (sent (fst run)) = invitations (sent st)) /\
    (let search := ManageLicenseV1.search_request email in
     let run := ManageLicenseV1.findOrCreateUser email firstName lastName w st in
     graph_result w (sent st) search = inr users ->
     snd run = inr first_user /\
     sent (fst run) = (sent st ++ graph_exchanges w (sent st) search)%list /\
     invitations (sent (fst run)) = invitations (sent st)).
Proof.
  intros w st email fn ln users u others Hv Hu.
  destruct (has_match_cons u others) as (Hm & Hm1).
  destruct (getProp_defined u "userPrincipalName" Hu) as (upn & Hupn).
  split.
  - intros oid upn0 o1 o2 search run H1 H2 Hs.
    pose proof (option34_run w (fst o2) email fn ln) as H3.
    destruct (findOrCreateUser_steps w st email fn ln oid upn0) as (_ & _ & Hstep).
    destruct (Hstep H1 H2) as (Hr & Hsent & _).
    pose proof (option1_invitations w st oid) as I1.
    pose proof (option2_invitations w (fst o1) upn0) as I2.
    subst run search o2 o1. cbv zeta in H3.
    rewrite Hs, Hv, Hm in H3. cbn [first] in H3.
    rewrite Hupn in H3. destruct H3 as (Hs3 & Hr3).
    rewrite Hr, Hsent, Hs3. repeat split; [exact Hr3|].
    rewrite invitations_app, invitations_graph_other, app_nil_r by reflexivity.
    now rewrite I2, I1.
  - intros search run Hs.
    pose proof (v1_findOrCreateUser_run w st email fn ln) as H3.
    subst run search. cbv zeta in H3. rewrite Hs, Hv, Hm1 in H3. cbn [first] in H3.
    rewrite Hupn in H3. destruct H3 as (Hs3 & Hr3).
    repeat split; [exact Hr3 | exact Hs3 |].
    rewrite Hs3, invitations_app, invitations_graph_other, app_nil_r; reflexivity.
Qed.

Lemma findOrCreateUser_returns_first_match_witness :
  snd (ManageLicense.findOrCreateUser (Str "u-9") Undefined
         (Str "alice@example.org") (Str "Alice") (Str "Martin")
         Scenario.search_finds_alice St0)
  = inr Scenario.alice /\
  snd (ManageLicenseV1.findOrCreateUser
         (Str "alice@example.org") (Str "Alice") (Str "Martin")
         Scenario.search_finds_alice St0)
  = inr Scenario.alice.
Proof.
  destruct (findOrCreateUser_returns_first_match Scenario.search_finds_alice St0
              (Str "alice@example.org") (Str "Alice") (Str "Martin")
              (Obj [("value", Arr [Scenario.alice])]) Scenario.alice []
              eq_refl eq_refl) as [H2 H1].
  split.
  - apply (H2 (Str "u-9") Undefined eq_refl eq_refl eq_refl).
  - apply (H1 eq_refl).
Defined.

(** X9.  A failure of the filtered search, or of the invitation call
    after a search without match, is logged with
    "Error finding/creating user:" and thrown on unchanged by
    [findOrCreateUser], in both variants; when the search fails no
    invitation is created. *)
Theorem findOrCreateUser_rethrows :
  forall (w : World) (st : St) (email firstName lastName : Value) (e : Error),
    (forall entraObjectId entraUPN,
       let o1 := ManageLicense.findOrCreateUser_option1 entraObjectId w st in
       let o2 := ManageLicense.findOrCreateUser_option2 entraUPN w (fst o1) in
       let search := ManageLicense.search_request email in
       let invite := ManageLicense.invitation_request email firstName lastName in
       let h := (sent (fst o2) ++ graph_exchanges w (sent (fst o2)) search)%list in
       let run := ManageLicense.findOrCreateUser
                    entraObjectId entraUPN email firstName lastName w st in
       snd o1 = inr None ->
       snd o2 = inr None ->
       (graph_result w (sent (fst o2)) search = inl e ->
        snd run = inl e /\
        invitations (sent (fst run)) = invitations (sent st) /\
        In (LogError "❌ Error finding/creating user:" e) (logs (fst run))) /\
       (forall users value,
          graph_result w (sent (fst o2)) search = inr users ->
          getProp users "value" = inr value ->
          ManageLicense.has_match value = false ->
          graph_result w h invite = inl e ->
          snd run = inl e /\
          In (LogError "❌ Error finding/creating user:" e) (logs (fst run)))) /\
    (let search := ManageLicenseV1.search_request email in
     let invite := ManageLicenseV1.invitation_request email firstName lastName in
     let h := (sent st ++ graph_exchanges w (sent st) search)%list in
     let run := ManageLicenseV1.findOrCreateUser email firstName lastName w st in
     (graph_result w (sent st) search = inl e ->
      snd run = inl e /\
      invitations (sent (fst run)) = invitations (sent st) /\
      In (LogError "❌ Error finding/creating user:" e) (logs (fst run))) /\
     (forall users value,
        graph_result w (sent st) search = inr users ->
        getProp users "value" = inr value ->
        ManageLicenseV1.non_empty value = false ->
        graph_result w h invite = inl e ->
        snd run = inl e /\
        In (LogError "❌ Error finding/creating user:" e) (logs (fst run)))).
Proof.
  intros w st email fn ln e. split.
  - intros oid upn o1 o2 search invite h run H1 H2.
    destruct (findOrCreateUser_steps w st email fn ln oid upn) as (_ & _ & Hstep).
    destruct (Hstep H1 H2) as (Hr & Hsent & Hlog).
    pose proof (option34_run w (fst o2) email fn ln) as H3.
    pose proof (option1_invitations w st oid) as I1.
    pose proof (option2_invitations w (fst o1) upn) as I2.
    subst run h invite search o2 o1. cbv zeta in H3. split.
    + intros Hs. rewrite Hs in H3. destruct H3 as (Hs3 & Hr3).
      rewrite Hr, Hsent. split; [exact Hr3|]. split; [|apply Hlog; exact Hr3].
      rewrite Hs3, invitations_app, invitations_graph_other, app_nil_r
        by reflexivity.
      now rewrite I2, I1.
    + intros users value Hs Hv Hm Hi. rewrite Hs, Hv, Hm in H3.
      destruct H3 as (_ & Hr3). specialize (Hr3 e Hi).
      rewrite Hr. split; [exact Hr3 | apply Hlog; exact Hr3].
  - intros search invite h run.
    pose proof (v1_findOrCreateUser_run w st email fn ln) as H3.
    pose proof (v1_findOrCreateUser_logs w st email fn ln e) as Hlog.
    subst run h invite search. cbv zeta in H3, Hlog.
    split.
    + intros Hs. rewrite Hs in H3. destruct H3 as (Hs3 & Hr3).
      split; [exact Hr3|]. split.
      * rewrite Hs3, invitations_app, invitations_graph_other, app_nil_r;
          reflexivity.
      * apply Hlog. exact Hr3.
    + intros users value Hs Hv Hm Hi. rewrite Hs, Hv, Hm in H3.
      destruct H3 as (_ & Hr3). specialize (Hr3 e Hi).
      split; [exact Hr3 | apply Hlog; exact Hr3].
Qed.

Lemma findOrCreateUser_rethrows_witness :
  snd (ManageLicense.findOrCreateUser Undefined Undefined
         (Str "alice@example.org") (Str "Alice") (Str "Martin")
         Scenario.search_denied St0)
  = inl Scenario.accessDenied /\
  snd (ManageLicenseV1.findOrCreateUser
         (Str "alice@example.org") (Str "Alice") (Str "Martin")
         Scenario.invitation_denied St0)
  = inl Scenario.accessDenied.
Proof.
  destruct (findOrCreateUser_rethrows Scenario.search_denied St0
              (Str "alice@example.org") (Str "Alice") (Str "Martin")
              Scenario.accessDenied) as [H2 _].
  destruct (findOrCreateUser_rethrows Scenario.invitation_denied St0
              (Str "alice@example.org") (Str "Alice") (Str "Martin")
              Scenario.accessDenied) as [_ [_ H1]].
  split.
  - destruct (H2 Undefined Undefined eq_refl eq_refl) as [H _].
    apply (H eq_refl).
  - apply (H1 (Obj [("value", Arr [])]) (Arr []) eq_refl eq_refl eq_refl eq_refl).
Defined.

(** ** The license handler, end to end *)

Lemma findOrCreateUser_by_id (w : World) (st : St)
  (entraObjectId entraUPN email firstName lastName user : Value) :
  truthy entraObjectId = true ->
  graph_result w (sent st) (point_lookup entraObjectId) = inr user ->
  nullish user = false ->
  let run := ManageLicense.findOrCreateUser
               entraObjectId entraUPN email firstName lastName w st in
  snd run = inr user /\
  sent (fst run)
  = (sent st ++ graph_exchanges w (sent st) (point_lookup entraObjectId))%list.
Proof.
  intros Hoid Hget Huser run.
  destruct (option1_run w st entraObjectId) as (_ & H1).
  rewrite Hoid, Hget, Huser in H1. destruct H1 as (Hs & Hr).
  destruct (findOrCreateUser_steps w st email firstName lastName
              entraObjectId entraUPN) as (Hstep & _).
  destruct (Hstep user Hr) as (Hr' & Hs'). fold run in Hr', Hs'.
  split; [exact Hr' | now rewrite Hs', Hs].
Qed.

Lemma truthy_id_truthy_user (user id : Value) :
  getProp user "id" = inr id -> truthy id = true -> truthy user = true.
Proof.
  destruct user; cbn; try discriminate; try reflexivity;
    intros [= <-]; discriminate.
Qed.

Section License.

Import ManageLicense.

Variables (w : World) (st : St) (fields : list (string * Value)) (user : Value).

Let entraObjectId := lookup "entraObjectId" fields.
Let isActive := lookup "isActive" fields.
Let h1 := (sent st ++ graph_exchanges w (sent st) (point_lookup entraObjectId))%list.
Let run := manageLicense (mkRequest (inr (Obj fields))) w st.

Hypothesis HuserEmail : truthy (lookup "userEmail" fields) = true.
Hypothesis HfirstName : truthy (lookup "firstName" fields) = true.
Hypothesis HlastName : truthy (lookup "lastName" fields) = true.
Hypothesis HisActive : isActive <> Undefined.
Hypothesis Hoid : truthy entraObjectId = true.
Hypothesis Hlookup : graph_result w (sent st) (point_lookup entraObjectId) = inr user.
Hypothesis Huser : nullish user = false.

Lemma manageLicense_with_id (id : Value) :
  getProp user "id" = inr id ->
  truthy id = true ->
  exists s1 upn,
    sent s1 = h1 /\
    run = try_catch
            ((if truthy isActive then addUserToGroup id
              else removeUserFromGroup id) ;;
             timestamp <- nowISO ;;
             ret (mkResponse 200
                    (Obj [("success", Bool true);
                          ("action",
                             Str (if truthy isActive then "added" else "removed"));
                          ("message",
                             Str (if truthy isActive
                                  then "User added to Office 365 E1 group"
                                  else "User removed from Office 365 E1 group"));
                          ("userPrincipalName", upn);
                          ("userId", id);
                          ("timestamp", Str timestamp)])))
            manageLicense_catch w s1.
Proof.
  intros Hid Htid.
  assert (Hdef : is_undefined isActive = false)
    by (destruct isActive; try reflexivity; contradiction).
  pose proof (truthy_id_truthy_user _ _ Hid Htid) as Htu.
  destruct (getProp_defined user "userPrincipalName" Huser) as (upn & Hupn).
  subst run. unfold manageLicense, manageLicense_try.
  run_monad. cbn [json getProp]. fold isActive entraObjectId.
  rewrite HuserEmail, HfirstName, HlastName, Hdef. cbn [negb orb]. msimpl.
  match goal with |- context [findOrCreateUser ?a ?b ?c ?d ?e w ?s] =>
    destruct (findOrCreateUser_by_id w s a b c d e user Hoid Hlookup Huser)
      as (Hr & Hs);
    destruct (findOrCreateUser a b c d e w s) as [s1 r1]
  end.
  cbn [fst snd sent] in Hr, Hs. subst r1. msimpl.
  rewrite Htu, Hid. msimpl. rewrite Htid. cbn [negb orb]. msimpl.
  rewrite Hupn. msimpl.
  eexists (mkSt (sent s1) _ (ticks s1) (draws s1)), upn.
  split; [exact Hs|]. reflexivity.
Qed.

End License.

(** X10.  For a license request that passes validation and whose object
    id resolves to a user with an [id], what happens to the group follows
    the truth value of [isActive]: a truthy value sends the add-member
    POST and, when it succeeds, the answer is 200 with [action: "added"];
    any other value that is present ([false], [null], [0], an empty
    string) sends the membership DELETE and, when it succeeds, the answer
    is 200 with [action: "removed"].  In both cases [userId] is the
    resolved user's [id] and nothing else is sent after the lookup. *)
Theorem manageLicense_follows_isActive :
  forall (w : World) (st : St) (fields : list (string * Value)) (user id : Value),
    truthy (lookup "userEmail" fields) = true ->
    truthy (lookup "firstName" fields) = true ->
    truthy (lookup "lastName" fields) = true ->
    lookup "isActive" fields <> Undefined ->
    truthy (lookup "entraObjectId" fields) = true ->
    let find := point_lookup (lookup "entraObjectId" fields) in
    let h1 := (sent st ++ graph_exchanges w (sent st) find)%list in
    let run := ManageLicense.manageLicense (mkRequest (inr (Obj fields))) w st in
    graph_result w (sent st) find = inr user ->
    getProp user "id" = inr id ->
    truthy id = true ->
    (truthy (lookup "isActive" fields) = true ->
     forall v,
       graph_result w h1 (ManageLicense.add_member_request id) = inr v ->
       exists st' r,
         run = (st', inr r) /\
         sent st'
         = (h1 ++ graph_exchanges w h1 (ManageLicense.add_member_request id))%list /\
         status r = 200 /\
         getProp (jsonBody r) "action" = inr (Str "added") /\
         getProp (jsonBody r) "userId" = inr id) /\
    (truthy (lookup "isActive" fields) = false ->
     forall v,
       graph_result w h1 (ManageLicense.remove_member_request id) = inr v ->
       exists st' r,
         run = (st', inr r) /\
         sent st'
         = (h1 ++ graph_exchanges w h1 (ManageLicense.remove_member_request id))%list /\
         status r = 200 /\
         getProp (jsonBody r) "action" = inr (Str "removed") /\
         getProp (jsonBody r) "userId" = inr id).
Proof.
  intros w st fields user id He Hf Hl Ha Ho find h1 run Hget Hid Htid.
  assert (Hn : nullish user = false) by (destruct user; cbn in *; congruence).
  destruct (manageLicense_with_id w st fields user He Hf Hl Ha Ho Hget Hn id Hid Htid)
    as (s1 & upn & Hs1 & Hrun).
  fold find h1 run in Hs1, Hrun. split.
  - intros Hact v Hv. rewrite Hrun, Hact. unfold try_catch, bind.
    destruct (addUserToGroup_run w s1 id) as (Hs & _ & Hr). cbv zeta in Hs, Hr.
    destruct (ManageLicense.addUserToGroup id w s1) as [s2 r2].
    cbn [fst snd] in Hs, Hr. rewrite Hs1 in Hs, Hr. rewrite Hv in Hr. subst r2.
    run_monad. eexists _, _. split; [reflexivity|]. msimpl.
    repeat split. exact Hs.
  - intros Hact v Hv. rewrite Hrun, Hact. unfold try_catch, bind.
    destruct (removeUserFromGroup_run w s1 id) as (Hs & _ & Hr). cbv zeta in Hs, Hr.
    destruct (ManageLicense.removeUserFromGroup id w s1) as [s2 r2].
    cbn [fst snd] in Hs, Hr. rewrite Hs1 in Hs, Hr. rewrite Hv in Hr. subst r2.
    run_monad. eexists _, _. split; [reflexivity|]. msimpl.
    repeat split. exact Hs.
Qed.

Lemma manageLicense_follows_isActive_witness :
  (exists st' r,
     ManageLicense.manageLicense (mkRequest (inr (Obj Scenario.license_activate)))
       Scenario.directory_world St0 = (st', inr r) /\
     getProp (jsonBody r) "action" = inr (Str "added")) /\
  (exists st' r,
     ManageLicense.manageLicense
       (mkRequest (inr (Obj Scenario.license_isActive_null)))
       Scenario.directory_world St0 = (st', inr r) /\
     getProp (jsonBody r) "action" = inr (Str "removed")).
Proof.
  split.
  - destruct (manageLicense_follows_isActive Scenario.directory_world St0
                Scenario.license_activate Scenario.alice (Str "u-1"))
      as [H _]; try reflexivity; try discriminate.
    destruct (H eq_refl Undefined eq_refl) as (st' & r & Hrun & _ & _ & Hact & _).
    exists st', r. auto.
  - destruct (manageLicense_follows_isActive Scenario.directory_world St0
                Scenario.license_isActive_null Scenario.alice (Str "u-1"))
      as [_ H]; try reflexivity; try discriminate.
    destruct (H eq_refl Undefined eq_refl) as (st' & r & Hrun & _ & _ & Hact & _).
    exists st', r. auto.
Defined.

(** The user resolution is blind to the log and touches neither the
    group nor anything but users and invitations. *)
Section Frames.

Context {A B : Type}.

Lemma with_logs_eta (st : St) : with_logs (logs st) st = st.
Proof. now destruct st. Qed.

Lemma log_blind_ret (a : A) : log_blind (ret a).
Proof. intros w st lg0. now exists lg0. Qed.

Lemma log_blind_throw (e : Error) : log_blind (throw e : M A).
Proof. intros w st lg0. now exists lg0. Qed.

Lemma log_blind_lift (r : Result A) : log_blind (lift r).
Proof. intros w st lg0. now exists lg0. Qed.

Lemma log_blind_bind (m : M A) (k : A -> M B) :
  log_blind m -> (forall a, log_blind (k a)) -> log_blind (bind m k).
Proof.
  intros Hm Hk w st lg0. unfold bind.
  destruct (Hm w st lg0) as (lg1 & ->).
  destruct (m w st) as [s1 [e|a]]; cbn [fst snd].
  - now exists lg1.
  - destruct (Hk a w s1 lg1) as (lg2 & ->). now exists lg2.
Qed.

Lemma log_blind_try (m : M A) (h : Error -> M A) :
  log_blind m -> (forall e, log_blind (h e)) -> log_blind (try_catch m h).
Proof.
  intros Hm Hh w st lg0. unfold try_catch.
  destruct (Hm w st lg0) as (lg1 & ->).
  destruct (m w st) as [s1 [e|a]]; cbn [fst snd].
  - destruct (Hh e w s1 lg1) as (lg2 & ->). now exists lg2.
  - now exists lg1.
Qed.

Lemma silent_ret (kind : Request -> bool) (a : A) : silent kind (ret a).
Proof. intros w st. reflexivity. Qed.

Lemma silent_throw (kind : Request -> bool) (e : Error) :
  silent kind (throw e : M A).
Proof. intros w st. reflexivity. Qed.

Lemma silent_lift (kind : Request -> bool) (r : Result A) : silent kind (lift r).
Proof. intros w st. reflexivity. Qed.

Lemma silent_bind (kind : Request -> bool) (m : M A) (k : A -> M B) :
  silent kind m -> (forall a, silent kind (k a)) -> silent kind (bind m k).
Proof.
  intros Hm Hk w st. unfold bind. specialize (Hm w st).
  destruct (m w st) as [s1 [e|a]]; cbn [fst snd] in *; [exact Hm|].
  now rewrite (Hk a w s1).
Qed.

Lemma silent_try (kind : Request -> bool) (m : M A) (h : Error -> M A) :
  silent kind m -> (forall e, silent kind (h e)) -> silent kind (try_catch m h).
Proof.
  intros Hm Hh w st. unfold try_catch. specialize (Hm w st).
  destruct (m w st) as [s1 [e|a]]; cbn [fst snd] in *; [|exact Hm].
  now rewrite (Hh e w s1).
Qed.

End Frames.

Lemma log_blind_log (l : LogEntry) : log_blind (add_log l).
Proof. intros w st lg0. now exists (lg0 ++ [l])%list. Qed.

Lemma log_blind_send (req : Request) : log_blind (graph_send req).
Proof. intros w st lg0. now exists lg0. Qed.

Lemma silent_log (kind : Request -> bool) (l : LogEntry) : silent kind (add_log l).
Proof. intros w st. reflexivity. Qed.

Lemma silent_send (kind : Request -> bool) (req : Request) :
  kind token_request = false -> kind req = false ->
  silent kind (graph_send req).
Proof.
  intros Ht Hr w st. unfold graph_send. cbn [fst sent].
  now rewrite sent_of_app, sent_of_graph_other, app_nil_r.
Qed.

Ltac frame_step :=
  first
    [ apply log_blind_ret | apply log_blind_throw | apply log_blind_lift
    | apply log_blind_log | apply log_blind_send
    | apply silent_ret | apply silent_throw | apply silent_lift
    | apply silent_log
    | apply silent_send; [assumption | auto]
    | apply log_blind_bind; [|intros ?]
    | apply log_blind_try; [|intros ?]
    | apply silent_bind; [|intros ?]
    | apply silent_try; [|intros ?]
    | match goal with
      | |- log_blind (if ?b then _ else _) => destruct b
      | |- silent _ (if ?b then _ else _) => destruct b
      | |- log_blind (match ?x with Some _ => _ | None => _ end) => destruct x
      | |- silent _ (match ?x with Some _ => _ | None => _ end) => destruct x
      end ].

Ltac frames :=
  unfold ManageLicense.findOrCreateUser, ManageLicense.findOrCreateUser_option1,
    ManageLicense.findOrCreateUser_option2,
    ManageLicense.findOrCreateUser_option34,
    prop, context_log, context_error;
  repeat frame_step.

Lemma findOrCreateUser_log_blind
  (entraObjectId entraUPN email firstName lastName : Value) :
  log_blind (ManageLicense.findOrCreateUser
               entraObjectId entraUPN email firstName lastName).
Proof. frames. Qed.

Lemma findOrCreateUser_silent (kind : Request -> bool)
  (entraObjectId entraUPN email firstName lastName : Value) :
  kind token_request = false ->
  (forall path filter select, kind (HttpGet path filter select) = false) ->
  (forall body, kind (HttpPost "/invitations" body) = false) ->
  silent kind (ManageLicense.findOrCreateUser
                 entraObjectId entraUPN email firstName lastName).
Proof.
  intros Ht Hget Hpost. frames.
  - apply Hget.
  - apply Hpost.
Qed.

(** X11.  Whichever of its strategies resolved the user (a point lookup,
    the directory search or a fresh invitation), when the record
    [findOrCreateUser] returns is falsy or has no usable [id], the license
    handler sends nothing after the resolution and nothing to the group
    at all, neither an add-member POST nor a DELETE: it throws "Failed to
    find or create user in Entra ID", which its own [catch] turns into a
    500 whose [details] is that text. *)
Theorem manageLicense_needs_user_id :
  forall (w : World) (st : St) (fields : list (string * Value)) (user : Value),
    truthy (lookup "userEmail" fields) = true ->
    truthy (lookup "firstName" fields) = true ->
    truthy (lookup "lastName" fields) = true ->
    lookup "isActive" fields <> Undefined ->
    let resolve := ManageLicense.findOrCreateUser
                     (lookup "entraObjectId" fields) (lookup "entraUPN" fields)
                     (lookup "userEmail" fields) (lookup "firstName" fields)
                     (lookup "lastName" fields) w st in
    snd resolve = inr user ->
    truthy user = false \/
    (exists id, getProp user "id" = inr id /\ truthy id = false) ->
    exists st' r,
      ManageLicense.manageLicense (mkRequest (inr (Obj fields))) w st = (st', inr r) /\
      sent st' = sent (fst resolve) /\
      sent_of is_add_member (sent st') = sent_of is_add_member (sent st) /\
      sent_of is_delete (sent st') = sent_of is_delete (sent st) /\
      status r = 500 /\
      getProp (jsonBody r) "success" = inr (Bool false) /\
      getProp (jsonBody r) "details"
      = inr (Str "Failed to find or create user in Entra ID").
Proof.
  intros w st fields user He Hf Hl Ha resolve Hres Hbad.
  assert (Hdef : is_undefined (lookup "isActive" fields) = false)
    by (destruct (lookup "isActive" fields); try reflexivity; contradiction).
  assert (Hadd : sent_of is_add_member (sent (fst resolve))
                 = sent_of is_add_member (sent st))
    by (apply findOrCreateUser_silent; reflexivity).
  assert (Hdel : sent_of is_delete (sent (fst resolve))
                 = sent_of is_delete (sent st))
    by (apply findOrCreateUser_silent; reflexivity).
  unfold ManageLicense.manageLicense, ManageLicense.manageLicense_try,
    ManageLicense.manageLicense_catch.
  run_monad. cbn [json getProp].
  rewrite He, Hf, Hl, Hdef. cbn [negb orb]. msimpl.
  match goal with
  | |- context [ManageLicense.findOrCreateUser ?a ?b ?c ?d ?e w
                  (mkSt (sent st) ?lg (ticks st) (draws st))] =>
      destruct (findOrCreateUser_log_blind a b c d e w st lg) as (lg1 & Hrun);
      change (mkSt (sent st) lg (ticks st) (draws st)) with (with_logs lg st);
      rewrite Hrun
  end.
  fold resolve. rewrite Hres. unfold with_logs. msimpl.
  destruct (truthy user) eqn:Htu.
  - destruct Hbad as [Hbad | (id & Hid & Htid)]; [discriminate|].
    rewrite Hid. msimpl. rewrite Htid. cbn [negb orb]. msimpl.
    eexists _, _. split; [reflexivity|]. msimpl. repeat split; assumption.
  - msimpl. cbn [negb orb]. msimpl.
    eexists _, _. split; [reflexivity|]. msimpl. repeat split; assumption.
Qed.

Lemma manageLicense_needs_user_id_witness :
  exists st' r,
    ManageLicense.manageLicense (mkRequest (inr (Obj Scenario.license_activate)))
      Scenario.search_finds_nameless St0 = (st', inr r) /\
    status r = 500 /\
    sent_of is_add_member (sent st') = [] /\
    List.length (sent st') = 4%nat.
Proof.
  assert (Hactive : lookup "isActive" Scenario.license_activate <> Undefined)
    by discriminate.
  assert (Hres : snd (ManageLicense.findOrCreateUser
                        (lookup "entraObjectId" Scenario.license_activate)
                        (lookup "entraUPN" Scenario.license_activate)
                        (lookup "userEmail" Scenario.license_activate)
                        (lookup "firstName" Scenario.license_activate)
                        (lookup "lastName" Scenario.license_activate)
                        Scenario.search_finds_nameless St0)
                 = inr Scenario.nameless)
    by (vm_compute; reflexivity).
  destruct (manageLicense_needs_user_id Scenario.search_finds_nameless St0
              Scenario.license_activate Scenario.nameless
              eq_refl eq_refl eq_refl Hactive Hres
              (or_intror (ex_intro _ Undefined (conj eq_refl eq_refl))))
    as (st' & r & Hrun & Hsent & Hadd & _ & Hstatus & _).
  exists st', r. split; [exact Hrun|]. split; [exact Hstatus|].
  split; [exact Hadd|]. rewrite Hsent. vm_compute. reflexivity.
Defined.

(** ** Removal in the older [manageLicense/index.ts] *)



(** ** The activity webhook: order of the steps *)

Ltac activity_start Hresponse Htruthy Hmail Hoid Hitem :=
  unfold HandleActivityResponse.handleActivityResponse,
    HandleActivityResponse.handleActivityResponse_try,
    HandleActivityResponse.handleActivityResponse_catch;
  run_monad; cbn [json getProp];
  rewrite Hresponse, Htruthy, Hmail, Hoid, Hitem;
  cbn [HandleActivityResponse.lower_response negb orb]; msimpl;
  match goal with
  | |- context [HandleActivityResponse.getSharePointSiteId ?w ?s] =>
      let lg := fresh "lg" in
      destruct (getSharePointSiteId_run w s) as (lg & ->)
  end;
  msimpl.

(** X13.  An activity answer whose [response] is a non-empty string other
    than "yes" or "no" is found out only after the SharePoint site has
    been looked up: the trace gains the exchanges of that lookup and
    nothing else; when the lookup answers with a site id the handler
    answers 400 and quotes the value as it was sent, and when the lookup
    fails it answers 500. *)
Theorem activity_invalid_response_checked_late :
  forall (w : World) (st : St) (fields : list (string * Value)) (response : string),
    lookup "response" fields = Str response ->
    response <> EmptyString ->
    toLowerCase response <> "yes" ->
    toLowerCase response <> "no" ->
    truthy (lookup "supplierEmail" fields) = true ->
    truthy (lookup "entraObjectId" fields) = true ->
    truthy (lookup "sharePointItemId" fields) = true ->
    let run := HandleActivityResponse.handleActivityResponse
                 (mkRequest (inr (Obj fields))) w st in
    let find := HandleActivityResponse.site_request in
    sent (fst run) = (sent st ++ graph_exchanges w (sent st) find)%list /\
    (forall site siteId,
       graph_result w (sent st) find = inr site ->
       getProp site "id" = inr siteId ->
       exists r,
         snd run = inr r /\
         status r = 400 /\
         getProp (jsonBody r) "error"
         = inr (Str ("Invalid response value: " ++ response
                     ++ ". Expected 'yes' or 'no'."))) /\
    (forall e,
       graph_result w (sent st) find = inl e ->
       exists r, snd run = inr r /\ status r = 500).
Proof.
  intros w st fields response Hresponse Hne Hyes Hno Hmail Hoid Hitem run find.
  subst run find.
  pose proof (not_empty_truthy _ Hne) as Htruthy.
  apply String.eqb_neq in Hyes. apply String.eqb_neq in Hno.
  activity_start Hresponse Htruthy Hmail Hoid Hitem.
  destruct (graph_result w (sent st) HandleActivityResponse.site_request)
    as [e|site]; msimpl.
  - split; [reflexivity|]. split; [intros; discriminate|].
    intros e' _. eexists. split; reflexivity.
  - destruct (getProp site "id") as [e|siteId] eqn:Hid; msimpl.
    + split; [reflexivity|]. split; [|intros; discriminate].
      intros site' siteId' [= <-] Hid'. congruence.
    + rewrite Hyes, Hno. msimpl.
      split; [reflexivity|]. split; [|intros; discriminate].
      intros site' siteId' _ _. eexists. repeat split.
Qed.

Lemma activity_invalid_response_checked_late_witness :
  let run := HandleActivityResponse.handleActivityResponse
               (mkRequest (inr (Obj Scenario.activity_maybe)))
               Scenario.directory_world St0 in
  requests (sent (fst run))
  = [token_request; HandleActivityResponse.site_request] /\
  exists r, snd run = inr r /\ status r = 400.
Proof.
  destruct (activity_invalid_response_checked_late Scenario.directory_world St0
              Scenario.activity_maybe "Maybe" eq_refl)
    as (Hs & H400 & _); try reflexivity; try discriminate.
  cbv zeta. split.
  - rewrite Hs. reflexivity.
  - destruct (H400 Scenario.alice (Str "u-1") eq_refl eq_refl) as (r & Hr & H & _).
    exists r. auto.
Defined.

(** X14.  On the "no" path each step waits for the one before it.  When
    the site lookup fails nothing else is sent; when the group removal
    fails with anything but a 404 no record patch and no mail is sent;
    when the record patch fails no mail is sent.  In each case the answer
    is 500 with the error's message (or "Internal server error") as
    [error]. *)
Theorem activity_no_stops_at_first_failure :
  forall (w : World) (st : St) (fields : list (string * Value))
         (response : string) (e : Error),
    lookup "response" fields = Str response ->
    toLowerCase response = "no" ->
    truthy (lookup "supplierEmail" fields) = true ->
    truthy (lookup "entraObjectId" fields) = true ->
    truthy (lookup "sharePointItemId" fields) = true ->
    let run := HandleActivityResponse.handleActivityResponse
                 (mkRequest (inr (Obj fields))) w st in
    let find := HandleActivityResponse.site_request in
    let removal := HandleActivityResponse.remove_member_request
                     (lookup "entraObjectId" fields) in
    let h1 := (sent st ++ graph_exchanges w (sent st) find)%list in
    let h2 := (h1 ++ graph_exchanges w h1 removal)%list in
    let failed (trace : list Exchange) :=
      sent (fst run) = trace /\
      exists r,
        snd run = inr r /\
        status r = 500 /\
        getProp (jsonBody r) "error"
        = inr (Str (message_or e "Internal server error")) in
    (graph_result w (sent st) find = inl e -> failed h1) /\
    (forall site siteId,
       graph_result w (sent st) find = inr site ->
       getProp site "id" = inr siteId ->
       let patch := HandleActivityResponse.patch_request siteId
                      (lookup "sharePointItemId" fields)
                      (HandleActivityResponse.removed_fields
                         (toISOString (clock w (ticks st)))) in
       (graph_result w h1 removal = inl e ->
        statusCode e <> Some 404 ->
        failed h2) /\
       ((exists v, graph_result w h1 removal = inr v) \/
        (exists e', graph_result w h1 removal = inl e' /\ statusCode e' = Some 404) ->
        graph_result w h2 patch = inl e ->
        failed (h2 ++ graph_exchanges w h2 patch)%list)).
Proof.
  intros w st fields response e Hresponse Hlow Hmail Hoid Hitem
    run find removal h1 h2 failed.
  subst failed run.
  assert (Htruthy : truthy (Str response) = true)
    by (apply (lower_not_empty _ _ Hlow); discriminate).
  activity_start Hresponse Htruthy Hmail Hoid Hitem. rewrite Hlow.
  change ("no" =? "yes") with false. change ("no" =? "no") with true.
  fold find. split.
  - intros ->. msimpl. split; [reflexivity|]. eexists. repeat split.
  - intros site siteId -> Hid. msimpl. rewrite Hid. msimpl.
    match goal with
    | |- context [HandleActivityResponse.removeUserFromGroup ?u w ?s] =>
        destruct (removeUserFromGroup_steps w s u) as (lg2 & ->)
    end.
    msimpl. fold removal h1. split.
    + intros -> H404. apply status_is_false in H404. rewrite H404. msimpl.
      fold h2. split; [reflexivity|]. eexists. repeat split.
    + intros Hdel Hpatch.
      assert (Hremoved :
                match graph_result w h1 removal with
                | inl e0 => if status_is e0 404 then inr tt else inl e0
                | inr _ => inr tt
                end = (inr tt : Result unit)).
      { destruct Hdel as [(v' & ->) | (e' & -> & H404)]; [reflexivity|].
        apply status_is_true in H404. now rewrite H404. }
      rewrite Hremoved. msimpl.
      match goal with
      | |- context [HandleActivityResponse.updateSharePointItem ?a ?b ?c w ?s] =>
          destruct (updateSharePointItem_run w s a b c) as (lg3 & ->)
      end.
      msimpl. fold h2. rewrite Hpatch. msimpl.
      split; [reflexivity|]. eexists. repeat split.
Qed.

Lemma activity_no_stops_at_first_failure_witness :
  let run := HandleActivityResponse.handleActivityResponse
               (mkRequest (inr (Obj Scenario.activity_no_with_manager)))
               Scenario.removal_denied St0 in
  sent_of is_patch (sent (fst run)) = [] /\
  mails (sent (fst run)) = [] /\
  exists r, snd run = inr r /\ status r = 500.
Proof.
  destruct (activity_no_stops_at_first_failure Scenario.removal_denied St0
              Scenario.activity_no_with_manager "NO" Scenario.accessDenied
              eq_refl eq_refl eq_refl eq_refl eq_refl)
    as (_ & Hsteps).
  destruct (Hsteps Scenario.alice (Str "u-1") eq_refl eq_refl) as (Hstop & _).
  destruct Hstop as (Hs & r & Hr & H500 & _);
    [reflexivity | discriminate |].
  cbv zeta. rewrite Hs. repeat split. exists r. auto.
Defined.

(** X15.  A "yes" answer never touches the licence group: whatever the
    remote services answer, the run adds no DELETE to the trace.  When the
    record patch fails no mail is sent and the answer is 500 with the
    error's message; when it succeeds the confirmation mail is attempted
    once and the answer is 200 with action "activity_confirmed" whether
    or not the mail went out. *)
Theorem activity_yes_keeps_licence :
  forall (w : World) (st : St) (fields : list (string * Value)) (response : string),
    lookup "response" fields = Str response ->
    toLowerCase response = "yes" ->
    truthy (lookup "supplierEmail" fields) = true ->
    truthy (lookup "entraObjectId" fields) = true ->
    truthy (lookup "sharePointItemId" fields) = true ->
    let run := HandleActivityResponse.handleActivityResponse
                 (mkRequest (inr (Obj fields))) w st in
    let find := HandleActivityResponse.site_request in
    let h1 := (sent st ++ graph_exchanges w (sent st) find)%list in
    sent_of is_delete (sent (fst run)) = sent_of is_delete (sent st) /\
    (forall site siteId,
       graph_result w (sent st) find = inr site ->
       getProp site "id" = inr siteId ->
       let patch := HandleActivityResponse.patch_request siteId
                      (lookup "sharePointItemId" fields)
                      (HandleActivityResponse.confirmed_fields
                         (toISOString (clock w (ticks st)))) in
       let h2 := (h1 ++ graph_exchanges w h1 patch)%list in
       let mail := HandleActivityResponse.confirmation_request
                     (lookup "supplierEmail" fields)
                     (lookup "firstName" fields) in
       (forall e,
          graph_result w h1 patch = inl e ->
          sent (fst run) = h2 /\
          exists r,
            snd run = inr r /\
            status r = 500 /\
            getProp (jsonBody r) "error"
            = inr (Str (message_or e "Internal server error"))) /\
       (forall v,
          graph_result w h1 patch = inr v ->
          sent (fst run) = (h2 ++ graph_exchanges w h2 mail)%list /\
          exists r,
            snd run = inr r /\
            status r = 200 /\
            getProp (jsonBody r) "action" = inr (Str "activity_confirmed"))).
Proof.
  intros w st fields response Hresponse Hlow Hmail Hoid Hitem run find h1.
  subst run.
  assert (Htruthy : truthy (Str response) = true)
    by (apply (lower_not_empty _ _ Hlow); discriminate).
  activity_start Hresponse Htruthy Hmail Hoid Hitem. rewrite Hlow.
  change ("yes" =? "yes") with true.
  fold find.
  assert (Hfind : sent_of is_delete (graph_exchanges w (sent st) find) = [])
    by (apply sent_of_graph_other; reflexivity).
  destruct (graph_result w (sent st) find) as [e|site] eqn:Hsite; msimpl.
  { split; [|intros; discriminate].
    rewrite sent_of_app, Hfind. apply app_nil_r. }
  destruct (getProp site "id") as [e|siteId] eqn:Hid; msimpl.
  { split; [|intros site' siteId' [= <-]; congruence].
    rewrite sent_of_app, Hfind. apply app_nil_r. }
  match goal with
  | |- context [HandleActivityResponse.updateSharePointItem ?a ?b ?c w ?s] =>
      destruct (updateSharePointItem_run w s a b c) as (lg2 & ->)
  end.
  msimpl. fold h1.
  set (patch := HandleActivityResponse.patch_request siteId
                  (lookup "sharePointItemId" fields)
                  (HandleActivityResponse.confirmed_fields
                     (toISOString (clock w (ticks st))))).
  assert (Hpatch : sent_of is_delete (graph_exchanges w h1 patch) = [])
    by (apply sent_of_graph_other; reflexivity).
  destruct (graph_result w h1 patch) as [e|v] eqn:Hp; msimpl.
  { split.
    - rewrite sent_of_app, Hpatch. unfold h1.
      rewrite sent_of_app, Hfind. now rewrite !app_nil_r.
    - intros site' siteId' [= <-] Hid'.
      assert (siteId' = siteId) by congruence. subst siteId'.
      fold patch. rewrite Hp. split; [|intros; discriminate].
      intros e' [= <-]. split; [reflexivity|]. eexists. repeat split. }
  match goal with
  | |- context [HandleActivityResponse.sendConfirmationEmail ?a ?b w ?s] =>
      destruct (sendConfirmationEmail_run w s a b) as (lg3 & -> & _)
  end.
  msimpl. split.
  - rewrite !sent_of_app, Hpatch. unfold h1.
    rewrite sent_of_app, Hfind.
    rewrite sent_of_graph_other by reflexivity. now rewrite !app_nil_r.
  - intros site' siteId' [= <-] Hid'.
    assert (siteId' = siteId) by congruence. subst siteId'.
    fold patch. rewrite Hp. split; [intros; discriminate|].
    intros v' _. split; [reflexivity|]. eexists. repeat split.
Qed.

Lemma activity_yes_keeps_licence_witness :
  let run := HandleActivityResponse.handleActivityResponse
               (mkRequest (inr (Obj Scenario.activity_yes_fields)))
               Scenario.patch_denied St0 in
  sent_of is_delete (sent (fst run)) = [] /\
  mails (sent (fst run)) = [] /\
  exists r, snd run = inr r /\ status r = 500.
Proof.
  destruct (activity_yes_keeps_licence Scenario.patch_denied St0
              Scenario.activity_yes_fields "yes"
              eq_refl eq_refl eq_refl eq_refl eq_refl)
    as (Hdel & Hsteps).
  destruct (Hsteps Scenario.alice (Str "u-1") eq_refl eq_refl) as (Hfail & _).
  destruct (Hfail Scenario.accessDenied eq_refl) as (Hs & r & Hr & H500 & _).
  cbv zeta. split; [exact Hdel|]. split.
  - rewrite Hs. reflexivity.
  - exists r. auto.
Defined.

(** ** The password reset: order of the steps *)

Section ResetSteps.

Import ResetFreelancerPassword.

Variables (w : World) (st : St) (fields : list (string * Value)).

Let ident := or_else (lookup "userPrincipalName" fields) (lookup "userId" fields).
Let firstName := lookup "firstName" fields.
Let lastName := lookup "lastName" fields.
Let personalEmail := lookup "personalEmail" fields.
Let find := lookup_request ident.
Let h1 := (sent st ++ graph_exchanges w (sent st) find)%list.
Let run := resetFreelancerPassword (mkRequest (inr (Obj fields))) w st.

Hypothesis Hident : truthy ident = true.
Hypothesis HfirstName : truthy firstName = true.
Hypothesis HlastName : truthy lastName = true.
Hypothesis HpersonalEmail : truthy personalEmail = true.

Lemma reset_identified :
  negb (truthy (lookup "userPrincipalName" fields))
  && negb (truthy (lookup "userId" fields)) = false.
Proof.
  unfold ident, or_else in Hident.
  destruct (truthy (lookup "userPrincipalName" fields)); [reflexivity|].
  now rewrite Hident.
Qed.

Ltac reset_start :=
  subst run;
  unfold resetFreelancerPassword, resetFreelancerPassword_try, lookup_user,
    sendPasswordResetEmail, resetFreelancerPassword_catch;
  run_monad; cbn [json getProp];
  fold firstName lastName personalEmail ident;
  rewrite reset_identified, HfirstName, HlastName, HpersonalEmail;
  cbn [negb orb]; msimpl; fold find.

(** X16.  When the user lookup of the password reset fails, the handler
    stops there: the trace holds the lookup only and no random number has
    been drawn.  A failure with status 404 is answered 404 "User not
    found" and names the identifier that was looked up (the principal
    name when it is given, otherwise the user id); any other failure is
    answered by the status table of the handler's [catch] with the
    error's message as [details]. *)
Theorem resetFreelancerPassword_unknown_user :
  forall e : Error,
    graph_result w (sent st) find = inl e ->
    sent (fst run) = h1 /\
    draws (fst run) = draws st /\
    exists r,
      snd run = inr r /\
      getProp (jsonBody r) "success" = inr (Bool false) /\
      (statusCode e = Some 404 ->
       status r = 404 /\
       getProp (jsonBody r) "error" = inr (Str "User not found") /\
       getProp (jsonBody r) "details"
       = inr (Str ("No user found with identifier: " ++ toStr ident))) /\
      (statusCode e <> Some 404 ->
       status r = fst (error_status e) /\
       getProp (jsonBody r) "error" = inr (Str (snd (error_status e))) /\
       getProp (jsonBody r) "details"
       = inr (Str (message_or e "Unknown error"))).
Proof.
  intros e Hlookup. reset_start. rewrite Hlookup. msimpl.
  destruct (status_is e 404) eqn:H404; msimpl.
  - apply status_is_true in H404.
    split; [reflexivity|]. split; [reflexivity|].
    eexists. split; [reflexivity|]. split; [reflexivity|].
    split; [intros _; repeat split | intros K; contradiction].
  - apply status_is_false in H404.
    destruct (error_status e) as [c m] eqn:Hstatus. msimpl.
    split; [reflexivity|]. split; [reflexivity|].
    eexists. split; [reflexivity|]. split; [reflexivity|].
    split; [intros K; contradiction | intros _; repeat split].
Qed.

Variables (user id upn : Value).

Hypothesis Hlookup : graph_result w (sent st) find = inr user.
Hypothesis Hupn : getProp user "userPrincipalName" = inr upn.
Hypothesis Hid : getProp user "id" = inr id.


(** X18.  When the password PATCH fails, no mail is sent and the answer
    carries no [newPassword]: the trace ends with the failed PATCH, the
    status is the one the handler's table gives for the error (never 200)
    and [details] is the error's message. *)
Theorem resetFreelancerPassword_patch_failure :
  forall e : Error,
    (forall password,
        graph_result w h1 (password_request id password) = inl e) ->
    exists password r,
      sent (fst run)
      = (h1 ++ graph_exchanges w h1 (password_request id password))%list /\
      mails (sent (fst run)) = mails (sent st) /\
      snd run = inr r /\
      status r = fst (error_status e) /\
      status r <> 200 /\
      getProp (jsonBody r) "newPassword" = inr Undefined /\
      getProp (jsonBody r) "details" = inr (Str (message_or e "Unknown error")).
Proof.
  intros e Hpatch. reset_start.
  rewrite Hlookup. msimpl. rewrite Hupn. msimpl. rewrite Hid. msimpl.
  match goal with |- context [generateSecurePassword w ?s] =>
    destruct (generateSecurePassword_run w s)
      as (st1 & password & _ & _ & _ & _ & _ & -> & (Hq1 & Hq2 & Hq3) & _) end.
  cbn [sent logs ticks] in Hq1, Hq2, Hq3.
  msimpl. rewrite Hid. msimpl. rewrite Hq1. fold h1.
  rewrite (Hpatch password). msimpl.
  destruct (error_status e) as [c m] eqn:Hstatus. msimpl.
  exists password. eexists.
  split; [reflexivity|]. split.
  { unfold h1. rewrite !mails_app, !mails_graph_other by reflexivity.
    now rewrite !app_nil_r. }
  split; [reflexivity|]. cbn [status jsonBody].
  repeat split.
  pose proof (reset_error_status_not_200 e) as H. now rewrite Hstatus in H.
Qed.

End ResetSteps.

Lemma resetFreelancerPassword_unknown_user_witness :
  let run := ResetFreelancerPassword.resetFreelancerPassword
               (mkRequest (inr (Obj Scenario.reset_fields)))
               (Scenario.refusing_world Scenario.notFound) St0 in
  sent (fst run)
  = [(token_request, inr Scenario.token);
     (HttpGet "/users/u-1" None
        (Some "id,userPrincipalName,displayName,givenName,surname"),
      inl Scenario.notFound)] /\
  draws (fst run) = 0%nat /\
  exists r,
    snd run = inr r /\
    status r = 404 /\
    getProp (jsonBody r) "error" = inr (Str "User not found") /\
    getProp (jsonBody r) "details"
    = inr (Str "No user found with identifier: u-1").
Proof.
  destruct (resetFreelancerPassword_unknown_user
              (Scenario.refusing_world Scenario.notFound) St0 Scenario.reset_fields
              eq_refl eq_refl eq_refl eq_refl Scenario.notFound eq_refl)
    as (Hsent & Hdraws & r & Hr & _ & H404 & _).
  destruct (H404 eq_refl) as (Hstatus & Herror & Hdetails).
  cbv zeta. split; [exact Hsent|]. split; [exact Hdraws|]. exists r. auto.
Defined.


Lemma resetFreelancerPassword_patch_failure_witness :
  let run := ResetFreelancerPassword.resetFreelancerPassword
               (mkRequest (inr (Obj Scenario.reset_fields)))
               Scenario.patch_denied St0 in
  mails (sent (fst run)) = [] /\
  exists r,
    snd run = inr r /\
    status r = 403 /\
    getProp (jsonBody r) "newPassword" = inr Undefined.
Proof.
  destruct (resetFreelancerPassword_patch_failure Scenario.patch_denied St0
              Scenario.reset_fields eq_refl eq_refl eq_refl eq_refl
              Scenario.alice (Str "u-1") (Str "alice.talent@egg-events.com")
              eq_refl eq_refl eq_refl Scenario.accessDenied)
    as (password & r & _ & Hmails & Hr & Hstatus & _ & Hnew & _).
  - intros password. reflexivity.
  - cbv zeta. split; [exact Hmails|]. exists r. auto.
Defined.



(** ** Bodies that are not objects *)

(** X20.  The three handlers that parse the body themselves read its
    fields by plain property access.  A body that parses to null (or is
    undefined) therefore makes the first access throw, and the handler
    answers 500 without having sent anything; a body that is a boolean, a
    number, a string or an array has no such fields and is turned down
    with 400 like an object with missing fields. *)
Theorem non_object_bodies :
  forall (w : World) (st : St) (body : Value),
    is_object body = false ->
    let license := ManageLicense.manageLicense (mkRequest (inr body)) w st in
    let activity := HandleActivityResponse.handleActivityResponse
                      (mkRequest (inr body)) w st in
    let reset := ResetFreelancerPassword.resetFreelancerPassword
                   (mkRequest (inr body)) w st in
    let crashed (run : St * Result HttpResponse) :=
      sent (fst run) = sent st /\
      exists r,
        snd run = inr r /\
        status r = 500 /\
        getProp (jsonBody r) "success" = inr (Bool false) in
    if nullish body
    then crashed license /\ crashed activity /\ crashed reset
    else rejected license st /\ rejected activity st /\ rejected reset st.
Proof.
  intros w st body Hobj license activity reset crashed.
  subst license activity reset crashed.
  unfold rejected,
    ManageLicense.manageLicense, ManageLicense.manageLicense_try,
    ManageLicense.manageLicense_catch,
    HandleActivityResponse.handleActivityResponse,
    HandleActivityResponse.handleActivityResponse_try,
    HandleActivityResponse.handleActivityResponse_catch,
    ResetFreelancerPassword.resetFreelancerPassword,
    ResetFreelancerPassword.resetFreelancerPassword_try,
    ResetFreelancerPassword.resetFreelancerPassword_catch.
  destruct body as [| |b|n|s|items|fields]; try discriminate Hobj;
    run_monad; cbn;
    repeat match goal with
           | |- context [if ?k =? "length" then _ else _] =>
               change (k =? "length") with false; cbn
           end;
    repeat split; eexists; repeat split; try (eexists; repeat split).
Qed.

Lemma non_object_bodies_witness :
  exists r,
    snd (ManageLicense.manageLicense (mkRequest (inr Null))
           (Scenario.directory_world) St0) = inr r /\
    status r = 500.
Proof.
  destruct (non_object_bodies Scenario.directory_world St0 Null eq_refl)
    as ((_ & r & Hr & H500 & _) & _).
  exists r. auto.
Defined.

(** X21.  A [response] field of the activity webhook that is truthy but
    not a string (a number, [true], an array, an object) passes the
    missing-field test and then fails on [toLowerCase]: the handler
    answers 500 with that failure as [error] and nothing has been sent. *)
Theorem activity_response_must_be_string :
  forall (w : World) (st : St) (fields : list (string * Value)),
    truthy (lookup "response" fields) = true ->
    is_string (lookup "response" fields) = false ->
    truthy (lookup "supplierEmail" fields) = true ->
    truthy (lookup "entraObjectId" fields) = true ->
    truthy (lookup "sharePointItemId" fields) = true ->
    let run := HandleActivityResponse.handleActivityResponse
                 (mkRequest (inr (Obj fields))) w st in
    sent (fst run) = sent st /\
    exists r,
      snd run = inr r /\
      status r = 500 /\
      getProp (jsonBody r) "error"
      = inr (Str "activityRequest.response.toLowerCase is not a function").
Proof.
  intros w st fields Htruthy Hstr Hmail Hoid Hitem run. subst run.
  unfold HandleActivityResponse.handleActivityResponse,
    HandleActivityResponse.handleActivityResponse_try,
    HandleActivityResponse.handleActivityResponse_catch.
  run_monad. cbn [json getProp].
  rewrite Htruthy, Hmail, Hoid, Hitem. cbn [negb orb]. msimpl.
  destruct (lookup "response" fields); try discriminate Hstr;
    cbn; (split; [reflexivity|]); eexists; repeat split.
Qed.

Lemma activity_response_must_be_string_witness :
  let fields := [("response", Bool true);
                 ("supplierEmail", Str "alice@example.org");
                 ("entraObjectId", Str "u-1");
                 ("sharePointItemId", Str "42")] in
  exists r,
    snd (HandleActivityResponse.handleActivityResponse
           (mkRequest (inr (Obj fields))) Scenario.directory_world St0) = inr r /\
    status r = 500.
Proof.
  intros fields.
  destruct (activity_response_must_be_string Scenario.directory_world St0 fields
              eq_refl eq_refl eq_refl eq_refl eq_refl)
    as (_ & r & Hr & H500 & _).
  exists r. auto.
Defined.
